(** * AIDE/floc_model.py: flocculation model, shallow embedding

    The Python module computes with floats.  Here a float is read as a real
    number ([R] of the Standard Library): rounding of the last digit, overflow
    and underflow are not part of the model, so an equation below is the
    algebraic law the formula obeys, and numeric arguments are taken to be
    plain Python floats given in the unit each function declares.  The unit
    decorator [u.wraps] and the [.magnitude] projections are then the identity
    on magnitudes.  One effect of binary64 is kept, because it decides what
    [gamma_coag] returns at ordinary doses: in [1 - np.exp(..)] an
    exponential of at most 2^-54 is absorbed and the difference is exactly 1.

    What Python does outside the reals is kept: a float division by zero
    raises, a missing attribute raises, arithmetic on [None] raises, and a
    logarithm or a fractional power that leaves the reals produces inf, nan or
    a complex number without raising. *)

From Stdlib Require Import Reals Lra Lia String ZArith.

Open Scope R_scope.

(** ** Python outcomes *)

(** The exceptions the claims speak about.  The first three are Python
    built-ins and are the only ones the source can raise; the last three are
    the names the specification uses, which no line of the source raises. *)
Inductive exn : Type :=
| AttributeError
| TypeError
| ZeroDivisionError
| UndefinedPrecipitateError
| DomainError
| DimensionMismatchError.

(** Outcome of running a piece of the source.
    [NonReal]: some operation produced inf, nan or a complex number; Python
    raises nothing at that operation, and the model follows the run no
    further. *)
Inductive res (A : Type) : Type :=
| Ok (a : A)
| Raise (e : exn)
| NonReal.

Arguments Ok {A} a.
Arguments Raise {A} e.
Arguments NonReal {A}.

Definition bind {A B : Type} (m : res A) (k : A -> res B) : res B :=
  match m with
  | Ok a => k a
  | Raise e => Raise e
  | NonReal => NonReal
  end.

Notation "x <- m ;; k" := (bind m (fun x => k))
  (at level 61, m at next level, right associativity).

Definition fmap {A B : Type} (f : A -> B) (m : res A) : res B :=
  x <- m ;; Ok (f x).

(** ** Python values and primitive operations *)

(** The value of a numeric attribute: a float or [None]. *)
Inductive pyval : Type :=
| VNone
| VNum (x : R).

(** [obj.attr] where the attribute may not exist on the object. *)
Definition attr (o : option pyval) : res pyval :=
  match o with
  | Some v => Ok v
  | None => Raise AttributeError
  end.

(** An attribute value used as an operand of float arithmetic. *)
Definition num (v : pyval) : res R :=
  match v with
  | VNum x => Ok x
  | VNone => Raise TypeError
  end.

(** [x / y] on Python floats. *)
Definition py_div (x y : R) : res R :=
  if Req_dec_T y 0 then Raise ZeroDivisionError else Ok (x / y).

(** The exponent [y] is an integer-valued float. *)
Definition is_integer (y : R) : {y = IZR (Int_part y)} + {y <> IZR (Int_part y)} :=
  Req_dec_T y (IZR (Int_part y)).

(** [x ** y] on Python floats: a zero base with a negative exponent raises,
    a negative base with a fractional exponent gives a complex number. *)
Definition py_pow (x y : R) : res R :=
  if Rlt_dec 0 x then Ok (Rpower x y)
  else if Req_dec_T x 0 then
    if Rlt_dec y 0 then Raise ZeroDivisionError
    else if Req_dec_T y 0 then Ok 1 else Ok 0
  else
    if is_integer y then Ok (powerRZ x (Int_part y)) else NonReal.

(** [np.log10], [np.log2]: -inf at zero and nan below, with a warning only. *)
Definition np_log10 (x : R) : res R :=
  if Rlt_dec 0 x then Ok (ln x / ln 10) else NonReal.

Definition np_log2 (x : R) : res R :=
  if Rlt_dec 0 x then Ok (ln x / ln 2) else NonReal.

(** [1 - e] in binary64, for [e] the float that [np.exp] returned.  The
    floats just below 1 are 2^-53 apart, so an [e] of at most 2^-54 (the tie
    goes to the even neighbour, which is 1) leaves exactly 1.  Above that the
    difference is read as the real number [1 - e]. *)
Definition np_one_minus (e : R) : R :=
  if Rle_dec e (/ 2 ^ 54) then 1 else 1 - e.

(** Runs [m] for the exceptions it may raise, after an earlier operand of the
    same expression has left the reals: whatever [m] returns, the expression
    is inf or nan. *)
Definition after_nonreal {A B : Type} (m : res A) : res B :=
  _ <- m ;; NonReal.

(** ** class Chemical *)

(** The four [Precip...] attributes exist only once [__init__] (for a
    self-precipitating species) or [define_Precip] has assigned them. *)
Record Chemical : Type := mkChemical {
  name : string;
  Diameter : pyval;
  Density : pyval;
  MolecWeight : pyval;
  AluminumMPM : pyval;
  Precip : string;
  PrecipName : string;
  PrecipDiameter : option pyval;
  PrecipDensity : option pyval;
  PrecipMolecWeight : option pyval;
  PrecipAluminumMPM : option pyval
}.

(** [Chemical.__init__] *)
Definition Chemical_init (nm : string) (diameter density molecWeight : pyval)
    (Precipitate : string) (alumMPM : pyval) : Chemical :=
  if String.eqb Precipitate nm then
    {| name := nm; Diameter := diameter; Density := density;
       MolecWeight := molecWeight; AluminumMPM := alumMPM;
       Precip := Precipitate;
       PrecipName := nm;
       PrecipDiameter := Some diameter;
       PrecipDensity := Some density;
       PrecipMolecWeight := Some molecWeight;
       PrecipAluminumMPM := Some alumMPM |}
  else
    {| name := nm; Diameter := diameter; Density := density;
       MolecWeight := molecWeight; AluminumMPM := alumMPM;
       Precip := Precipitate;
       PrecipName := Precipitate;
       PrecipDiameter := None;
       PrecipDensity := None;
       PrecipMolecWeight := None;
       PrecipAluminumMPM := None |}.

(** [Chemical.define_Precip]: the mutation, as the object after the call. *)
Definition define_Precip (self : Chemical)
    (diameter density molecweight alumMPM : pyval) : Chemical :=
  {| name := name self; Diameter := Diameter self; Density := Density self;
     MolecWeight := MolecWeight self; AluminumMPM := AluminumMPM self;
     Precip := Precip self;
     PrecipName := PrecipName self;
     PrecipDiameter := Some diameter;
     PrecipDensity := Some density;
     PrecipMolecWeight := Some molecweight;
     PrecipAluminumMPM := Some alumMPM |}.

(** Modelled from the spec: the Quantity/Dimension Facility ([AIDE.units])
    is not part of the sources at hand; [(x * u.nm).to(u.m).magnitude]
    converts nanometres to metres. *)
Definition nm_to_m (x : R) : R := x * / 10 ^ 9.

(** ** Chemical definitions *)

Definition PACl : Chemical :=
  Chemical_init "PACl" (VNum (nm_to_m 90)) (VNum 1138) (VNum 1.039)
                "PACl" (VNum 13).

Definition Alum_constructed : Chemical :=
  Chemical_init "Alum" (VNum (nm_to_m 70)) (VNum 2420) (VNum 0.59921)
                "AlOH3" (VNum 2).

Definition Alum : Chemical :=
  define_Precip Alum_constructed
                (VNum (nm_to_m 70)) (VNum 2420) (VNum 0.078) (VNum 1).

Definition HumicAcid : Chemical :=
  Chemical_init "Humic Acid" (VNum (72 * / 10 ^ 9)) (VNum 1780) VNone
                "Humic Acid" VNone.

(** ** Constants *)

Definition DIAM_FRACTAL : R := 2.3.
Definition DIAM_CLAY : R := 7 * / 10 ^ 6.
Definition RATIO_HEIGHT_DIAM : R := 0.1.
Definition DENS_CLAY : R := 2650.
Definition RATIO_KOLMOGOROV : R := 50.
Definition PHI_FLOC : R := 45 / 24.
Definition NUM_AVOGADRO : R := 6.0221415 * 10 ^ 23.
Definition MOLEC_WEIGHT_ALUMINUM : R := 0.027.

(** ** Functions

    Operands are evaluated left to right, as Python does, so that the first
    failure met is the one Python reports.  A division whose divisor is a
    literal or one of the constants above cannot raise and is written [/]. *)

Definition dens_alum_nanocluster (coag : Chemical) : res R :=
  vd <- attr (PrecipDensity coag) ;;
  d <- num vd ;;
  vm <- attr (PrecipAluminumMPM coag) ;;
  m <- num vm ;;
  vw <- attr (PrecipMolecWeight coag) ;;
  w <- num vw ;;
  py_div (d * MOLEC_WEIGHT_ALUMINUM * m) w.

Definition conc_precipitate (ConcAluminum : R) (coag : Chemical) : res R :=
  vw <- attr (PrecipMolecWeight coag) ;;
  vm <- attr (PrecipAluminumMPM coag) ;;
  w <- num vw ;;
  m <- num vm ;;
  q <- py_div w m ;;
  Ok ((ConcAluminum / MOLEC_WEIGHT_ALUMINUM) * q).

Definition conc_floc (ConcAluminum concClay : R) (coag : Chemical) : res R :=
  c <- conc_precipitate ConcAluminum coag ;;
  Ok (c + concClay).

Definition moles_aluminum (ConcAluminum : R) : res R :=
  Ok (ConcAluminum / MOLEC_WEIGHT_ALUMINUM).

Definition sep_dist_aluminum (ConcAluminum : R) : res R :=
  m <- moles_aluminum ConcAluminum ;;
  q <- py_div 1 (NUM_AVOGADRO * m) ;;
  py_pow q (1 / 3).

Definition num_clay (ConcClay DiamClay : R) : res R :=
  py_div ConcClay ((DENS_CLAY * PI * DiamClay ^ 3) / 6).

Definition sep_dist_clay (ConcClay DiamClay : R) : res R :=
  q <- py_div DENS_CLAY ConcClay ;;
  py_pow (q * ((PI * DiamClay ^ 3) / 6)) (1 / 3).

Definition num_nanoclusters (ConcAluminum : R) (coag : Chemical) : res R :=
  d <- dens_alum_nanocluster coag ;;
  dia <- num (Diameter coag) ;;
  py_div ConcAluminum (d * PI * dia ^ 3).

Definition frac_vol_floc_initial (ConcAluminum ConcClay : R)
    (coag : Chemical) : res R :=
  c <- conc_precipitate ConcAluminum coag ;;
  vd <- attr (PrecipDensity coag) ;;
  d <- num vd ;;
  q <- py_div c d ;;
  Ok (q + ConcClay / DENS_CLAY).

(** *** p functions *)

Definition p (C Cprime : R) : res R :=
  q <- py_div C Cprime ;;
  l <- np_log10 q ;;
  Ok (- l).

Definition invp (pC Cprime : R) : res R :=
  r <- py_pow 10 (- pC) ;;
  Ok (Cprime * r).

(** *** Fractal functions *)

Definition diam_fractal (DiamFractal DiamInitial NumCol : R) : res R :=
  q <- py_div NumCol DiamFractal ;;
  r <- py_pow 2 q ;;
  Ok (DiamInitial * r).

Definition num_coll_reqd (DiamFractal DiamInit DiamTarget : R) : res R :=
  q <- py_div DiamTarget DiamInit ;;
  l <- np_log2 q ;;
  Ok (DiamFractal * l).

Definition sep_dist_floc (ConcAluminum ConcClay : R) (coag : Chemical)
    (DiamFractal DiamInit DiamTarget : R) : res R :=
  fv <- frac_vol_floc_initial ConcAluminum ConcClay coag ;;
  q <- py_div PI (6 * fv) ;;
  r <- py_pow q (1 / 3) ;;
  t <- py_div DiamTarget DiamInit ;;
  s <- py_pow t (DiamFractal / 3) ;;
  Ok (DiamInit * r * s).

Definition frac_vol_floc (ConcAluminum ConcClay : R) (coag : Chemical)
    (DiamFractal DiamInit DiamTarget : R) : res R :=
  fv <- frac_vol_floc_initial ConcAluminum ConcClay coag ;;
  t <- py_div DiamTarget DiamInit ;;
  s <- py_pow t (3 - DiamFractal) ;;
  Ok (fv * s).

Definition dens_floc_init (ConcAluminum ConcClay : R) (coag : Chemical)
    : res R :=
  c <- conc_floc ConcAluminum ConcClay coag ;;
  fv <- frac_vol_floc_initial ConcAluminum ConcClay coag ;;
  py_div c fv.

(** *** Flocculation model *)

Definition ratio_clay_sphere (RatioHeightDiameter : R) : res R :=
  q <- py_div 2 (3 * RatioHeightDiameter) ;;
  s <- py_pow q (2 / 3) ;;
  Ok ((1 / 2 + RatioHeightDiameter) * s).

Definition ratio_area_clay_total (ConcClay DiamClay DiamTube DensityClay
    RatioHeightDiameter : R) : res R :=
  rcs <- ratio_clay_sphere RatioHeightDiameter ;;
  cd <- py_div ConcClay DensityClay ;;
  x <- py_div (2 * DiamClay) (3 * DiamTube * rcs * cd) ;;
  py_div 1 (1 + x).

Definition gamma_coag (ConcClay ConcAluminum : R) (coag : Chemical)
    (DiamTube DiamClay DensityClay RatioHeightDiameter : R) : res R :=
  f1 <- frac_vol_floc_initial ConcAluminum 0 coag ;;
  f2 <- frac_vol_floc_initial 0 ConcClay coag ;;
  d <- num (Diameter coag) ;;
  a <- py_div (- f1 * DiamClay) (f2 * d) ;;
  rac <- ratio_area_clay_total ConcClay DiamClay DiamTube DensityClay
                               RatioHeightDiameter ;;
  rcs <- ratio_clay_sphere RatioHeightDiameter ;;
  b <- py_div rac rcs ;;
  Ok (np_one_minus (exp (a * (1 / PI) * b))).

Definition gamma_humic_acid_to_coag (ConcAl ConcNatOrgMat : R)
    (NatOrgMat coag : Chemical) : res R :=
  c <- conc_precipitate ConcAl coag ;;
  q1 <- py_div ConcNatOrgMat c ;;
  cd <- num (Density coag) ;;
  nd <- num (Density NatOrgMat) ;;
  q2 <- py_div cd nd ;;
  cdia <- num (Diameter coag) ;;
  ndia <- num (Diameter NatOrgMat) ;;
  q3 <- py_div cdia (4 * ndia) ;;
  Ok (Rmin (q1 * q2 * q3) 1).

Definition _pacl_term (DiamTube DiamClay DensityClay ConcClay ConcAl
    ConcNatOrgMat : R) (NatOrgMat coag : Chemical)
    (RatioHeightDiameter : R) : res R :=
  g <- gamma_coag ConcClay ConcAl coag DiamTube DiamClay DensityClay
                  RatioHeightDiameter ;;
  h <- gamma_humic_acid_to_coag ConcAl ConcNatOrgMat NatOrgMat coag ;;
  Ok (g * (1 - h)).

Definition alpha_pacl_clay (DiamTube DiamClay DensityClay ConcClay ConcAl
    ConcNatOrgMat : R) (NatOrgMat coag : Chemical)
    (RatioHeightDiameter : R) : res R :=
  PAClTerm <- _pacl_term DiamTube DiamClay DensityClay ConcClay ConcAl
                         ConcNatOrgMat NatOrgMat coag RatioHeightDiameter ;;
  g <- gamma_coag ConcClay ConcAl coag DiamTube DiamClay DensityClay
                  RatioHeightDiameter ;;
  Ok (2 * (PAClTerm * (1 - g))).

Definition alpha_pacl_pacl (DiamTube DiamClay DensityClay ConcClay ConcAl
    ConcNatOrgMat : R) (NatOrgMat coag : Chemical)
    (RatioHeightDiameter : R) : res R :=
  PAClTerm <- _pacl_term DiamTube DiamClay DensityClay ConcClay ConcAl
                         ConcNatOrgMat NatOrgMat coag RatioHeightDiameter ;;
  Ok (PAClTerm ^ 2).

Definition alpha_pacl_nat_org_mat (DiamTube DiamClay DensityClay ConcClay
    ConcAl ConcNatOrgMat : R) (NatOrgMat coag : Chemical)
    (RatioHeightDiameter : R) : res R :=
  PAClTerm <- _pacl_term DiamTube DiamClay DensityClay ConcClay ConcAl
                         ConcNatOrgMat NatOrgMat coag RatioHeightDiameter ;;
  g <- gamma_coag ConcClay ConcAl coag DiamTube DiamClay DensityClay
                  RatioHeightDiameter ;;
  h <- gamma_humic_acid_to_coag ConcAl ConcNatOrgMat NatOrgMat coag ;;
  Ok (2 * PAClTerm * g * h).

Definition alpha (DiamTube DiamClay DensityClay ConcClay ConcAl
    ConcNatOrgMat : R) (NatOrgMat coag : Chemical)
    (RatioHeightDiameter : R) : res R :=
  a <- alpha_pacl_nat_org_mat DiamTube DiamClay DensityClay ConcClay ConcAl
                              ConcNatOrgMat NatOrgMat coag
                              RatioHeightDiameter ;;
  b <- alpha_pacl_pacl DiamTube DiamClay DensityClay ConcClay ConcAl
                       ConcNatOrgMat NatOrgMat coag RatioHeightDiameter ;;
  c <- alpha_pacl_clay DiamTube DiamClay DensityClay ConcClay ConcAl
                       ConcNatOrgMat NatOrgMat coag RatioHeightDiameter ;;
  Ok (a + b + c).

(** *** Floc density and terminal velocity *)

(** The module [physchem] (imported as [pc]) is not part of the sources at
    hand; the three members used here are taken as given: float-valued
    functions of the temperature in kelvin, and the gravity constant. *)
Record physchem : Type := mkPhyschem {
  density_water : R -> R;
  viscosity_kinematic : R -> R;
  gravity : R
}.

Definition dens_floc (pc : physchem) (ConcAl ConcClay DiamFractal DiamInit
    DiamTarget : R) (coag : Chemical) (Temp : R) : res R :=
  let WaterDensity := density_water pc Temp in
  d0 <- dens_floc_init ConcAl ConcClay coag ;;
  t <- py_div DiamInit DiamTarget ;;
  s <- py_pow t (3 - DiamFractal) ;;
  Ok ((d0 - WaterDensity) * s + WaterDensity).

Definition vel_term_floc (pc : physchem) (ConcAl ConcClay : R)
    (coag : Chemical) (DiamFractal DiamInit DiamTarget Temp : R) : res R :=
  let WaterDensity := density_water pc Temp in
  a <- py_div (gravity pc * DiamInit ^ 2)
              (18 * PHI_FLOC * viscosity_kinematic pc Temp) ;;
  d0 <- dens_floc_init ConcAl ConcClay coag ;;
  b <- py_div (d0 - WaterDensity) WaterDensity ;;
  t <- py_div DiamTarget DiamInit ;;
  s <- py_pow t (DiamFractal - 1) ;;
  Ok (a * b * s).

Definition diam_floc_vel_term (pc : physchem) (ConcAl ConcClay : R)
    (coag : Chemical) (DiamFractal DiamInit VelTerm Temp : R) : res R :=
  let WaterDensity := density_water pc Temp in
  a <- py_div (18 * VelTerm * PHI_FLOC * viscosity_kinematic pc Temp)
              (gravity pc * DiamInit ^ 2) ;;
  d0 <- dens_floc_init ConcAl ConcClay coag ;;
  b <- py_div WaterDensity (d0 - WaterDensity) ;;
  e <- py_div 1 (DiamFractal - 1) ;;
  r <- py_pow (a * b) e ;;
  Ok (DiamInit * r).

(** *** Residence time in a tube *)

Definition time_res_tube (IDTube LengthTube FlowPlant : R) : res R :=
  py_div (LengthTube * PI * (IDTube ^ 2 / 4)) FlowPlant.

(** ** The remaining functions of the module *)

(** Operations in which one operand is a numpy float, which is what
    [np.exp], [np.log10] and [np.sqrt] return: numpy then does the arithmetic
    and a zero divisor gives inf or nan with a warning instead of raising. *)
Definition np_div (x y : R) : res R :=
  if Req_dec_T y 0 then NonReal else Ok (x / y).

Definition np_sqrt (x : R) : res R :=
  if Rle_dec 0 x then Ok (sqrt x) else NonReal.

Definition np_pow (x y : R) : res R :=
  if Rlt_dec 0 x then Ok (Rpower x y)
  else if Req_dec_T x 0 then
    if Rlt_dec y 0 then NonReal
    else if Req_dec_T y 0 then Ok 1 else Ok 0
  else
    if is_integer y then Ok (powerRZ x (Int_part y)) else NonReal.

Definition dens_pacl_solution (pc : physchem) (ConcAluminum temp : R)
    : res R :=
  w <- num (MolecWeight PACl) ;;
  m <- num (AluminumMPM PACl) ;;
  q <- py_div (0.492 * ConcAluminum * w) (m * MOLEC_WEIGHT_ALUMINUM) ;;
  Ok (q + density_water pc temp).

Definition pc_viscous (pc : physchem) (EnergyDis Temp Time DiamInit DiamTube
    DiamClay DensityClay ConcClay ConcAl ConcNatOrgMat : R)
    (NatOrgMat coag : Chemical) (FittingParam RatioHeightDiameter : R)
    : res R :=
  q <- py_div EnergyDis (viscosity_kinematic pc Temp) ;;
  match np_sqrt q with
  | Ok s =>
      a <- alpha DiamTube DiamClay DensityClay ConcClay ConcAl ConcNatOrgMat
                 NatOrgMat coag RatioHeightDiameter ;;
      sep <- sep_dist_clay ConcClay DiamInit ;;
      r <- py_div DiamInit sep ;;
      l <- np_log10 (2 / 3 * PI * FittingParam * Time * s * a * r ^ 2 + 1) ;;
      Ok (3 / 2 * l)
  | Raise e => Raise e
  | NonReal =>
      (* the square root is nan: the remaining operands are still evaluated *)
      after_nonreal
        (_ <- alpha DiamTube DiamClay DensityClay ConcClay ConcAl
                    ConcNatOrgMat NatOrgMat coag RatioHeightDiameter ;;
         sep <- sep_dist_clay ConcClay DiamInit ;;
         py_div DiamInit sep)
  end.

Definition time_col_laminar (pc : physchem) (ConcAl ConcClay : R)
    (coag : Chemical) (DiamFractal DiamInit DiamTarget EnergyDis Temp
    DiamTube RatioHeightDiameter DensityClay : R) : res R :=
  c <- py_pow (6 / PI) (1 / 3) ;;
  fv <- frac_vol_floc_initial ConcAl ConcClay coag ;;
  f <- py_pow fv (- 2 / 3) ;;
  q <- py_div (viscosity_kinematic pc Temp) EnergyDis ;;
  v <- py_pow q (1 / 2) ;;
  t <- py_div DiamTarget DiamInit ;;
  s <- py_pow t (2 * DiamFractal / 3 - 2) ;;
  g <- gamma_coag ConcClay ConcAl coag DiamTube DiamInit DensityClay
                  RatioHeightDiameter ;;
  np_div (1 / 6 * c * f * v * s) g.

Definition time_col_turbulent (ConcAl ConcClay : R) (coag : Chemical)
    (DiamFractal DiamInit DiamTarget EnergyDis : R) : res R :=
  c <- py_pow (6 / PI) (1 / 9) ;;
  e <- py_pow EnergyDis (- 1 / 3) ;;
  d <- py_pow DiamTarget (2 / 3) ;;
  fv <- frac_vol_floc_initial ConcAl ConcClay coag ;;
  f <- py_pow fv (- 8 / 9) ;;
  t <- py_div DiamTarget DiamInit ;;
  s <- py_pow t (8 * (DiamFractal - 3) / 9) ;;
  Ok (1 / 6 * c * e * d * f * s).

(** *** Kolmogorov and viscous length scales *)

Definition eta_kolmogorov (pc : physchem) (EnergyDis Temp : R) : res R :=
  q <- py_div (viscosity_kinematic pc Temp ^ 3) EnergyDis ;;
  py_pow q (1 / 4).

Definition lambda_vel (pc : physchem) (EnergyDis Temp : R) : res R :=
  e <- eta_kolmogorov pc EnergyDis Temp ;;
  Ok (RATIO_KOLMOGOROV * e).

Definition diam_kolmogorov (pc : physchem) (ConcAl ConcClay : R)
    (coag : Chemical) (DiamInit DiamFractal EnergyDis Temp : R) : res R :=
  e <- eta_kolmogorov pc EnergyDis Temp ;;
  q <- py_div e DiamInit ;;
  fv <- frac_vol_floc_initial ConcAl ConcClay coag ;;
  c <- py_pow (6 * fv / PI) (1 / 3) ;;
  x <- py_div 3 DiamFractal ;;
  r <- py_pow (q * c) x ;;
  Ok (DiamInit * r).

Definition diam_vel (pc : physchem) (ConcAl ConcClay : R) (coag : Chemical)
    (DiamInit DiamFractal EnergyDis Temp : R) : res R :=
  l <- lambda_vel pc EnergyDis Temp ;;
  q <- py_div l DiamInit ;;
  fv <- frac_vol_floc_initial ConcAl ConcClay coag ;;
  c <- py_pow (6 * fv / PI) (1 / 3) ;;
  x <- py_div 3 DiamFractal ;;
  r <- py_pow (q * c) x ;;
  Ok (DiamInit * r).

Definition diam_floc_max (epsMax : R) : res R :=
  r <- py_pow epsMax (1 / 3) ;;
  q <- py_div 1 r ;;
  Ok (9.5 * / 10 ^ 5 * q).

Definition ener_dis_diam_floc (Diam : R) : res R :=
  q <- py_div (9.5 * / 10 ^ 5) Diam ;;
  Ok (q ^ 3).

(** *** Velocity gradient in tubing *)

Definition g_straight (PlantFlow IDTube : R) : res R :=
  py_div (64 * PlantFlow) (3 * PI * IDTube ^ 3).

Definition reynolds_rapid_mix (pc : physchem) (PlantFlow IDTube Temp : R)
    : res R :=
  py_div (4 * PlantFlow) (PI * IDTube * viscosity_kinematic pc Temp).

Definition dean_number (pc : physchem) (PlantFlow IDTube RadiusCoil Temp : R)
    : res R :=
  re <- reynolds_rapid_mix pc PlantFlow IDTube Temp ;;
  q <- py_div IDTube (2 * RadiusCoil) ;;
  s <- py_pow q (1 / 2) ;;
  Ok (re * s).

Definition g_coil (pc : physchem) (FlowPlant IDTube RadiusCoil Temp : R)
    : res R :=
  gs <- g_straight FlowPlant IDTube ;;
  de <- dean_number pc FlowPlant IDTube RadiusCoil Temp ;;
  l <- np_log10 de ;;
  f <- np_pow (1 + 0.033 * l ^ 4) (1 / 2) ;;
  Ok (gs * f).

Definition g_time_res (pc : physchem) (FlowPlant IDTube RadiusCoil
    LengthTube Temp : R) : res R :=
  match g_coil pc FlowPlant IDTube RadiusCoil Temp with
  | Ok g =>
      t <- time_res_tube IDTube LengthTube FlowPlant ;;
      Ok (g * t)
  | Raise e => Raise e
  | NonReal =>
      (* the gradient is inf or nan: the residence time is still computed *)
      after_nonreal (time_res_tube IDTube LengthTube FlowPlant)
  end.

(** ** Definitions used to state the properties *)

(** Volume of a tube of inner diameter [IDTube] and length [LengthTube]:
    the area of the circular cross-section times the length. *)
Definition tube_volume (IDTube LengthTube : R) : R :=
  PI * (IDTube / 2) ^ 2 * LengthTube.

Definition positive (v : pyval) : Prop := exists x, v = VNum x /\ 0 < x.

Definition defined_positive (o : option pyval) : Prop :=
  exists v, o = Some v /\ positive v.

(** The precipitate attributes the formulas read exist and are positive
    floats. *)
Definition precipitate_defined (coag : Chemical) : Prop :=
  defined_positive (PrecipDensity coag)
  /\ defined_positive (PrecipMolecWeight coag)
  /\ defined_positive (PrecipAluminumMPM coag).

(** Value of [conc_precipitate] and of [frac_vol_floc_initial] in terms of
    the precipitate density [pd], molecular weight [pw] and aluminium
    content [pm]. *)
Definition conc_precipitate_val (ConcAluminum pw pm : R) : R :=
  ConcAluminum / MOLEC_WEIGHT_ALUMINUM * (pw / pm).

Definition frac_vol_val (ConcAluminum ConcClay pd pw pm : R) : R :=
  conc_precipitate_val ConcAluminum pw pm / pd + ConcClay / DENS_CLAY.

(** Water at room temperature, as [physchem] would report it. *)
Definition pc_room : physchem :=
  {| density_water := fun _ => 998;
     viscosity_kinematic := fun _ => / 10 ^ 6;
     gravity := 9.80665 |}.

Definition ratio_clay_sphere_val (r : R) : R :=
  (1 / 2 + r) * Rpower (2 / (3 * r)) (2 / 3).

Definition ratio_area_clay_total_val (ConcClay DiamClay DiamTube DensityClay
    r : R) : R :=
  1 / (1 + 2 * DiamClay
           / (3 * DiamTube * ratio_clay_sphere_val r
              * (ConcClay / DensityClay))).

(** The argument of [np.exp] in [gamma_coag], for a coagulant of diameter
    [d] whose precipitate has density [pd], molecular weight [pw] and
    aluminium content [pm]. *)
Definition gamma_coag_exponent (ConcClay ConcAluminum d pd pw pm DiamTube
    DiamClay DensityClay r : R) : R :=
  - frac_vol_val ConcAluminum 0 pd pw pm * DiamClay
    / (frac_vol_val 0 ConcClay pd pw pm * d)
  * (1 / PI)
  * (ratio_area_clay_total_val ConcClay DiamClay DiamTube DensityClay r
     / ratio_clay_sphere_val r).

(** The decomposition of the collision efficiency as the specification
    words it: some number [uncoveredFraction] gives the three sub-coefficients
    as [2 * uncoveredFraction * coverage], [uncoveredFraction ^ 2] and
    [2 * uncoveredFraction * coverage * organicFraction], where [coverage] is
    what [gamma_coag] returns and [organicFraction] what
    [gamma_humic_acid_to_coag] returns, and [alpha] is their sum. *)
Definition spec_collisionEfficiencyFactors
    (DiamTube DiamClay DensityClay ConcClay ConcAl ConcNatOrgMat : R)
    (NatOrgMat coag : Chemical) (RatioHeightDiameter : R) : Prop :=
  exists uncoveredFraction coverage organicFraction : R,
    gamma_coag ConcClay ConcAl coag DiamTube DiamClay DensityClay
               RatioHeightDiameter = Ok coverage
    /\ gamma_humic_acid_to_coag ConcAl ConcNatOrgMat NatOrgMat coag
       = Ok organicFraction
    /\ alpha_pacl_clay DiamTube DiamClay DensityClay ConcClay ConcAl
                       ConcNatOrgMat NatOrgMat coag RatioHeightDiameter
       = Ok (2 * uncoveredFraction * coverage)
    /\ alpha_pacl_pacl DiamTube DiamClay DensityClay ConcClay ConcAl
                       ConcNatOrgMat NatOrgMat coag RatioHeightDiameter
       = Ok (uncoveredFraction ^ 2)
    /\ alpha_pacl_nat_org_mat DiamTube DiamClay DensityClay ConcClay ConcAl
                              ConcNatOrgMat NatOrgMat coag RatioHeightDiameter
       = Ok (2 * uncoveredFraction * coverage * organicFraction)
    /\ alpha DiamTube DiamClay DensityClay ConcClay ConcAl ConcNatOrgMat
             NatOrgMat coag RatioHeightDiameter
       = Ok (2 * uncoveredFraction * coverage * organicFraction
             + uncoveredFraction ^ 2
             + 2 * uncoveredFraction * coverage).

(** The registry's PACl as it would be if constructed with no diameter
    ([None]): its precipitate attributes are defined and positive. *)
Definition PACl_without_diameter : Chemical :=
  Chemical_init "PACl" VNone (VNum 1138) (VNum 1.039) "PACl" (VNum 13).

(** The exceptions Python itself defines. *)
Definition builtin (e : exn) : Prop :=
  e = AttributeError \/ e = TypeError \/ e = ZeroDivisionError.

(** A run that, when it raises, raises a built-in exception. *)
Definition raises_only_builtin {A : Type} (m : res A) : Prop :=
  forall e, m = Raise e -> builtin e.

(** Every function of the module, called with float arguments, raises only
    built-in exceptions. *)
Definition every_function_raises_only_builtin : Prop :=
  (forall coag, raises_only_builtin (dens_alum_nanocluster coag))
  /\ (forall pc c T, raises_only_builtin (dens_pacl_solution pc c T))
  /\ (forall c coag, raises_only_builtin (conc_precipitate c coag))
  /\ (forall c clay coag, raises_only_builtin (conc_floc c clay coag))
  /\ (forall c, raises_only_builtin (moles_aluminum c))
  /\ (forall c, raises_only_builtin (sep_dist_aluminum c))
  /\ (forall c d, raises_only_builtin (num_clay c d))
  /\ (forall c d, raises_only_builtin (sep_dist_clay c d))
  /\ (forall c coag, raises_only_builtin (num_nanoclusters c coag))
  /\ (forall c clay coag,
        raises_only_builtin (frac_vol_floc_initial c clay coag))
  /\ (forall C Cprime, raises_only_builtin (p C Cprime))
  /\ (forall pC Cprime, raises_only_builtin (invp pC Cprime))
  /\ (forall fd d0 n, raises_only_builtin (diam_fractal fd d0 n))
  /\ (forall fd d0 dt, raises_only_builtin (num_coll_reqd fd d0 dt))
  /\ (forall c clay coag fd d0 dt,
        raises_only_builtin (sep_dist_floc c clay coag fd d0 dt))
  /\ (forall c clay coag fd d0 dt,
        raises_only_builtin (frac_vol_floc c clay coag fd d0 dt))
  /\ (forall c clay coag, raises_only_builtin (dens_floc_init c clay coag))
  /\ (forall r, raises_only_builtin (ratio_clay_sphere r))
  /\ (forall clay d D rho r,
        raises_only_builtin (ratio_area_clay_total clay d D rho r))
  /\ (forall clay c coag D d rho r,
        raises_only_builtin (gamma_coag clay c coag D d rho r))
  /\ (forall c nom NatOrgMat coag,
        raises_only_builtin (gamma_humic_acid_to_coag c nom NatOrgMat coag))
  /\ (forall D d rho clay c nom NatOrgMat coag r,
        raises_only_builtin (_pacl_term D d rho clay c nom NatOrgMat coag r)
        /\ raises_only_builtin
             (alpha_pacl_clay D d rho clay c nom NatOrgMat coag r)
        /\ raises_only_builtin
             (alpha_pacl_pacl D d rho clay c nom NatOrgMat coag r)
        /\ raises_only_builtin
             (alpha_pacl_nat_org_mat D d rho clay c nom NatOrgMat coag r)
        /\ raises_only_builtin (alpha D d rho clay c nom NatOrgMat coag r))
  /\ (forall pc E T t d0 D d rho clay c nom NatOrgMat coag k r,
        raises_only_builtin
          (pc_viscous pc E T t d0 D d rho clay c nom NatOrgMat coag k r))
  /\ (forall pc c clay fd d0 dt coag T,
        raises_only_builtin (dens_floc pc c clay fd d0 dt coag T))
  /\ (forall pc c clay coag fd d0 dt T,
        raises_only_builtin (vel_term_floc pc c clay coag fd d0 dt T))
  /\ (forall pc c clay coag fd d0 v T,
        raises_only_builtin (diam_floc_vel_term pc c clay coag fd d0 v T))
  /\ (forall pc c clay coag fd d0 dt E T D r rho,
        raises_only_builtin
          (time_col_laminar pc c clay coag fd d0 dt E T D r rho))
  /\ (forall c clay coag fd d0 dt E,
        raises_only_builtin (time_col_turbulent c clay coag fd d0 dt E))
  /\ (forall pc E T, raises_only_builtin (eta_kolmogorov pc E T))
  /\ (forall pc E T, raises_only_builtin (lambda_vel pc E T))
  /\ (forall pc c clay coag d0 fd E T,
        raises_only_builtin (diam_kolmogorov pc c clay coag d0 fd E T))
  /\ (forall pc c clay coag d0 fd E T,
        raises_only_builtin (diam_vel pc c clay coag d0 fd E T))
  /\ (forall eps, raises_only_builtin (diam_floc_max eps))
  /\ (forall d, raises_only_builtin (ener_dis_diam_floc d))
  /\ (forall Q ID, raises_only_builtin (g_straight Q ID))
  /\ (forall pc Q ID T, raises_only_builtin (reynolds_rapid_mix pc Q ID T))
  /\ (forall pc Q ID R T, raises_only_builtin (dean_number pc Q ID R T))
  /\ (forall pc Q ID R T, raises_only_builtin (g_coil pc Q ID R T))
  /\ (forall ID L Q, raises_only_builtin (time_res_tube ID L Q))
  /\ (forall pc Q ID R L T, raises_only_builtin (g_time_res pc Q ID R L T)).

(** A run that stays within the reals: it returns or raises. *)
Definition stays_real {A : Type} (m : res A) : Prop := m <> NonReal.

(** * Properties *)

(** ** The primitive operations on their real domain *)

Lemma bind_Ok {A B : Type} (a : A) (k : A -> res B) : bind (Ok a) k = k a.
Proof. reflexivity. Qed.

Lemma py_div_ok (x y : R) : y <> 0 -> py_div x y = Ok (x / y).
Proof.
  intros Hy. unfold py_div. destruct (Req_dec_T y 0) as [E | _].
  - contradiction.
  - reflexivity.
Qed.

Lemma py_div_zero (x y : R) : y = 0 -> py_div x y = Raise ZeroDivisionError.
Proof.
  intros Hy. unfold py_div. destruct (Req_dec_T y 0) as [_ | N].
  - reflexivity.
  - contradiction.
Qed.

Lemma py_div_cases (x y : R) :
  py_div x y = Ok (x / y) \/ py_div x y = Raise ZeroDivisionError.
Proof.
  unfold py_div. destruct (Req_dec_T y 0); [right | left]; reflexivity.
Qed.

Lemma py_pow_pos (x y : R) : 0 < x -> py_pow x y = Ok (Rpower x y).
Proof.
  intros Hx. unfold py_pow. destruct (Rlt_dec 0 x) as [_ | N].
  - reflexivity.
  - contradiction.
Qed.

Lemma py_pow_neg_frac (x y : R) :
  x < 0 -> y <> IZR (Int_part y) -> py_pow x y = NonReal.
Proof.
  intros Hx Hy. unfold py_pow.
  destruct (Rlt_dec 0 x) as [P | _]; [lra |].
  destruct (Req_dec_T x 0) as [E | _]; [lra |].
  destruct (is_integer y) as [E | _]; [contradiction | reflexivity].
Qed.

Lemma np_log10_pos (x : R) : 0 < x -> np_log10 x = Ok (ln x / ln 10).
Proof.
  intros Hx. unfold np_log10. destruct (Rlt_dec 0 x); [reflexivity | contradiction].
Qed.

Lemma np_log10_nonpos (x : R) : x <= 0 -> np_log10 x = NonReal.
Proof.
  intros Hx. unfold np_log10. destruct (Rlt_dec 0 x); [lra | reflexivity].
Qed.

Lemma np_log2_pos (x : R) : 0 < x -> np_log2 x = Ok (ln x / ln 2).
Proof.
  intros Hx. unfold np_log2. destruct (Rlt_dec 0 x); [reflexivity | contradiction].
Qed.

Lemma Rpower_pos (x y : R) : 0 < Rpower x y.
Proof. unfold Rpower. apply exp_pos. Qed.

Lemma ln_2_neq_0 : ln 2 <> 0.
Proof. apply ln_neq_0; lra. Qed.

Lemma ln_10_neq_0 : ln 10 <> 0.
Proof. apply ln_neq_0; lra. Qed.

Lemma Rpower_1_l (y : R) : Rpower 1 y = 1.
Proof. unfold Rpower. rewrite ln_1, Rmult_0_r. apply exp_0. Qed.

(** [b ** log_b x = x] for the two bases the module uses. *)
Lemma Rpower_log (b x : R) :
  0 < b -> b <> 1 -> 0 < x -> Rpower b (ln x / ln b) = x.
Proof.
  intros Hb Hb1 Hx. unfold Rpower.
  replace (ln x / ln b * ln b) with (ln x).
  - apply exp_ln; assumption.
  - field. apply ln_neq_0; assumption.
Qed.

Lemma log_Rpower (b y : R) :
  0 < b -> b <> 1 -> ln (Rpower b y) / ln b = y.
Proof.
  intros Hb Hb1. rewrite ln_Rpower. field. apply ln_neq_0; assumption.
Qed.

(** ** Fractal growth: collisions and diameter (C1) *)

Lemma diam_fractal_ok (fd d0 n : R) :
  fd <> 0 -> diam_fractal fd d0 n = Ok (d0 * Rpower 2 (n / fd)).
Proof.
  intros Hfd. unfold diam_fractal.
  rewrite py_div_ok by assumption. cbn [bind].
  rewrite py_pow_pos by lra. reflexivity.
Qed.

Lemma num_coll_reqd_ok (fd d0 dt : R) :
  0 < d0 -> 0 < dt ->
  num_coll_reqd fd d0 dt = Ok (fd * (ln (dt / d0) / ln 2)).
Proof.
  intros Hd0 Hdt. unfold num_coll_reqd.
  rewrite py_div_ok by lra. cbn [bind].
  rewrite np_log2_pos by (apply Rdiv_lt_0_compat; assumption).
  reflexivity.
Qed.

(** C1. For a fractal dimension [fd > 0] and an initial diameter [d0 > 0],
    [num_coll_reqd] undoes [diam_fractal] for every real number of collisions
    [n], and [diam_fractal] undoes [num_coll_reqd] for every target diameter
    [dt > 0]. *)
Theorem num_coll_reqd_diam_fractal_inverse (fd d0 n dt : R)
    (Hfd : 0 < fd) (Hd0 : 0 < d0) (Hdt : 0 < dt) :
  (d <- diam_fractal fd d0 n ;; num_coll_reqd fd d0 d) = Ok n
  /\ (k <- num_coll_reqd fd d0 dt ;; diam_fractal fd d0 k) = Ok dt.
Proof.
  split.
  - rewrite diam_fractal_ok by lra. cbn [bind].
    assert (Hp : 0 < Rpower 2 (n / fd)) by apply Rpower_pos.
    rewrite num_coll_reqd_ok
      by (try apply Rmult_lt_0_compat; assumption).
    f_equal.
    replace (d0 * Rpower 2 (n / fd) / d0) with (Rpower 2 (n / fd))
      by (field; lra).
    rewrite log_Rpower by lra. field. lra.
  - rewrite num_coll_reqd_ok by assumption. cbn [bind].
    rewrite diam_fractal_ok by lra. f_equal.
    replace (fd * (ln (dt / d0) / ln 2) / fd) with (ln (dt / d0) / ln 2)
      by (field; split; [apply ln_2_neq_0 | lra]).
    rewrite Rpower_log; try lra.
    + field. lra.
    + apply Rdiv_lt_0_compat; assumption.
Qed.

(** Scenario 1 of the specification: fractal dimension 2.3, from 1e-6 m to
    8e-6 m. *)
Lemma num_coll_reqd_diam_fractal_inverse_witness :
  (d <- diam_fractal DIAM_FRACTAL (/ 10 ^ 6) 3 ;;
   num_coll_reqd DIAM_FRACTAL (/ 10 ^ 6) d) = Ok 3
  /\ (k <- num_coll_reqd DIAM_FRACTAL (/ 10 ^ 6) (8 * / 10 ^ 6) ;;
      diam_fractal DIAM_FRACTAL (/ 10 ^ 6) k) = Ok (8 * / 10 ^ 6).
Proof.
  apply (num_coll_reqd_diam_fractal_inverse DIAM_FRACTAL (/ 10 ^ 6) 3
                                            (8 * / 10 ^ 6));
    unfold DIAM_FRACTAL; lra.
Defined.

(** ** p and invp (C5) *)

Lemma p_ok (C Cprime : R) :
  0 < C -> 0 < Cprime -> p C Cprime = Ok (- (ln (C / Cprime) / ln 10)).
Proof.
  intros HC HC'. unfold p.
  rewrite py_div_ok by lra. cbn [bind].
  rewrite np_log10_pos by (apply Rdiv_lt_0_compat; assumption).
  reflexivity.
Qed.

Lemma invp_ok (pC Cprime : R) : invp pC Cprime = Ok (Cprime * Rpower 10 (- pC)).
Proof. unfold invp. rewrite py_pow_pos by lra. reflexivity. Qed.

(** C5. For strictly positive [C] and [Cprime], [invp] undoes [p]; and
    [p(1.0, 10.0)] and [invp(1.0, 10.0)] are both 1. *)
Theorem invp_p_inverse (C Cprime : R) (HC : 0 < C) (HCprime : 0 < Cprime) :
  (pC <- p C Cprime ;; invp pC Cprime) = Ok C
  /\ p 1 10 = Ok 1
  /\ invp 1 10 = Ok 1.
Proof.
  repeat split.
  - rewrite p_ok by assumption. cbn [bind]. rewrite invp_ok. f_equal.
    rewrite Ropp_involutive.
    rewrite Rpower_log; try lra.
    + field. lra.
    + apply Rdiv_lt_0_compat; assumption.
  - rewrite p_ok by lra. f_equal.
    replace (1 / 10) with (/ 10) by lra.
    rewrite ln_Rinv by lra. field. apply ln_10_neq_0.
  - rewrite invp_ok. f_equal.
    rewrite Rpower_Ropp, Rpower_1 by lra. lra.
Qed.

Lemma invp_p_inverse_witness :
  (pC <- p 2 5 ;; invp pC 5) = Ok 2 /\ p 1 10 = Ok 1 /\ invp 1 10 = Ok 1.
Proof. apply (invp_p_inverse 2 5); lra. Defined.

(** ** Residence time (C9) *)

(** C9. With the inner diameter fixed, [time_res_tube] is linear in the tube
    length and inversely proportional to the flow rate, for every positive
    factor [c]; it is the tube volume divided by the flow rate.  A zero flow
    rate raises on both sides of each equation. *)
Theorem time_res_tube_scaling (IDTube LengthTube FlowPlant c : R)
    (Hc : 0 < c) :
  time_res_tube IDTube (c * LengthTube) FlowPlant
    = fmap (fun t => c * t) (time_res_tube IDTube LengthTube FlowPlant)
  /\ time_res_tube IDTube LengthTube (c * FlowPlant)
    = fmap (fun t => t / c) (time_res_tube IDTube LengthTube FlowPlant)
  /\ time_res_tube IDTube LengthTube FlowPlant
    = py_div (tube_volume IDTube LengthTube) FlowPlant.
Proof.
  unfold time_res_tube, tube_volume, fmap.
  destruct (Req_dec_T FlowPlant 0) as [Z | NZ].
  - rewrite !(py_div_zero _ FlowPlant) by assumption.
    rewrite py_div_zero by (rewrite Z; ring).
    repeat split; reflexivity.
  - rewrite !(py_div_ok _ FlowPlant) by assumption.
    rewrite py_div_ok by (apply Rmult_integral_contrapositive_currified; lra).
    cbn [bind]. repeat split; f_equal; field; try split; lra.
Qed.

Lemma time_res_tube_scaling_witness :
  time_res_tube 1 (2 * 3) 5 = fmap (fun t => 2 * t) (time_res_tube 1 3 5)
  /\ time_res_tube 1 3 (2 * 5) = fmap (fun t => t / 2) (time_res_tube 1 3 5)
  /\ time_res_tube 1 3 5 = py_div (tube_volume 1 3) 5.
Proof. apply (time_res_tube_scaling 1 3 5 2); lra. Defined.

(** ** The Chemical registry (C2, C8) *)

Lemma Chemical_init_distinct (nm : string) (diameter density molecWeight : pyval)
    (Precipitate : string) (alumMPM : pyval) :
  Precipitate <> nm ->
  let c := Chemical_init nm diameter density molecWeight Precipitate alumMPM in
  PrecipName c = Precipitate
  /\ PrecipDiameter c = None /\ PrecipDensity c = None
  /\ PrecipMolecWeight c = None /\ PrecipAluminumMPM c = None.
Proof.
  intros Hne. unfold Chemical_init.
  apply String.eqb_neq in Hne. rewrite Hne. cbn. repeat split; reflexivity.
Qed.

Lemma Chemical_init_self (nm : string) (diameter density molecWeight alumMPM : pyval) :
  let c := Chemical_init nm diameter density molecWeight nm alumMPM in
  PrecipName c = nm
  /\ PrecipDiameter c = Some (Diameter c)
  /\ PrecipDensity c = Some (Density c)
  /\ PrecipMolecWeight c = Some (MolecWeight c)
  /\ PrecipAluminumMPM c = Some (AluminumMPM c).
Proof.
  unfold Chemical_init. rewrite String.eqb_refl. cbn. repeat split; reflexivity.
Qed.

(** The claim C2 at the Alum object as it is between its construction and
    the call of [define_Precip]: the exception is [AttributeError], not the
    [UndefinedPrecipitateError] of the specification. *)
Lemma undefined_precipitate_error_counterexample :
  dens_alum_nanocluster Alum_constructed = Raise AttributeError
  /\ dens_alum_nanocluster Alum_constructed <> Raise UndefinedPrecipitateError.
Proof.
  split.
  - reflexivity.
  - cbv [dens_alum_nanocluster Alum_constructed Chemical_init PrecipDensity
         attr bind String.eqb Ascii.eqb Bool.eqb]. discriminate.
Qed.

(** C2, amended. On a Chemical constructed with a precipitate name distinct
    from its own name and on which [define_Precip] was never called, the
    precipitate-dependent computations raise Python's [AttributeError]: the
    first precipitate attribute they read does not exist. *)
Theorem undefined_precipitate_raises_AttributeError (nm : string)
    (diameter density molecWeight : pyval) (Precipitate : string)
    (alumMPM : pyval) (ConcAluminum ConcClay : R)
    (Hdistinct : Precipitate <> nm) :
  let coag := Chemical_init nm diameter density molecWeight Precipitate alumMPM in
  dens_alum_nanocluster coag = Raise AttributeError
  /\ conc_precipitate ConcAluminum coag = Raise AttributeError
  /\ conc_floc ConcAluminum ConcClay coag = Raise AttributeError
  /\ num_nanoclusters ConcAluminum coag = Raise AttributeError
  /\ frac_vol_floc_initial ConcAluminum ConcClay coag = Raise AttributeError
  /\ dens_floc_init ConcAluminum ConcClay coag = Raise AttributeError
  /\ (forall fd d0 dt,
        sep_dist_floc ConcAluminum ConcClay coag fd d0 dt
        = Raise AttributeError
        /\ frac_vol_floc ConcAluminum ConcClay coag fd d0 dt
           = Raise AttributeError)
  /\ (forall DiamTube DiamClay DensityClay r,
        gamma_coag ConcClay ConcAluminum coag DiamTube DiamClay DensityClay r
        = Raise AttributeError)
  /\ (forall ConcNatOrgMat NatOrgMat,
        gamma_humic_acid_to_coag ConcAluminum ConcNatOrgMat NatOrgMat coag
        = Raise AttributeError)
  /\ (forall DiamTube DiamClay DensityClay ConcNatOrgMat NatOrgMat r,
        alpha DiamTube DiamClay DensityClay ConcClay ConcAluminum
              ConcNatOrgMat NatOrgMat coag r
        = Raise AttributeError).
Proof.
  intros coag.
  destruct (Chemical_init_distinct nm diameter density molecWeight Precipitate
              alumMPM Hdistinct) as (_ & _ & Hd & Hw & _).
  fold coag in Hd, Hw.
  assert (Hcp : forall c, conc_precipitate c coag = Raise AttributeError).
  { intros c. unfold conc_precipitate. rewrite Hw. reflexivity. }
  assert (Hda : dens_alum_nanocluster coag = Raise AttributeError).
  { unfold dens_alum_nanocluster. rewrite Hd. reflexivity. }
  assert (Hfv : forall c clay,
             frac_vol_floc_initial c clay coag = Raise AttributeError).
  { intros c clay. unfold frac_vol_floc_initial. rewrite Hcp. reflexivity. }
  unfold dens_floc_init, num_nanoclusters, conc_floc, sep_dist_floc,
    frac_vol_floc, alpha, alpha_pacl_nat_org_mat, _pacl_term, gamma_coag,
    gamma_humic_acid_to_coag.
  rewrite Hda, !Hcp, !Hfv. repeat split; reflexivity.
Qed.

Lemma undefined_precipitate_raises_AttributeError_witness :
  let coag := Alum_constructed in
  dens_alum_nanocluster coag = Raise AttributeError
  /\ conc_precipitate (/ 1000) coag = Raise AttributeError
  /\ conc_floc (/ 1000) (/ 100) coag = Raise AttributeError
  /\ num_nanoclusters (/ 1000) coag = Raise AttributeError
  /\ frac_vol_floc_initial (/ 1000) (/ 100) coag = Raise AttributeError
  /\ dens_floc_init (/ 1000) (/ 100) coag = Raise AttributeError.
Proof.
  pose proof (undefined_precipitate_raises_AttributeError
                "Alum" (VNum (nm_to_m 70)) (VNum 2420) (VNum 0.59921)
                "AlOH3" (VNum 2) (/ 1000) (/ 100) ltac:(discriminate))
    as (H1 & H2 & H3 & H4 & H5 & H6 & _).
  repeat split; assumption.
Defined.

(** The claim C8 fails on the density: the precipitate of Alum is given the
    density 2420 of Alum itself. *)
Lemma alum_precipitate_differs_counterexample :
  ~ (PrecipName Alum <> name Alum
     /\ PrecipDensity Alum <> Some (Density Alum)
     /\ PrecipMolecWeight Alum <> Some (MolecWeight Alum)
     /\ PrecipAluminumMPM Alum <> Some (AluminumMPM Alum)).
Proof.
  intros (_ & Hd & _). apply Hd. reflexivity.
Qed.

(** C8, amended. After [define_Precip], the precipitate of Alum is a species
    of another name whose molecular weight and aluminium content differ from
    those of Alum, and whose density is equal to that of Alum. *)
Theorem alum_precipitate_attributes :
  PrecipName Alum <> name Alum
  /\ PrecipMolecWeight Alum <> Some (MolecWeight Alum)
  /\ PrecipAluminumMPM Alum <> Some (AluminumMPM Alum)
  /\ PrecipDensity Alum = Some (Density Alum).
Proof.
  repeat split.
  - cbn. discriminate.
  - cbn. intros H. injection H as H. lra.
  - cbn. intros H. injection H as H. lra.
Qed.

(** ** Coagulants with a defined precipitate *)

Lemma conc_precipitate_val_pos (c pw pm : R) :
  0 < c -> 0 < pw -> 0 < pm -> 0 < conc_precipitate_val c pw pm.
Proof.
  intros Hc Hw Hm. unfold conc_precipitate_val, MOLEC_WEIGHT_ALUMINUM.
  apply Rmult_lt_0_compat; apply Rdiv_lt_0_compat; lra.
Qed.

Lemma conc_precipitate_val_0 (pw pm : R) : conc_precipitate_val 0 pw pm = 0.
Proof. unfold conc_precipitate_val, Rdiv. ring. Qed.

Lemma frac_vol_val_pos (c clay pd pw pm : R) :
  0 <= c -> 0 <= clay -> 0 < c \/ 0 < clay ->
  0 < pd -> 0 < pw -> 0 < pm -> 0 < frac_vol_val c clay pd pw pm.
Proof.
  intros Hc Hclay Hone Hd Hw Hm. unfold frac_vol_val, DENS_CLAY.
  assert (Hq : 0 <= conc_precipitate_val c pw pm / pd).
  { destruct Hc as [Hc | <-].
    - left. apply Rdiv_lt_0_compat;
        [apply conc_precipitate_val_pos; assumption | assumption].
    - rewrite conc_precipitate_val_0. right. unfold Rdiv. ring. }
  assert (Hr : 0 <= clay / 2650)
    by (apply Rmult_le_pos; [assumption | lra]).
  destruct Hone as [Hc' | Hclay'].
  - assert (0 < conc_precipitate_val c pw pm / pd).
    { apply Rdiv_lt_0_compat;
        [apply conc_precipitate_val_pos; assumption | assumption]. }
    lra.
  - assert (0 < clay / 2650) by (apply Rdiv_lt_0_compat; lra). lra.
Qed.

Lemma precipitate_defined_values (coag : Chemical) :
  precipitate_defined coag ->
  exists pd pw pm,
    (0 < pd /\ 0 < pw /\ 0 < pm)
    /\ PrecipDensity coag = Some (VNum pd)
    /\ PrecipMolecWeight coag = Some (VNum pw)
    /\ PrecipAluminumMPM coag = Some (VNum pm).
Proof.
  intros ((vd & Ed & d & -> & Hd) & (vw & Ew & w & -> & Hw)
          & (vm & Em & m & -> & Hm)).
  exists d, w, m. repeat split; assumption.
Qed.

Section DefinedPrecipitate.

Variable coag : Chemical.
Variables pd pw pm : R.
Hypothesis Hpd : 0 < pd.
Hypothesis Hpw : 0 < pw.
Hypothesis Hpm : 0 < pm.
Hypothesis Edens : PrecipDensity coag = Some (VNum pd).
Hypothesis Emw : PrecipMolecWeight coag = Some (VNum pw).
Hypothesis Empm : PrecipAluminumMPM coag = Some (VNum pm).

Lemma dens_alum_nanocluster_ok :
  dens_alum_nanocluster coag = Ok (pd * MOLEC_WEIGHT_ALUMINUM * pm / pw).
Proof.
  unfold dens_alum_nanocluster. rewrite Edens, Emw, Empm. cbn [attr num bind].
  apply py_div_ok. lra.
Qed.

Lemma conc_precipitate_ok (c : R) :
  conc_precipitate c coag = Ok (conc_precipitate_val c pw pm).
Proof.
  unfold conc_precipitate. rewrite Emw, Empm. cbn [attr num bind].
  rewrite py_div_ok by lra. reflexivity.
Qed.

Lemma conc_floc_ok (c clay : R) :
  conc_floc c clay coag = Ok (conc_precipitate_val c pw pm + clay).
Proof. unfold conc_floc. rewrite conc_precipitate_ok. reflexivity. Qed.

Lemma frac_vol_floc_initial_ok (c clay : R) :
  frac_vol_floc_initial c clay coag = Ok (frac_vol_val c clay pd pw pm).
Proof.
  unfold frac_vol_floc_initial. rewrite conc_precipitate_ok, Edens.
  cbn [attr num bind]. rewrite py_div_ok by lra. reflexivity.
Qed.

Lemma dens_floc_init_ok (c clay : R) :
  0 <= c -> 0 <= clay -> 0 < c \/ 0 < clay ->
  dens_floc_init c clay coag
    = Ok ((conc_precipitate_val c pw pm + clay)
          / frac_vol_val c clay pd pw pm).
Proof.
  intros Hc Hclay Hone. unfold dens_floc_init.
  rewrite conc_floc_ok, frac_vol_floc_initial_ok. cbn [bind].
  apply py_div_ok.
  pose proof (frac_vol_val_pos c clay pd pw pm Hc Hclay Hone Hpd Hpw Hpm).
  lra.
Qed.

End DefinedPrecipitate.

Lemma PACl_precipitate_defined : precipitate_defined PACl.
Proof.
  unfold precipitate_defined, defined_positive, positive. cbn.
  repeat split; eexists; (split; [reflexivity |]); eexists;
    (split; [reflexivity | lra]).
Qed.

Lemma Alum_precipitate_defined : precipitate_defined Alum.
Proof.
  unfold precipitate_defined, defined_positive, positive. cbn.
  repeat split; eexists; (split; [reflexivity |]); eexists;
    (split; [reflexivity | lra]).
Qed.

(** ** Separation distance and volume fraction at a floc size (C10) *)

(** C10. For positive concentrations, a coagulant with a defined positive
    precipitate, positive diameters and any fractal dimension (the positive
    ones among them), [sep_dist_floc] is the target diameter times the cube
    root of [pi / (6 * frac_vol_floc)] taken at the same size. *)
Theorem sep_dist_floc_from_frac_vol_floc (ConcAl ConcClay : R)
    (coag : Chemical) (DiamFractal DiamInit DiamTarget : R)
    (HAl : 0 < ConcAl) (HClay : 0 < ConcClay)
    (Hcoag : precipitate_defined coag)
    (Hd0 : 0 < DiamInit) (Hdt : 0 < DiamTarget) :
  exists phi,
    frac_vol_floc ConcAl ConcClay coag DiamFractal DiamInit DiamTarget = Ok phi
    /\ 0 < phi
    /\ sep_dist_floc ConcAl ConcClay coag DiamFractal DiamInit DiamTarget
       = Ok (DiamTarget * Rpower (PI / (6 * phi)) (1 / 3)).
Proof.
  destruct (precipitate_defined_values coag Hcoag)
    as (pd & pw & pm & (Hpd & Hpw & Hpm) & Ed & Ew & Em).
  pose proof (frac_vol_val_pos ConcAl ConcClay pd pw pm
                (Rlt_le _ _ HAl) (Rlt_le _ _ HClay) (or_introl HAl)
                Hpd Hpw Hpm) as Hphi0.
  set (phi0 := frac_vol_val ConcAl ConcClay pd pw pm) in *.
  assert (Ht : 0 < DiamTarget / DiamInit)
    by (apply Rdiv_lt_0_compat; assumption).
  set (t := DiamTarget / DiamInit) in *.
  exists (phi0 * Rpower t (3 - DiamFractal)).
  assert (Hs : 0 < Rpower t (3 - DiamFractal)) by apply Rpower_pos.
  split; [| split].
  - unfold frac_vol_floc.
    rewrite (frac_vol_floc_initial_ok coag pd pw pm) by assumption.
    cbn [bind]. rewrite py_div_ok by lra. cbn [bind]. fold t.
    rewrite py_pow_pos by assumption. reflexivity.
  - apply Rmult_lt_0_compat; assumption.
  - unfold sep_dist_floc.
    rewrite (frac_vol_floc_initial_ok coag pd pw pm) by assumption.
    cbn [bind]. fold phi0.
    rewrite py_div_ok by lra. cbn [bind].
    assert (Hq : 0 < PI / (6 * phi0))
      by (apply Rdiv_lt_0_compat; [apply PI_RGT_0 | lra]).
    rewrite py_pow_pos by assumption. cbn [bind].
    rewrite py_div_ok by lra. cbn [bind]. fold t.
    rewrite py_pow_pos by assumption. cbn [bind]. f_equal.
    replace (PI / (6 * (phi0 * Rpower t (3 - DiamFractal))))
      with (PI / (6 * phi0) * Rpower t (- (3 - DiamFractal))).
    2:{ rewrite Rpower_Ropp. field. split; lra. }
    rewrite <- Rpower_mult_distr by (assumption || apply Rpower_pos).
    rewrite Rpower_mult.
    replace (- (3 - DiamFractal) * (1 / 3)) with (DiamFractal / 3 + - (1))
      by field.
    rewrite Rpower_plus, Rpower_Ropp, Rpower_1 by assumption.
    unfold t. field. split; lra.
Qed.

Lemma sep_dist_floc_from_frac_vol_floc_witness :
  exists phi,
    frac_vol_floc (/ 1000) (/ 100) PACl DIAM_FRACTAL DIAM_CLAY (/ 1000)
      = Ok phi
    /\ 0 < phi
    /\ sep_dist_floc (/ 1000) (/ 100) PACl DIAM_FRACTAL DIAM_CLAY (/ 1000)
       = Ok (/ 1000 * Rpower (PI / (6 * phi)) (1 / 3)).
Proof.
  apply (sep_dist_floc_from_frac_vol_floc (/ 1000) (/ 100) PACl
           DIAM_FRACTAL DIAM_CLAY (/ 1000));
    try apply PACl_precipitate_defined;
    unfold DIAM_FRACTAL, DIAM_CLAY; lra.
Defined.

(** ** Terminal velocity and its inverse (C6) *)

(** C6. With positive gravity, viscosity and water density, an initial floc
    density [rho0] above the water density, positive diameters and a fractal
    dimension other than 1, [diam_floc_vel_term] applied to the velocity that
    [vel_term_floc] returns gives back the target diameter.  (For positive
    concentrations and a defined coagulant [dens_floc_init] does return a
    density: lemma [dens_floc_init_ok].) *)
Theorem diam_floc_vel_term_inverts_vel_term_floc (pc : physchem)
    (ConcAl ConcClay : R) (coag : Chemical)
    (DiamFractal DiamInit DiamTarget Temp rho0 : R)
    (Hg : 0 < gravity pc)
    (Hnu : 0 < viscosity_kinematic pc Temp)
    (Hw : 0 < density_water pc Temp)
    (Hrho : dens_floc_init ConcAl ConcClay coag = Ok rho0)
    (Hgt : density_water pc Temp < rho0)
    (Hfd : DiamFractal <> 1)
    (Hd0 : 0 < DiamInit) (Hdt : 0 < DiamTarget) :
  (v <- vel_term_floc pc ConcAl ConcClay coag DiamFractal DiamInit
                      DiamTarget Temp ;;
   diam_floc_vel_term pc ConcAl ConcClay coag DiamFractal DiamInit v Temp)
  = Ok DiamTarget.
Proof.
  set (W := density_water pc Temp) in *.
  set (nu := viscosity_kinematic pc Temp) in *.
  set (g := gravity pc) in *.
  assert (Ht : 0 < DiamTarget / DiamInit)
    by (apply Rdiv_lt_0_compat; assumption).
  assert (Hd2 : 0 < DiamInit ^ 2) by (apply pow_lt; assumption).
  assert (Hgd : 0 < g * DiamInit ^ 2)
    by (apply Rmult_lt_0_compat; assumption).
  assert (Hphi : 0 < 18 * PHI_FLOC * nu).
  { unfold PHI_FLOC. apply Rmult_lt_0_compat; [lra | assumption]. }
  unfold vel_term_floc. cbv zeta. fold W nu g.
  rewrite py_div_ok by lra. cbn [bind].
  rewrite Hrho. cbn [bind].
  rewrite py_div_ok by lra. cbn [bind].
  rewrite py_div_ok by lra. cbn [bind].
  rewrite py_pow_pos by assumption. cbn [bind].
  unfold diam_floc_vel_term. cbv zeta. fold W nu g.
  rewrite py_div_ok by lra. cbn [bind].
  rewrite Hrho. cbn [bind].
  rewrite py_div_ok by lra. cbn [bind].
  rewrite py_div_ok by lra. cbn [bind].
  set (s := Rpower (DiamTarget / DiamInit) (DiamFractal - 1)).
  replace (18 * (g * DiamInit ^ 2 / (18 * PHI_FLOC * nu)
                 * ((rho0 - W) / W) * s) * PHI_FLOC * nu
           / (g * DiamInit ^ 2) * (W / (rho0 - W)))
    with s.
  2:{ unfold PHI_FLOC in *. field. repeat split; lra. }
  unfold s. rewrite py_pow_pos by apply Rpower_pos. cbn [bind]. f_equal.
  rewrite Rpower_mult.
  replace ((DiamFractal - 1) * (1 / (DiamFractal - 1))) with 1
    by (field; lra).
  rewrite Rpower_1 by assumption. field. lra.
Qed.

Lemma PACl_dens_floc_init :
  dens_floc_init (/ 1000) (/ 100) PACl
  = Ok ((conc_precipitate_val (/ 1000) 1.039 13 + / 100)
        / frac_vol_val (/ 1000) (/ 100) 1138 1.039 13).
Proof.
  apply dens_floc_init_ok; try reflexivity; lra.
Qed.

Lemma diam_floc_vel_term_inverts_vel_term_floc_witness :
  (v <- vel_term_floc pc_room (/ 1000) (/ 100) PACl DIAM_FRACTAL DIAM_CLAY
                      (/ 1000) 293 ;;
   diam_floc_vel_term pc_room (/ 1000) (/ 100) PACl DIAM_FRACTAL DIAM_CLAY
                      v 293)
  = Ok (/ 1000).
Proof.
  apply (diam_floc_vel_term_inverts_vel_term_floc pc_room (/ 1000) (/ 100)
           PACl DIAM_FRACTAL DIAM_CLAY (/ 1000) 293 _
           ltac:(cbn; lra) ltac:(cbn; lra) ltac:(cbn; lra)
           PACl_dens_floc_init).
  - cbn [pc_room density_water].
    unfold frac_vol_val, conc_precipitate_val, MOLEC_WEIGHT_ALUMINUM, DENS_CLAY.
    lra.
  - unfold DIAM_FRACTAL. lra.
  - unfold DIAM_CLAY. lra.
  - lra.
Defined.

(** ** Coverage of clay by the coagulant (C4) *)

Lemma ratio_clay_sphere_val_pos (r : R) : 0 < r -> 0 < ratio_clay_sphere_val r.
Proof.
  intros Hr. unfold ratio_clay_sphere_val.
  apply Rmult_lt_0_compat; [lra | apply Rpower_pos].
Qed.

Lemma ratio_clay_sphere_ok (r : R) :
  0 < r -> ratio_clay_sphere r = Ok (ratio_clay_sphere_val r).
Proof.
  intros Hr. unfold ratio_clay_sphere.
  rewrite py_div_ok by lra. cbn [bind].
  rewrite py_pow_pos by (apply Rdiv_lt_0_compat; lra). reflexivity.
Qed.

Section ClayArea.

Variables ConcClay DiamClay DiamTube DensityClay r : R.
Hypothesis HClay : 0 < ConcClay.
Hypothesis HDiamClay : 0 < DiamClay.
Hypothesis HTube : 0 < DiamTube.
Hypothesis HDens : 0 < DensityClay.
Hypothesis Hr : 0 < r.

(** The wall term [2 * DiamClay / (3 * DiamTube * ...)] of the formula. *)
Lemma wall_term_pos :
  0 < 2 * DiamClay
      / (3 * DiamTube * ratio_clay_sphere_val r * (ConcClay / DensityClay)).
Proof.
  pose proof (ratio_clay_sphere_val_pos r Hr) as Hs.
  apply Rdiv_lt_0_compat; [lra |].
  apply Rmult_lt_0_compat.
  - apply Rmult_lt_0_compat; [lra | assumption].
  - apply Rdiv_lt_0_compat; assumption.
Qed.

Lemma ratio_area_clay_total_val_bounds :
  0 < ratio_area_clay_total_val ConcClay DiamClay DiamTube DensityClay r < 1.
Proof.
  pose proof wall_term_pos as Hx. unfold ratio_area_clay_total_val.
  set (x := 2 * DiamClay / _) in *.
  split.
  - apply Rdiv_lt_0_compat; lra.
  - apply Rmult_lt_reg_r with (1 + x); [lra |].
    unfold Rdiv. rewrite Rmult_assoc, Rinv_l by lra. lra.
Qed.

Lemma ratio_area_clay_total_ok :
  ratio_area_clay_total ConcClay DiamClay DiamTube DensityClay r
  = Ok (ratio_area_clay_total_val ConcClay DiamClay DiamTube DensityClay r).
Proof.
  pose proof wall_term_pos as Hx.
  pose proof (ratio_clay_sphere_val_pos r Hr) as Hs.
  unfold ratio_area_clay_total.
  rewrite ratio_clay_sphere_ok by assumption. cbn [bind].
  rewrite py_div_ok by lra. cbn [bind].
  assert (Hden : 0 < 3 * DiamTube * ratio_clay_sphere_val r
                     * (ConcClay / DensityClay)).
  { apply Rmult_lt_0_compat.
    - apply Rmult_lt_0_compat; [lra | assumption].
    - apply Rdiv_lt_0_compat; assumption. }
  rewrite py_div_ok by lra. cbn [bind].
  rewrite py_div_ok by lra. reflexivity.
Qed.

End ClayArea.

Lemma np_one_minus_unsaturated (e : R) :
  / 2 ^ 54 < e -> np_one_minus e = 1 - e.
Proof.
  intros He. unfold np_one_minus.
  destruct (Rle_dec e (/ 2 ^ 54)); [lra | reflexivity].
Qed.

Lemma np_one_minus_saturated (e : R) :
  e <= / 2 ^ 54 -> np_one_minus e = 1.
Proof.
  intros He. unfold np_one_minus.
  destruct (Rle_dec e (/ 2 ^ 54)); [reflexivity | contradiction].
Qed.

Lemma np_one_minus_bounds (e : R) :
  0 < e < 1 -> 0 < np_one_minus e <= 1 /\ 1 - e <= np_one_minus e.
Proof.
  intros [He0 He1]. unfold np_one_minus.
  destruct (Rle_dec e (/ 2 ^ 54)); lra.
Qed.

Lemma exp_INR (n : nat) : exp (INR n) = exp 1 ^ n.
Proof.
  induction n as [| n IH].
  - simpl. apply exp_0.
  - rewrite S_INR, exp_plus, IH. simpl. ring.
Qed.

Lemma exp_1_gt_2 : 2 < exp 1.
Proof. pose proof (exp_ineq1 1). lra. Qed.

(** An exponential of an exponent at or below -54 is absorbed. *)
Lemma exp_absorbed (x : R) : x <= - 54 -> exp x <= / 2 ^ 54.
Proof.
  intros Hx.
  assert (E54 : - 54 = - INR 54) by (simpl; lra).
  assert (H54 : exp (- INR 54) <= / 2 ^ 54).
  { rewrite exp_Ropp, exp_INR.
    apply Rinv_le_contravar; [apply pow_lt; lra |].
    apply pow_incr. pose proof exp_1_gt_2. lra. }
  rewrite E54 in Hx.
  destruct Hx as [Hx | ->]; [| exact H54].
  apply exp_increasing in Hx. lra.
Qed.

(** An exponential of an exponent above -30 is not. *)
Lemma exp_not_absorbed (x : R) : - 30 < x -> / 2 ^ 54 < exp x.
Proof.
  intros Hx.
  assert (E30 : - 30 = - INR 30) by (simpl; lra).
  rewrite E30 in Hx. apply exp_increasing in Hx.
  assert (H30 : / 2 ^ 54 < exp (- INR 30)).
  { rewrite exp_Ropp, exp_INR.
    apply Rinv_lt_contravar.
    - apply Rmult_lt_0_compat; apply pow_lt; [pose proof exp_1_gt_2 |]; lra.
    - apply Rle_lt_trans with (3 ^ 30).
      + apply pow_incr. pose proof exp_le_3. pose proof exp_1_gt_2. lra.
      + lra. }
  lra.
Qed.

Section Coverage.

Variable coag : Chemical.
Variables d pd pw pm : R.
Variables ConcClay DiamTube DiamClay DensityClay r : R.
Hypothesis Hd : 0 < d.
Hypothesis Hpd : 0 < pd.
Hypothesis Hpw : 0 < pw.
Hypothesis Hpm : 0 < pm.
Hypothesis Ediam : Diameter coag = VNum d.
Hypothesis Edens : PrecipDensity coag = Some (VNum pd).
Hypothesis Emw : PrecipMolecWeight coag = Some (VNum pw).
Hypothesis Empm : PrecipAluminumMPM coag = Some (VNum pm).
Hypothesis HClay : 0 < ConcClay.
Hypothesis HDiamClay : 0 < DiamClay.
Hypothesis HTube : 0 < DiamTube.
Hypothesis HDens : 0 < DensityClay.
Hypothesis Hr : 0 < r.

#[local] Abbreviation expo c :=
(gamma_coag_exponent ConcClay c d pd pw pm DiamTube DiamClay DensityClay r).

Lemma clay_fraction_pos : 0 < frac_vol_val 0 ConcClay pd pw pm.
Proof. apply frac_vol_val_pos; try assumption; lra. Qed.

Lemma gamma_coag_ok (c : R) :
  gamma_coag ConcClay c coag DiamTube DiamClay DensityClay r
  = Ok (np_one_minus (exp (expo c))).
Proof.
  pose proof clay_fraction_pos as Hf2.
  pose proof (ratio_clay_sphere_val_pos r Hr) as Hs.
  unfold gamma_coag.
  rewrite !(frac_vol_floc_initial_ok coag pd pw pm) by assumption.
  cbn [bind]. rewrite Ediam. cbn [num bind].
  rewrite py_div_ok
    by (apply Rmult_integral_contrapositive_currified; lra).
  cbn [bind].
  rewrite ratio_area_clay_total_ok by assumption. cbn [bind].
  rewrite ratio_clay_sphere_ok by assumption. cbn [bind].
  rewrite py_div_ok by lra. reflexivity.
Qed.

Lemma gamma_coag_ok_unsaturated (c : R) :
  / 2 ^ 54 < exp (expo c) ->
  gamma_coag ConcClay c coag DiamTube DiamClay DensityClay r
  = Ok (1 - exp (expo c)).
Proof.
  intros H. rewrite gamma_coag_ok, np_one_minus_unsaturated by exact H.
  reflexivity.
Qed.

(** The exponent is proportional to the aluminium dose. *)
Lemma expo_linear (c : R) : expo c = c * expo 1.
Proof.
  pose proof clay_fraction_pos as Hf2.
  pose proof (ratio_clay_sphere_val_pos r Hr) as Hs.
  unfold expo, gamma_coag_exponent.
  set (f2 := frac_vol_val 0 ConcClay pd pw pm) in *.
  set (rac := ratio_area_clay_total_val _ _ _ _ _).
  set (rcs := ratio_clay_sphere_val r) in *.
  unfold frac_vol_val, conc_precipitate_val, MOLEC_WEIGHT_ALUMINUM, DENS_CLAY.
  field. repeat split; try lra. apply PI_neq0.
Qed.

Lemma expo_neg (c : R) : 0 < c -> expo c < 0.
Proof.
  intros Hc.
  pose proof clay_fraction_pos as Hf2.
  pose proof (ratio_clay_sphere_val_pos r Hr) as Hs.
  pose proof (ratio_area_clay_total_val_bounds ConcClay DiamClay DiamTube
                DensityClay r HClay HDiamClay HTube HDens Hr) as [Hrac _].
  assert (Hf1 : 0 < frac_vol_val c 0 pd pw pm)
    by (apply frac_vol_val_pos; try assumption; lra).
  unfold expo, gamma_coag_exponent.
  set (rac := ratio_area_clay_total_val _ _ _ _ _) in *.
  set (f1 := frac_vol_val c 0 pd pw pm) in *.
  set (f2 := frac_vol_val 0 ConcClay pd pw pm) in *.
  assert (Hpos : 0 < f1 * DiamClay / (f2 * d) * (1 / PI)
                     * (rac / ratio_clay_sphere_val r)).
  { assert (A1 : 0 < f1 * DiamClay / (f2 * d))
      by (apply Rdiv_lt_0_compat; apply Rmult_lt_0_compat; assumption).
    assert (A2 : 0 < 1 / PI)
      by (apply Rdiv_lt_0_compat; [lra | apply PI_RGT_0]).
    assert (A3 : 0 < rac / ratio_clay_sphere_val r)
      by (apply Rdiv_lt_0_compat; assumption).
    apply Rmult_lt_0_compat; [apply Rmult_lt_0_compat |]; assumption. }
  replace (- f1 * DiamClay / (f2 * d) * (1 / PI)
           * (rac / ratio_clay_sphere_val r))
    with (- (f1 * DiamClay / (f2 * d) * (1 / PI)
             * (rac / ratio_clay_sphere_val r))).
  - lra.
  - unfold Rdiv. ring.
Qed.

Lemma gamma_coag_in_range (c : R) :
  0 < c ->
  exists g,
    gamma_coag ConcClay c coag DiamTube DiamClay DensityClay r = Ok g
    /\ 0 < g <= 1
    /\ 1 - exp (expo c) <= g.
Proof.
  intros Hc. exists (np_one_minus (exp (expo c))).
  split; [apply gamma_coag_ok |].
  pose proof (exp_pos (expo c)) as Hp.
  pose proof (exp_increasing _ _ (expo_neg c Hc)) as Hlt.
  rewrite exp_0 in Hlt.
  apply np_one_minus_bounds. lra.
Qed.

Lemma gamma_coag_saturates (eps : R) :
  0 < eps ->
  exists dose,
    0 < dose
    /\ forall c, dose <= c ->
         exists g,
           gamma_coag ConcClay c coag DiamTube DiamClay DensityClay r = Ok g
           /\ 1 - eps < g <= 1.
Proof.
  intros Heps.
  assert (He1 : expo 1 < 0) by (apply expo_neg; lra).
  exists (Rmax 1 (ln eps / expo 1 + 1)).
  assert (H1 : 1 <= Rmax 1 (ln eps / expo 1 + 1)) by apply Rmax_l.
  assert (H2 : ln eps / expo 1 + 1 <= Rmax 1 (ln eps / expo 1 + 1))
    by apply Rmax_r.
  split; [lra |].
  intros c Hc.
  assert (Hc0 : 0 < c) by lra.
  destruct (gamma_coag_in_range c Hc0) as (g & Eg & [Hg0 Hg1] & Hlow).
  exists g. split; [exact Eg |]. split; [| exact Hg1].
  assert (Hlt : expo c < ln eps).
  { rewrite expo_linear.
    assert (Hq : ln eps / expo 1 < c) by lra.
    apply Ropp_lt_cancel.
    replace (- ln eps) with ((ln eps / expo 1) * (- expo 1))
      by (field; lra).
    replace (- (c * expo 1)) with (c * (- expo 1)) by ring.
    apply Rmult_lt_compat_r; lra. }
  apply exp_increasing in Hlt. rewrite exp_ln in Hlt by assumption. lra.
Qed.

(** From some finite dose on, the exponential is absorbed and the coverage
    is exactly 1. *)
Lemma gamma_coag_absorbed :
  exists dose,
    0 < dose
    /\ forall c, dose <= c ->
         gamma_coag ConcClay c coag DiamTube DiamClay DensityClay r = Ok 1.
Proof.
  assert (He1 : expo 1 < 0) by (apply expo_neg; lra).
  exists (Rmax 1 (- 54 / expo 1)).
  assert (H1 : 1 <= Rmax 1 (- 54 / expo 1)) by apply Rmax_l.
  assert (H2 : - 54 / expo 1 <= Rmax 1 (- 54 / expo 1)) by apply Rmax_r.
  split; [lra |].
  intros c Hc.
  rewrite gamma_coag_ok, np_one_minus_saturated; [reflexivity |].
  apply exp_absorbed. rewrite expo_linear.
  assert (Hq : - 54 / expo 1 <= c) by lra.
  apply Ropp_le_cancel.
  replace (- - 54) with ((- 54 / expo 1) * (- expo 1)) by (field; lra).
  replace (- (c * expo 1)) with (c * (- expo 1)) by ring.
  apply Rmult_le_compat_r; lra.
Qed.

End Coverage.

Lemma PACl_diameter_positive : positive (Diameter PACl).
Proof.
  exists (nm_to_m 90). split; [reflexivity | unfold nm_to_m; lra].
Qed.

Lemma ratio_clay_sphere_val_default_upper :
  ratio_clay_sphere_val RATIO_HEIGHT_DIAM < 4.
Proof.
  unfold ratio_clay_sphere_val, RATIO_HEIGHT_DIAM.
  assert (H : Rpower (2 / (3 * 0.1)) (2 / 3) < 2 / (3 * 0.1)).
  { rewrite <- (Rpower_1 (2 / (3 * 0.1))) at 2 by lra.
    apply Rpower_lt; lra. }
  lra.
Qed.

(** At a dose of 1 kg/m3 of aluminium on 10 mg/L of clay in a 1 cm tube the
    exponent of the registry's PACl is below -54. *)
Lemma PACl_high_dose_exponent :
  gamma_coag_exponent (/ 100) 1 (nm_to_m 90) 1138 1.039 13
                      (/ 100) DIAM_CLAY DENS_CLAY RATIO_HEIGHT_DIAM
  <= - 54.
Proof.
  unfold gamma_coag_exponent.
  pose proof PI_RGT_0 as Hpi0. pose proof PI_4 as Hpi4.
  pose proof ratio_clay_sphere_val_default_upper as Hup.
  assert (Hs : 0 < ratio_clay_sphere_val RATIO_HEIGHT_DIAM)
    by (apply ratio_clay_sphere_val_pos; unfold RATIO_HEIGHT_DIAM; lra).
  set (rcs := ratio_clay_sphere_val RATIO_HEIGHT_DIAM) in *.
  set (X := frac_vol_val 1 0 1138 1.039 13 * DIAM_CLAY
            / (frac_vol_val 0 (/ 100) 1138 1.039 13 * nm_to_m 90)).
  assert (HX : 50000 < X).
  { unfold X, frac_vol_val, conc_precipitate_val, MOLEC_WEIGHT_ALUMINUM,
      DENS_CLAY, DIAM_CLAY, nm_to_m. lra. }
  assert (Hinvpi : / 4 <= 1 / PI).
  { unfold Rdiv. rewrite Rmult_1_l. apply Rinv_le_contravar; lra. }
  set (K := 2 * DIAM_CLAY / (3 * / 100 * (/ 100 / DENS_CLAY))).
  assert (HK : 0 < K < 124).
  { unfold K, DIAM_CLAY, DENS_CLAY. lra. }
  assert (HB : ratio_area_clay_total_val (/ 100) DIAM_CLAY (/ 100) DENS_CLAY
                 RATIO_HEIGHT_DIAM / rcs = / (rcs + K)).
  { unfold ratio_area_clay_total_val. fold rcs. unfold K.
    unfold DIAM_CLAY, DENS_CLAY in *. field. repeat split; lra. }
  rewrite HB.
  assert (Hb : / 128 < / (rcs + K)) by (apply Rinv_lt_contravar; nra).
  replace (- frac_vol_val 1 0 1138 1.039 13 * DIAM_CLAY
           / (frac_vol_val 0 (/ 100) 1138 1.039 13 * nm_to_m 90))
    with (- X) by (unfold X, Rdiv; ring).
  set (P := 1 / PI) in *. set (B := / (rcs + K)) in *.
  assert (HPB : / 512 < P * B) by nra.
  nra.
Qed.

Lemma PACl_without_diameter_defined :
  precipitate_defined PACl_without_diameter.
Proof.
  unfold precipitate_defined, defined_positive, positive. cbn.
  repeat split; eexists; (split; [reflexivity |]); eexists;
    (split; [reflexivity | lra]).
Qed.

(** The claim C4 fails in two ways.  At 1 kg/m3 of aluminium on 10 mg/L of
    clay in a 1 cm tube, with the registry's PACl, [gamma_coag] returns
    exactly 1, which is not in [[0, 1)].  And a coagulant whose precipitate
    attributes are defined and positive but whose own diameter is [None]
    makes [gamma_coag] raise [TypeError]. *)
Lemma gamma_coag_below_one_counterexample :
  gamma_coag (/ 100) 1 PACl (/ 100) DIAM_CLAY DENS_CLAY RATIO_HEIGHT_DIAM
  = Ok 1
  /\ ~ (exists g,
          gamma_coag (/ 100) 1 PACl (/ 100) DIAM_CLAY DENS_CLAY
                     RATIO_HEIGHT_DIAM = Ok g
          /\ 0 <= g < 1)
  /\ precipitate_defined PACl_without_diameter
  /\ gamma_coag (/ 100) (/ 1000) PACl_without_diameter (/ 100) DIAM_CLAY
                DENS_CLAY RATIO_HEIGHT_DIAM = Raise TypeError.
Proof.
  assert (E : gamma_coag (/ 100) 1 PACl (/ 100) DIAM_CLAY DENS_CLAY
                         RATIO_HEIGHT_DIAM = Ok 1).
  { rewrite (gamma_coag_ok PACl (nm_to_m 90) 1138 1.039 13)
      by (try reflexivity;
          unfold nm_to_m, DIAM_CLAY, DENS_CLAY, RATIO_HEIGHT_DIAM; lra).
    rewrite np_one_minus_saturated; [reflexivity |].
    apply exp_absorbed, PACl_high_dose_exponent. }
  split; [exact E |]. split; [| split].
  - intros (g & Eg & Hg0 & Hg1). rewrite E in Eg. injection Eg as <-. lra.
  - apply PACl_without_diameter_defined.
  - unfold gamma_coag.
    rewrite !(frac_vol_floc_initial_ok PACl_without_diameter 1138 1.039 13)
      by (reflexivity || lra).
    reflexivity.
Qed.

(** C4, amended. For strictly positive clay concentration, aluminium
    concentration, tube diameter, clay diameter, clay density and aspect
    ratio, and a coagulant of positive diameter with defined positive
    precipitate attributes, [gamma_coag] returns a value in the closed
    interval [[0, 1]]; as the dose grows the value comes as close to 1 as one
    wishes, and from some finite dose on it is exactly 1. *)
Theorem gamma_coag_range (ConcClay ConcAluminum : R) (coag : Chemical)
    (DiamTube DiamClay DensityClay RatioHeightDiameter : R)
    (HClay : 0 < ConcClay) (HAl : 0 < ConcAluminum)
    (Hcoag : precipitate_defined coag) (Hdiam : positive (Diameter coag))
    (HTube : 0 < DiamTube) (HDiamClay : 0 < DiamClay)
    (HDens : 0 < DensityClay) (Hr : 0 < RatioHeightDiameter) :
  (exists g,
      gamma_coag ConcClay ConcAluminum coag DiamTube DiamClay DensityClay
                 RatioHeightDiameter = Ok g
      /\ 0 <= g <= 1)
  /\ (forall eps, 0 < eps ->
        exists dose,
          0 < dose
          /\ forall c, dose <= c ->
               exists g,
                 gamma_coag ConcClay c coag DiamTube DiamClay DensityClay
                            RatioHeightDiameter = Ok g
                 /\ 1 - eps < g <= 1)
  /\ (exists dose,
        0 < dose
        /\ forall c, dose <= c ->
             gamma_coag ConcClay c coag DiamTube DiamClay DensityClay
                        RatioHeightDiameter = Ok 1).
Proof.
  destruct (precipitate_defined_values coag Hcoag)
    as (pd & pw & pm & (Hpd & Hpw & Hpm) & Ed & Ew & Em).
  destruct Hdiam as (d & Ediam & Hd).
  split; [| split].
  - destruct (gamma_coag_in_range coag d pd pw pm ConcClay DiamTube DiamClay
                DensityClay RatioHeightDiameter Hd Hpd Hpw Hpm Ediam Ed Ew Em
                HClay HDiamClay HTube HDens Hr ConcAluminum HAl)
      as (g & Eg & [Hg0 Hg1] & _).
    exists g. split; [exact Eg | lra].
  - intros eps Heps.
    exact (gamma_coag_saturates coag d pd pw pm ConcClay DiamTube DiamClay
             DensityClay RatioHeightDiameter Hd Hpd Hpw Hpm Ediam Ed Ew Em
             HClay HDiamClay HTube HDens Hr eps Heps).
  - exact (gamma_coag_absorbed coag d pd pw pm ConcClay DiamTube DiamClay
             DensityClay RatioHeightDiameter Hd Hpd Hpw Hpm Ediam Ed Ew Em
             HClay HDiamClay HTube HDens Hr).
Qed.

Lemma gamma_coag_range_witness :
  (exists g,
      gamma_coag (/ 100) (/ 1000) PACl (/ 100) DIAM_CLAY DENS_CLAY
                 RATIO_HEIGHT_DIAM = Ok g
      /\ 0 <= g <= 1)
  /\ (forall eps, 0 < eps ->
        exists dose,
          0 < dose
          /\ forall c, dose <= c ->
               exists g,
                 gamma_coag (/ 100) c PACl (/ 100) DIAM_CLAY DENS_CLAY
                            RATIO_HEIGHT_DIAM = Ok g
                 /\ 1 - eps < g <= 1)
  /\ (exists dose,
        0 < dose
        /\ forall c, dose <= c ->
             gamma_coag (/ 100) c PACl (/ 100) DIAM_CLAY DENS_CLAY
                        RATIO_HEIGHT_DIAM = Ok 1).
Proof.
  apply (gamma_coag_range (/ 100) (/ 1000) PACl (/ 100) DIAM_CLAY DENS_CLAY
           RATIO_HEIGHT_DIAM);
    try apply PACl_precipitate_defined;
    try apply PACl_diameter_positive;
    unfold DIAM_CLAY, DENS_CLAY, RATIO_HEIGHT_DIAM; lra.
Defined.

(** ** Collision efficiency (C3) *)

Section Alpha.

Variables DiamTube DiamClay DensityClay ConcClay ConcAl ConcNatOrgMat : R.
Variables NatOrgMat coag : Chemical.
Variable RatioHeightDiameter : R.
Variables g h : R.
Hypothesis Hgamma :
  gamma_coag ConcClay ConcAl coag DiamTube DiamClay DensityClay
             RatioHeightDiameter = Ok g.
Hypothesis Hhumic :
  gamma_humic_acid_to_coag ConcAl ConcNatOrgMat NatOrgMat coag = Ok h.

Lemma pacl_term_ok :
  _pacl_term DiamTube DiamClay DensityClay ConcClay ConcAl ConcNatOrgMat
             NatOrgMat coag RatioHeightDiameter = Ok (g * (1 - h)).
Proof. unfold _pacl_term. rewrite Hgamma, Hhumic. reflexivity. Qed.

Lemma alpha_pacl_clay_ok :
  alpha_pacl_clay DiamTube DiamClay DensityClay ConcClay ConcAl ConcNatOrgMat
                  NatOrgMat coag RatioHeightDiameter
  = Ok (2 * (g * (1 - h) * (1 - g))).
Proof. unfold alpha_pacl_clay. rewrite pacl_term_ok, Hgamma. reflexivity. Qed.

Lemma alpha_pacl_pacl_ok :
  alpha_pacl_pacl DiamTube DiamClay DensityClay ConcClay ConcAl ConcNatOrgMat
                  NatOrgMat coag RatioHeightDiameter
  = Ok ((g * (1 - h)) ^ 2).
Proof. unfold alpha_pacl_pacl. rewrite pacl_term_ok. reflexivity. Qed.

Lemma alpha_pacl_nat_org_mat_ok :
  alpha_pacl_nat_org_mat DiamTube DiamClay DensityClay ConcClay ConcAl
                         ConcNatOrgMat NatOrgMat coag RatioHeightDiameter
  = Ok (2 * (g * (1 - h)) * g * h).
Proof.
  unfold alpha_pacl_nat_org_mat. rewrite pacl_term_ok, Hgamma, Hhumic.
  reflexivity.
Qed.

Lemma alpha_ok :
  alpha DiamTube DiamClay DensityClay ConcClay ConcAl ConcNatOrgMat
        NatOrgMat coag RatioHeightDiameter
  = Ok (2 * (g * (1 - h)) * g * h + (g * (1 - h)) ^ 2
        + 2 * (g * (1 - h) * (1 - g))).
Proof.
  unfold alpha.
  rewrite alpha_pacl_nat_org_mat_ok, alpha_pacl_pacl_ok, alpha_pacl_clay_ok.
  reflexivity.
Qed.

End Alpha.

(** C3, amended. [alpha] is the sum of its three sub-coefficients.  With
    [coverage] the value of [gamma_coag], [organicFraction] the value of
    [gamma_humic_acid_to_coag] and [t = coverage * (1 - organicFraction)] the
    value of [_pacl_term], the coagulant-clay coefficient is
    [2 * t * (1 - coverage)], the coagulant-coagulant coefficient is [t ^ 2]
    and the coagulant-organic-matter coefficient is
    [2 * t * coverage * organicFraction]. *)
Theorem alpha_sum_of_three_coefficients
    (DiamTube DiamClay DensityClay ConcClay ConcAl ConcNatOrgMat : R)
    (NatOrgMat coag : Chemical) (RatioHeightDiameter : R)
    (coverage organicFraction : R)
    (Hgamma : gamma_coag ConcClay ConcAl coag DiamTube DiamClay DensityClay
                         RatioHeightDiameter = Ok coverage)
    (Hhumic : gamma_humic_acid_to_coag ConcAl ConcNatOrgMat NatOrgMat coag
              = Ok organicFraction) :
  let t := coverage * (1 - organicFraction) in
  _pacl_term DiamTube DiamClay DensityClay ConcClay ConcAl ConcNatOrgMat
             NatOrgMat coag RatioHeightDiameter = Ok t
  /\ alpha_pacl_clay DiamTube DiamClay DensityClay ConcClay ConcAl
                     ConcNatOrgMat NatOrgMat coag RatioHeightDiameter
     = Ok (2 * t * (1 - coverage))
  /\ alpha_pacl_pacl DiamTube DiamClay DensityClay ConcClay ConcAl
                     ConcNatOrgMat NatOrgMat coag RatioHeightDiameter
     = Ok (t ^ 2)
  /\ alpha_pacl_nat_org_mat DiamTube DiamClay DensityClay ConcClay ConcAl
                            ConcNatOrgMat NatOrgMat coag RatioHeightDiameter
     = Ok (2 * t * coverage * organicFraction)
  /\ alpha DiamTube DiamClay DensityClay ConcClay ConcAl ConcNatOrgMat
           NatOrgMat coag RatioHeightDiameter
     = Ok (2 * t * coverage * organicFraction + t ^ 2
           + 2 * t * (1 - coverage)).
Proof.
  intros t. unfold t.
  rewrite (pacl_term_ok _ _ _ _ _ _ _ _ _ _ _ Hgamma Hhumic).
  rewrite (alpha_pacl_clay_ok _ _ _ _ _ _ _ _ _ _ _ Hgamma Hhumic).
  rewrite (alpha_pacl_pacl_ok _ _ _ _ _ _ _ _ _ _ _ Hgamma Hhumic).
  rewrite (alpha_pacl_nat_org_mat_ok _ _ _ _ _ _ _ _ _ _ _ Hgamma Hhumic).
  rewrite (alpha_ok _ _ _ _ _ _ _ _ _ _ _ Hgamma Hhumic).
  repeat split; f_equal; ring.
Qed.

(** A run of the registry's PACl on clay with no organic matter: the
    coverage stays below one half. *)
Lemma PI_gt_3 : 3 < PI.
Proof. pose proof PI2_3_2. lra. Qed.

Lemma ratio_clay_sphere_val_default : 6 / 10 < ratio_clay_sphere_val RATIO_HEIGHT_DIAM.
Proof.
  unfold ratio_clay_sphere_val, RATIO_HEIGHT_DIAM.
  assert (H : 1 < Rpower (2 / (3 * 0.1)) (2 / 3)).
  { rewrite <- (Rpower_O (2 / (3 * 0.1))) at 1 by lra.
    apply Rpower_lt; lra. }
  lra.
Qed.

Lemma PACl_low_dose_exponent :
  - / 2 < gamma_coag_exponent (/ 100) (/ 100000) (nm_to_m 90) 1138 1.039 13
                              (/ 100) DIAM_CLAY DENS_CLAY RATIO_HEIGHT_DIAM
        < 0.
Proof.
  unfold gamma_coag_exponent.
  pose proof PI_gt_3 as Hpi.
  pose proof ratio_clay_sphere_val_default as Hs.
  assert (Hrac : 0 < ratio_area_clay_total_val (/ 100) DIAM_CLAY (/ 100)
                       DENS_CLAY RATIO_HEIGHT_DIAM < 1).
  { apply ratio_area_clay_total_val_bounds;
      unfold DIAM_CLAY, DENS_CLAY, RATIO_HEIGHT_DIAM; lra. }
  set (rac := ratio_area_clay_total_val _ _ _ _ _) in *.
  set (rcs := ratio_clay_sphere_val RATIO_HEIGHT_DIAM) in *.
  set (X := frac_vol_val (/ 100000) 0 1138 1.039 13 * DIAM_CLAY
            / (frac_vol_val 0 (/ 100) 1138 1.039 13 * nm_to_m 90)).
  assert (HX : 0 < X < 9 / 10).
  { unfold X, frac_vol_val, conc_precipitate_val, MOLEC_WEIGHT_ALUMINUM,
      DENS_CLAY, DIAM_CLAY, nm_to_m. lra. }
  assert (Hinvpi : 0 < 1 / PI < / 3).
  { split.
    - apply Rdiv_lt_0_compat; lra.
    - unfold Rdiv. rewrite Rmult_1_l. apply Rinv_lt_contravar; lra. }
  assert (Hb : 0 < rac / rcs < 5 / 3).
  { split.
    - apply Rdiv_lt_0_compat; lra.
    - apply Rmult_lt_reg_r with rcs; [lra |].
      unfold Rdiv. rewrite Rmult_assoc, Rinv_l by lra. nra. }
  replace (- frac_vol_val (/ 100000) 0 1138 1.039 13 * DIAM_CLAY
           / (frac_vol_val 0 (/ 100) 1138 1.039 13 * nm_to_m 90))
    with (- X) by (unfold X, Rdiv; ring).
  set (P := 1 / PI) in *. set (B := rac / rcs) in *.
  assert (HPB : 0 < P * B < 5 / 9) by nra.
  nra.
Qed.

Lemma PACl_low_dose_coverage :
  exists g,
    gamma_coag (/ 100) (/ 100000) PACl (/ 100) DIAM_CLAY DENS_CLAY
               RATIO_HEIGHT_DIAM = Ok g
    /\ 0 < g < / 2.
Proof.
  destruct PACl_low_dose_exponent as [Hlo Hhi].
  eexists. split.
  - apply (gamma_coag_ok_unsaturated PACl (nm_to_m 90) 1138 1.039 13);
      try reflexivity;
      try (unfold nm_to_m, DIAM_CLAY, DENS_CLAY, RATIO_HEIGHT_DIAM; lra).
    apply exp_not_absorbed. lra.
  - set (e := gamma_coag_exponent _ _ _ _ _ _ _ _ _ _) in *.
    pose proof (exp_ineq1_le e) as H1.
    pose proof (exp_increasing _ _ Hhi) as H2. rewrite exp_0 in H2.
    lra.
Qed.

Lemma PACl_no_organic_matter (ConcAl : R) :
  0 < ConcAl ->
  gamma_humic_acid_to_coag ConcAl 0 HumicAcid PACl = Ok 0.
Proof.
  intros Hc. unfold gamma_humic_acid_to_coag.
  rewrite (conc_precipitate_ok PACl 1.039 13) by (reflexivity || lra).
  cbn [bind].
  pose proof (conc_precipitate_val_pos ConcAl 1.039 13 Hc) as Hp.
  rewrite py_div_ok by lra. cbn.
  rewrite py_div_ok by lra. cbn [bind].
  rewrite py_div_ok by lra. cbn [bind].
  f_equal. unfold Rdiv. rewrite !Rmult_0_l. apply Rmin_left. lra.
Qed.

Lemma PACl_low_dose_gamma_coag :
  gamma_coag (/ 100) (/ 100000) PACl (/ 100) DIAM_CLAY DENS_CLAY
             RATIO_HEIGHT_DIAM
  = Ok (1 - exp (gamma_coag_exponent (/ 100) (/ 100000) (nm_to_m 90) 1138
                   1.039 13 (/ 100) DIAM_CLAY DENS_CLAY RATIO_HEIGHT_DIAM)).
Proof.
  destruct PACl_low_dose_exponent as [Hlo Hhi].
  apply (gamma_coag_ok_unsaturated PACl (nm_to_m 90) 1138 1.039 13);
    try reflexivity;
    try (unfold nm_to_m, DIAM_CLAY, DENS_CLAY, RATIO_HEIGHT_DIAM; lra).
  apply exp_not_absorbed. lra.
Qed.

Lemma alpha_sum_of_three_coefficients_witness :
  exists coverage,
    gamma_coag (/ 100) (/ 100000) PACl (/ 100) DIAM_CLAY DENS_CLAY
               RATIO_HEIGHT_DIAM = Ok coverage
    /\ alpha_pacl_clay (/ 100) DIAM_CLAY DENS_CLAY (/ 100) (/ 100000) 0
                       HumicAcid PACl RATIO_HEIGHT_DIAM
       = Ok (2 * (coverage * (1 - 0)) * (1 - coverage))
    /\ alpha_pacl_pacl (/ 100) DIAM_CLAY DENS_CLAY (/ 100) (/ 100000) 0
                       HumicAcid PACl RATIO_HEIGHT_DIAM
       = Ok ((coverage * (1 - 0)) ^ 2).
Proof.
  eexists. split; [exact PACl_low_dose_gamma_coag |].
  pose proof (alpha_sum_of_three_coefficients (/ 100) DIAM_CLAY DENS_CLAY
                (/ 100) (/ 100000) 0 HumicAcid PACl RATIO_HEIGHT_DIAM _ 0
                PACl_low_dose_gamma_coag
                (PACl_no_organic_matter (/ 100000) ltac:(lra)))
    as (_ & Hclay & Hpacl & _).
  split; [exact Hclay | exact Hpacl].
Defined.

(** The claim C3 at the registry's PACl, 10 mg/L of clay, 0.01 mg/L of
    aluminium and no organic matter, in a 1 cm tube: no value of
    [uncoveredFraction] gives the three sub-coefficients the shape the
    specification describes. *)
Lemma collision_efficiency_factors_counterexample :
  ~ spec_collisionEfficiencyFactors (/ 100) DIAM_CLAY DENS_CLAY (/ 100)
      (/ 100000) 0 HumicAcid PACl RATIO_HEIGHT_DIAM.
Proof.
  intros (u & cov & org & Hg & Hh & Hclay & Hpacl & _).
  destruct PACl_low_dose_coverage as (g & Eg & Hg0 & Hg1).
  assert (Eh : gamma_humic_acid_to_coag (/ 100000) 0 HumicAcid PACl = Ok 0)
    by (apply PACl_no_organic_matter; lra).
  rewrite Eg in Hg. injection Hg as <-.
  rewrite Eh in Hh. injection Hh as <-.
  rewrite (alpha_pacl_clay_ok _ _ _ _ _ _ _ _ _ _ _ Eg Eh) in Hclay.
  rewrite (alpha_pacl_pacl_ok _ _ _ _ _ _ _ _ _ _ _ Eg Eh) in Hpacl.
  injection Hclay as Hclay. injection Hpacl as Hpacl.
  assert (Hu : u = 1 - g).
  { apply Rmult_eq_reg_r with g; lra. }
  subst u. nra.
Qed.

(** ** Which exceptions the functions raise (C7) *)

Create HintDb py_raise.

Lemma bind_raises_only_builtin {A B : Type} (m : res A) (k : A -> res B) :
  raises_only_builtin m -> (forall a, raises_only_builtin (k a)) ->
  raises_only_builtin (bind m k).
Proof.
  intros Hm Hk e. destruct m as [a | e' |]; cbn.
  - apply Hk.
  - intros E. injection E as <-. apply Hm. reflexivity.
  - discriminate.
Qed.

Lemma Ok_raises_only_builtin {A : Type} (a : A) : raises_only_builtin (Ok a).
Proof. intros e E. discriminate. Qed.

Lemma attr_raises_only_builtin (o : option pyval) : raises_only_builtin (attr o).
Proof.
  intros e. destruct o; cbn; intros E; [discriminate |].
  injection E as <-. left. reflexivity.
Qed.

Lemma num_raises_only_builtin (v : pyval) : raises_only_builtin (num v).
Proof.
  intros e. destruct v; cbn; intros E; [| discriminate].
  injection E as <-. right. left. reflexivity.
Qed.

Lemma py_div_raises_only_builtin (x y : R) : raises_only_builtin (py_div x y).
Proof.
  intros e E. destruct (py_div_cases x y) as [H | H]; rewrite H in E.
  - discriminate.
  - injection E as <-. right. right. reflexivity.
Qed.

Lemma py_pow_raises_only_builtin (x y : R) : raises_only_builtin (py_pow x y).
Proof.
  intros e. unfold py_pow.
  destruct (Rlt_dec 0 x); [discriminate |].
  destruct (Req_dec_T x 0).
  - destruct (Rlt_dec y 0).
    + intros E. injection E as <-. right. right. reflexivity.
    + destruct (Req_dec_T y 0); discriminate.
  - destruct (is_integer y); discriminate.
Qed.

Lemma np_log10_raises_only_builtin (x : R) : raises_only_builtin (np_log10 x).
Proof. intros e. unfold np_log10. destruct (Rlt_dec 0 x); discriminate. Qed.

Lemma np_log2_raises_only_builtin (x : R) : raises_only_builtin (np_log2 x).
Proof. intros e. unfold np_log2. destruct (Rlt_dec 0 x); discriminate. Qed.

#[export] Hint Resolve Ok_raises_only_builtin attr_raises_only_builtin
  num_raises_only_builtin py_div_raises_only_builtin
  py_pow_raises_only_builtin np_log10_raises_only_builtin
  np_log2_raises_only_builtin : py_raise.

(** Walks through a function body, one bind at a time. *)
Ltac walk_binds :=
  repeat (apply bind_raises_only_builtin; [| intros ?]);
  auto with py_raise.

Lemma conc_precipitate_raises_only_builtin (c : R) (coag : Chemical) :
  raises_only_builtin (conc_precipitate c coag).
Proof. unfold conc_precipitate. walk_binds. Qed.

#[export] Hint Resolve conc_precipitate_raises_only_builtin : py_raise.

Lemma conc_floc_raises_only_builtin (c clay : R) (coag : Chemical) :
  raises_only_builtin (conc_floc c clay coag).
Proof. unfold conc_floc. walk_binds. Qed.

Lemma frac_vol_floc_initial_raises_only_builtin (c clay : R) (coag : Chemical) :
  raises_only_builtin (frac_vol_floc_initial c clay coag).
Proof. unfold frac_vol_floc_initial. walk_binds. Qed.

#[export] Hint Resolve conc_floc_raises_only_builtin
  frac_vol_floc_initial_raises_only_builtin : py_raise.

Lemma dens_floc_init_raises_only_builtin (c clay : R) (coag : Chemical) :
  raises_only_builtin (dens_floc_init c clay coag).
Proof. unfold dens_floc_init. walk_binds. Qed.

#[export] Hint Resolve dens_floc_init_raises_only_builtin : py_raise.

Lemma sep_dist_clay_raises_only_builtin (c d : R) :
  raises_only_builtin (sep_dist_clay c d).
Proof. unfold sep_dist_clay. walk_binds. Qed.

Lemma sep_dist_aluminum_raises_only_builtin (c : R) :
  raises_only_builtin (sep_dist_aluminum c).
Proof. unfold sep_dist_aluminum, moles_aluminum. walk_binds. Qed.

Lemma p_raises_only_builtin (C Cprime : R) : raises_only_builtin (p C Cprime).
Proof. unfold p. walk_binds. Qed.

Lemma diam_floc_vel_term_raises_only_builtin (pc : physchem)
    (ConcAl ConcClay : R) (coag : Chemical)
    (DiamFractal DiamInit VelTerm Temp : R) :
  raises_only_builtin
    (diam_floc_vel_term pc ConcAl ConcClay coag DiamFractal DiamInit VelTerm
                        Temp).
Proof. unfold diam_floc_vel_term. cbv zeta. walk_binds. Qed.

Lemma NonReal_raises_only_builtin {A : Type} :
  raises_only_builtin (@NonReal A).
Proof. intros e E. discriminate. Qed.

Lemma np_div_raises_only_builtin (x y : R) : raises_only_builtin (np_div x y).
Proof. intros e. unfold np_div. destruct (Req_dec_T y 0); discriminate. Qed.

Lemma np_sqrt_raises_only_builtin (x : R) : raises_only_builtin (np_sqrt x).
Proof. intros e. unfold np_sqrt. destruct (Rle_dec 0 x); discriminate. Qed.

Lemma np_pow_raises_only_builtin (x y : R) : raises_only_builtin (np_pow x y).
Proof.
  intros e. unfold np_pow.
  destruct (Rlt_dec 0 x); [discriminate |].
  destruct (Req_dec_T x 0).
  - destruct (Rlt_dec y 0); [discriminate |].
    destruct (Req_dec_T y 0); discriminate.
  - destruct (is_integer y); discriminate.
Qed.

Lemma after_nonreal_raises_only_builtin {A B : Type} (m : res A) :
  raises_only_builtin m -> raises_only_builtin (@after_nonreal A B m).
Proof.
  intros Hm. unfold after_nonreal. apply bind_raises_only_builtin.
  - exact Hm.
  - intros _. apply NonReal_raises_only_builtin.
Qed.

#[export] Hint Resolve NonReal_raises_only_builtin np_div_raises_only_builtin
  np_sqrt_raises_only_builtin np_pow_raises_only_builtin
  sep_dist_clay_raises_only_builtin sep_dist_aluminum_raises_only_builtin
  p_raises_only_builtin diam_floc_vel_term_raises_only_builtin : py_raise.

Lemma dens_alum_nanocluster_raises_only_builtin (coag : Chemical) :
  raises_only_builtin (dens_alum_nanocluster coag).
Proof. unfold dens_alum_nanocluster. walk_binds. Qed.

Lemma ratio_clay_sphere_raises_only_builtin (r : R) :
  raises_only_builtin (ratio_clay_sphere r).
Proof. unfold ratio_clay_sphere. walk_binds. Qed.

Lemma time_res_tube_raises_only_builtin (ID L Q : R) :
  raises_only_builtin (time_res_tube ID L Q).
Proof. unfold time_res_tube. walk_binds. Qed.

Lemma g_straight_raises_only_builtin (Q ID : R) :
  raises_only_builtin (g_straight Q ID).
Proof. unfold g_straight. walk_binds. Qed.

Lemma eta_kolmogorov_raises_only_builtin (pc : physchem) (E T : R) :
  raises_only_builtin (eta_kolmogorov pc E T).
Proof. unfold eta_kolmogorov. walk_binds. Qed.

Lemma reynolds_rapid_mix_raises_only_builtin (pc : physchem) (Q ID T : R) :
  raises_only_builtin (reynolds_rapid_mix pc Q ID T).
Proof. unfold reynolds_rapid_mix. walk_binds. Qed.

#[export] Hint Resolve dens_alum_nanocluster_raises_only_builtin
  ratio_clay_sphere_raises_only_builtin time_res_tube_raises_only_builtin
  g_straight_raises_only_builtin eta_kolmogorov_raises_only_builtin
  reynolds_rapid_mix_raises_only_builtin : py_raise.

Lemma ratio_area_clay_total_raises_only_builtin (clay d D rho r : R) :
  raises_only_builtin (ratio_area_clay_total clay d D rho r).
Proof. unfold ratio_area_clay_total. walk_binds. Qed.

Lemma lambda_vel_raises_only_builtin (pc : physchem) (E T : R) :
  raises_only_builtin (lambda_vel pc E T).
Proof. unfold lambda_vel. walk_binds. Qed.

Lemma dean_number_raises_only_builtin (pc : physchem) (Q ID R0 T : R) :
  raises_only_builtin (dean_number pc Q ID R0 T).
Proof. unfold dean_number, reynolds_rapid_mix. walk_binds. Qed.

Lemma gamma_humic_acid_to_coag_raises_only_builtin (c nom : R)
    (NatOrgMat coag : Chemical) :
  raises_only_builtin (gamma_humic_acid_to_coag c nom NatOrgMat coag).
Proof. unfold gamma_humic_acid_to_coag. walk_binds. Qed.

#[export] Hint Resolve ratio_area_clay_total_raises_only_builtin
  lambda_vel_raises_only_builtin dean_number_raises_only_builtin
  gamma_humic_acid_to_coag_raises_only_builtin : py_raise.

Lemma gamma_coag_raises_only_builtin (clay c : R) (coag : Chemical)
    (D d rho r : R) :
  raises_only_builtin (gamma_coag clay c coag D d rho r).
Proof. unfold gamma_coag. walk_binds. Qed.

Lemma g_coil_raises_only_builtin (pc : physchem) (Q ID R0 T : R) :
  raises_only_builtin (g_coil pc Q ID R0 T).
Proof. unfold g_coil. walk_binds. Qed.

#[export] Hint Resolve gamma_coag_raises_only_builtin
  g_coil_raises_only_builtin : py_raise.

Lemma pacl_term_raises_only_builtin (D d rho clay c nom : R)
    (NatOrgMat coag : Chemical) (r : R) :
  raises_only_builtin (_pacl_term D d rho clay c nom NatOrgMat coag r).
Proof. unfold _pacl_term. walk_binds. Qed.

#[export] Hint Resolve pacl_term_raises_only_builtin : py_raise.

Lemma alpha_pacl_clay_raises_only_builtin (D d rho clay c nom : R)
    (NatOrgMat coag : Chemical) (r : R) :
  raises_only_builtin (alpha_pacl_clay D d rho clay c nom NatOrgMat coag r).
Proof. unfold alpha_pacl_clay. walk_binds. Qed.

Lemma alpha_pacl_pacl_raises_only_builtin (D d rho clay c nom : R)
    (NatOrgMat coag : Chemical) (r : R) :
  raises_only_builtin (alpha_pacl_pacl D d rho clay c nom NatOrgMat coag r).
Proof. unfold alpha_pacl_pacl. walk_binds. Qed.

Lemma alpha_pacl_nat_org_mat_raises_only_builtin (D d rho clay c nom : R)
    (NatOrgMat coag : Chemical) (r : R) :
  raises_only_builtin
    (alpha_pacl_nat_org_mat D d rho clay c nom NatOrgMat coag r).
Proof. unfold alpha_pacl_nat_org_mat. walk_binds. Qed.

#[export] Hint Resolve alpha_pacl_clay_raises_only_builtin
  alpha_pacl_pacl_raises_only_builtin
  alpha_pacl_nat_org_mat_raises_only_builtin : py_raise.

Lemma alpha_raises_only_builtin (D d rho clay c nom : R)
    (NatOrgMat coag : Chemical) (r : R) :
  raises_only_builtin (alpha D d rho clay c nom NatOrgMat coag r).
Proof. unfold alpha. walk_binds. Qed.

#[export] Hint Resolve alpha_raises_only_builtin : py_raise.

Lemma pc_viscous_raises_only_builtin (pc : physchem)
    (E T t d0 D d rho clay c nom : R) (NatOrgMat coag : Chemical) (k r : R) :
  raises_only_builtin
    (pc_viscous pc E T t d0 D d rho clay c nom NatOrgMat coag k r).
Proof.
  unfold pc_viscous. apply bind_raises_only_builtin; [auto with py_raise |].
  intros q. destruct (np_sqrt q) as [s | e |] eqn:Es.
  - walk_binds.
  - intros e' E'. injection E' as <-.
    apply (np_sqrt_raises_only_builtin q). exact Es.
  - apply after_nonreal_raises_only_builtin. walk_binds.
Qed.

Lemma g_time_res_raises_only_builtin (pc : physchem) (Q ID R0 L T : R) :
  raises_only_builtin (g_time_res pc Q ID R0 L T).
Proof.
  unfold g_time_res.
  destruct (g_coil pc Q ID R0 T) as [g | e |] eqn:Eg.
  - walk_binds.
  - intros e' E'. injection E' as <-.
    apply (g_coil_raises_only_builtin pc Q ID R0 T). exact Eg.
  - apply after_nonreal_raises_only_builtin. auto with py_raise.
Qed.

Lemma module_raises_only_builtin : every_function_raises_only_builtin.
Proof.
  unfold every_function_raises_only_builtin.
  repeat match goal with |- _ /\ _ => split end; intros;
    try apply pc_viscous_raises_only_builtin;
    try apply g_time_res_raises_only_builtin;
    try solve [auto with py_raise];
    match goal with
    | |- raises_only_builtin (?f _ _ _ _ _ _ _ _ _ _ _ _) => unfold f
    | |- raises_only_builtin (?f _ _ _ _ _ _ _ _) => unfold f
    | |- raises_only_builtin (?f _ _ _ _ _ _ _) => unfold f
    | |- raises_only_builtin (?f _ _ _ _ _ _) => unfold f
    | |- raises_only_builtin (?f _ _ _ _) => unfold f
    | |- raises_only_builtin (?f _ _ _) => unfold f
    | |- raises_only_builtin (?f _ _) => unfold f
    | |- raises_only_builtin (?f _) => unfold f
    end; cbv zeta; walk_binds.
Qed.

Lemma builtin_not_DomainError {A : Type} (m : res A) :
  raises_only_builtin m -> m <> Raise DomainError.
Proof.
  intros H E. destruct (H _ E) as [D | [D | D]]; discriminate.
Qed.

Lemma third_not_integer (z : Z) : 1 / 3 <> IZR z.
Proof.
  intros E.
  assert (H : IZR (3 * z) = IZR 1) by (rewrite mult_IZR; lra).
  apply eq_IZR in H. lia.
Qed.

Lemma bind_stays_real {A B : Type} (m : res A) (k : A -> res B) :
  stays_real m -> (forall a, stays_real (k a)) -> stays_real (bind m k).
Proof.
  unfold stays_real. intros Hm Hk. destruct m as [a | e |]; cbn.
  - apply Hk.
  - discriminate.
  - intros _. apply Hm. reflexivity.
Qed.

Lemma dens_floc_init_stays_real (c clay : R) (coag : Chemical) :
  stays_real (dens_floc_init c clay coag).
Proof.
  assert (Hdiv : forall x y, stays_real (py_div x y)).
  { intros x y E. destruct (py_div_cases x y) as [H | H];
      rewrite H in E; discriminate. }
  assert (Hattr : forall o, stays_real (attr o))
    by (intros [v |]; discriminate).
  assert (Hnum : forall v, stays_real (num v))
    by (intros [| x]; discriminate).
  assert (Hok : forall x : R, stays_real (Ok x)) by (intros x; discriminate).
  unfold dens_floc_init, conc_floc, frac_vol_floc_initial, conc_precipitate.
  repeat (apply bind_stays_real; [| intros ?]); auto.
Qed.

(** With a fractal dimension of exactly 1 the exponent [1 / (DiamFractal - 1)]
    is never computed: the call raises, whatever the other arguments. *)
Lemma diam_floc_vel_term_fractal_1 (pc : physchem) (ConcAl ConcClay : R)
    (coag : Chemical) (DiamInit VelTerm Temp : R) :
  exists e,
    diam_floc_vel_term pc ConcAl ConcClay coag 1 DiamInit VelTerm Temp
    = Raise e
    /\ builtin e.
Proof.
  unfold diam_floc_vel_term. cbv zeta.
  match goal with
  | |- context [bind (py_div ?x ?y) _] =>
      destruct (py_div_cases x y) as [H | H]; rewrite H; cbn [bind]
  end.
  2:{ eexists. split; [reflexivity | right; right; reflexivity]. }
  destruct (dens_floc_init ConcAl ConcClay coag) as [rho0 | e |] eqn:E;
    cbn [bind].
  - match goal with
    | |- context [bind (py_div ?x ?y) _] =>
        destruct (py_div_cases x y) as [H' | H']; rewrite H'; cbn [bind]
    end.
    + rewrite (py_div_zero 1 (1 - 1)) by lra. cbn [bind].
      eexists. split; [reflexivity | right; right; reflexivity].
    + eexists. split; [reflexivity | right; right; reflexivity].
  - exists e. split; [reflexivity |].
    apply (dens_floc_init_raises_only_builtin ConcAl ConcClay coag). exact E.
  - exfalso. exact (dens_floc_init_stays_real ConcAl ConcClay coag E).
Qed.




(** * Further properties of the module *)

(** ** Real powers *)

Lemma Rpower_third_cube (x : R) : 0 < x -> Rpower x (1 / 3) ^ 3 = x.
Proof.
  intros Hx. rewrite <- Rpower_pow by apply Rpower_pos.
  rewrite Rpower_mult.
  replace (1 / 3 * INR 3) with 1 by (simpl; field).
  apply Rpower_1. assumption.
Qed.

Lemma Rpower_cube_third (x : R) : 0 < x -> Rpower (x ^ 3) (1 / 3) = x.
Proof.
  intros Hx. rewrite <- Rpower_pow by assumption.
  rewrite Rpower_mult.
  replace (INR 3 * (1 / 3)) with 1 by (simpl; field).
  apply Rpower_1. assumption.
Qed.

Lemma Rpower_inv_base (x y : R) : 0 < x -> Rpower (/ x) y = / Rpower x y.
Proof.
  intros Hx. unfold Rpower. rewrite ln_Rinv by assumption.
  rewrite <- exp_Ropp. f_equal. ring.
Qed.

Lemma Rpower_gt_1 (x y : R) : 1 < x -> 0 < y -> 1 < Rpower x y.
Proof.
  intros Hx Hy. rewrite <- (Rpower_O x) by lra. apply Rpower_lt; assumption.
Qed.

Lemma Rpower_lt_1 (x y : R) : 0 < x < 1 -> 0 < y -> Rpower x y < 1.
Proof.
  intros [Hx0 Hx1] Hy. unfold Rpower. rewrite <- exp_0.
  apply exp_increasing.
  assert (Hl : ln x < 0) by (rewrite <- ln_1; apply ln_increasing; lra).
  nra.
Qed.

(** ** Particle numbers and spacings *)

(** X1. For a positive concentration and diameter, the clay particles are
    spaced one per cube of side [sep_dist_clay]: number density times the
    cube of the separation distance is 1. *)
Theorem num_clay_sep_dist_clay (ConcClay DiamClay : R)
    (HC : 0 < ConcClay) (Hd : 0 < DiamClay) :
  exists n s,
    num_clay ConcClay DiamClay = Ok n
    /\ sep_dist_clay ConcClay DiamClay = Ok s
    /\ 0 < s
    /\ n * s ^ 3 = 1.
Proof.
  assert (Hd3 : 0 < DiamClay ^ 3) by (apply pow_lt; assumption).
  pose proof PI_RGT_0 as Hpi.
  assert (Hv : 0 < PI * DiamClay ^ 3) by (apply Rmult_lt_0_compat; assumption).
  assert (Hb : 0 < DENS_CLAY / ConcClay * (PI * DiamClay ^ 3 / 6)).
  { unfold DENS_CLAY. apply Rmult_lt_0_compat; apply Rdiv_lt_0_compat; lra. }
  eexists. eexists. split; [| split; [| split]].
  - unfold num_clay. apply py_div_ok. unfold DENS_CLAY. lra.
  - unfold sep_dist_clay. rewrite py_div_ok by lra. cbn [bind].
    apply py_pow_pos. exact Hb.
  - apply Rpower_pos.
  - rewrite Rpower_third_cube by exact Hb.
    unfold DENS_CLAY. field. lra.
Qed.

Lemma num_clay_sep_dist_clay_witness :
  exists n s,
    num_clay (/ 100) DIAM_CLAY = Ok n
    /\ sep_dist_clay (/ 100) DIAM_CLAY = Ok s
    /\ 0 < s
    /\ n * s ^ 3 = 1.
Proof.
  apply (num_clay_sep_dist_clay (/ 100) DIAM_CLAY); unfold DIAM_CLAY; lra.
Defined.

(** X2. For a positive aluminium concentration, [sep_dist_aluminum] is the
    side of the cube that holds one aluminium atom: Avogadro's number times
    the molar concentration times the cube of the distance is 1. *)
Theorem sep_dist_aluminum_one_per_cube (ConcAluminum : R)
    (HC : 0 < ConcAluminum) :
  exists m s,
    moles_aluminum ConcAluminum = Ok m
    /\ sep_dist_aluminum ConcAluminum = Ok s
    /\ 0 < s
    /\ NUM_AVOGADRO * m * s ^ 3 = 1.
Proof.
  assert (Hm : 0 < NUM_AVOGADRO * (ConcAluminum / MOLEC_WEIGHT_ALUMINUM)).
  { unfold NUM_AVOGADRO, MOLEC_WEIGHT_ALUMINUM.
    apply Rmult_lt_0_compat.
    - apply Rmult_lt_0_compat; [lra | apply pow_lt; lra].
    - apply Rdiv_lt_0_compat; lra. }
  assert (Hq : 0 < 1 / (NUM_AVOGADRO * (ConcAluminum / MOLEC_WEIGHT_ALUMINUM)))
    by (apply Rdiv_lt_0_compat; lra).
  eexists. eexists. split; [reflexivity | split; [| split]].
  - unfold sep_dist_aluminum, moles_aluminum. cbn [bind].
    rewrite py_div_ok by lra. cbn [bind]. apply py_pow_pos. exact Hq.
  - apply Rpower_pos.
  - rewrite Rpower_third_cube by exact Hq.
    set (N := NUM_AVOGADRO * (ConcAluminum / MOLEC_WEIGHT_ALUMINUM)) in *.
    field. lra.
Qed.

Lemma sep_dist_aluminum_one_per_cube_witness :
  exists m s,
    moles_aluminum (/ 1000) = Ok m
    /\ sep_dist_aluminum (/ 1000) = Ok s
    /\ 0 < s
    /\ NUM_AVOGADRO * m * s ^ 3 = 1.
Proof. apply (sep_dist_aluminum_one_per_cube (/ 1000)); lra. Defined.

(** X3. For a coagulant with a defined positive precipitate, the volume
    fraction of precipitate without clay is the aluminium concentration
    divided by [dens_alum_nanocluster], and [conc_precipitate] is that volume
    fraction times the precipitate density. *)
Theorem nanocluster_volume (ConcAluminum : R) (coag : Chemical)
    (Hcoag : precipitate_defined coag) :
  exists rho cp phi pd,
    dens_alum_nanocluster coag = Ok rho
    /\ conc_precipitate ConcAluminum coag = Ok cp
    /\ frac_vol_floc_initial ConcAluminum 0 coag = Ok phi
    /\ PrecipDensity coag = Some (VNum pd)
    /\ 0 < rho
    /\ phi = ConcAluminum / rho
    /\ cp = phi * pd.
Proof.
  destruct (precipitate_defined_values coag Hcoag)
    as (pd & pw & pm & (Hpd & Hpw & Hpm) & Ed & Ew & Em).
  exists (pd * MOLEC_WEIGHT_ALUMINUM * pm / pw),
    (conc_precipitate_val ConcAluminum pw pm),
    (frac_vol_val ConcAluminum 0 pd pw pm), pd.
  split; [apply dens_alum_nanocluster_ok; assumption |].
  split; [apply conc_precipitate_ok; assumption |].
  split; [apply (frac_vol_floc_initial_ok coag pd pw pm); assumption |].
  split; [exact Ed |].
  unfold frac_vol_val, conc_precipitate_val, MOLEC_WEIGHT_ALUMINUM, DENS_CLAY.
  split; [| split].
  - apply Rdiv_lt_0_compat; [| assumption].
    apply Rmult_lt_0_compat; [lra | assumption].
  - field. repeat split; lra.
  - field. repeat split; lra.
Qed.

Lemma nanocluster_volume_witness :
  exists rho cp phi pd,
    dens_alum_nanocluster Alum = Ok rho
    /\ conc_precipitate (/ 1000) Alum = Ok cp
    /\ frac_vol_floc_initial (/ 1000) 0 Alum = Ok phi
    /\ PrecipDensity Alum = Some (VNum pd)
    /\ 0 < rho
    /\ phi = / 1000 / rho
    /\ cp = phi * pd.
Proof. apply (nanocluster_volume (/ 1000) Alum Alum_precipitate_defined). Defined.

(** ** Fractal growth *)

(** X4. For a positive fractal dimension and initial diameter,
    [diam_fractal] starts at the initial diameter with no collision, grows
    strictly with the number of collisions, and doubles every [DiamFractal]
    further collisions. *)
Theorem diam_fractal_growth (DiamFractal DiamInitial n m : R)
    (Hfd : 0 < DiamFractal) (Hd0 : 0 < DiamInitial) (Hnm : n < m) :
  diam_fractal DiamFractal DiamInitial 0 = Ok DiamInitial
  /\ exists a b,
       diam_fractal DiamFractal DiamInitial n = Ok a
       /\ diam_fractal DiamFractal DiamInitial m = Ok b
       /\ 0 < a < b
       /\ diam_fractal DiamFractal DiamInitial (n + DiamFractal) = Ok (2 * a).
Proof.
  rewrite !diam_fractal_ok by lra.
  split.
  - f_equal. unfold Rdiv. rewrite Rmult_0_l, Rpower_O by lra. ring.
  - eexists. eexists. split; [reflexivity | split; [reflexivity |]].
    assert (Hp : 0 < Rpower 2 (n / DiamFractal)) by apply Rpower_pos.
    assert (Hlt : Rpower 2 (n / DiamFractal) < Rpower 2 (m / DiamFractal)).
    { apply Rpower_lt; [lra |].
      unfold Rdiv. apply Rmult_lt_compat_r; [| assumption].
      apply Rinv_0_lt_compat. assumption. }
    split; [split; nra |].
    f_equal.
    replace ((n + DiamFractal) / DiamFractal) with (n / DiamFractal + 1)
      by (field; lra).
    rewrite Rpower_plus, Rpower_1 by lra. ring.
Qed.

Lemma diam_fractal_growth_witness :
  diam_fractal DIAM_FRACTAL (/ 10 ^ 6) 0 = Ok (/ 10 ^ 6)
  /\ exists a b,
       diam_fractal DIAM_FRACTAL (/ 10 ^ 6) 1 = Ok a
       /\ diam_fractal DIAM_FRACTAL (/ 10 ^ 6) 2 = Ok b
       /\ 0 < a < b
       /\ diam_fractal DIAM_FRACTAL (/ 10 ^ 6) (1 + DIAM_FRACTAL)
          = Ok (2 * a).
Proof.
  apply (diam_fractal_growth DIAM_FRACTAL (/ 10 ^ 6) 1 2);
    unfold DIAM_FRACTAL; lra.
Defined.

(** X5. With no coagulant dosed, [sep_dist_floc] taken at the initial size
    gives the clay spacing of [sep_dist_clay], whatever the fractal
    dimension. *)
Theorem sep_dist_floc_without_coagulant (ConcClay : R) (coag : Chemical)
    (DiamFractal DiamClay : R)
    (HClay : 0 < ConcClay) (Hcoag : precipitate_defined coag)
    (Hd : 0 < DiamClay) :
  exists s,
    sep_dist_clay ConcClay DiamClay = Ok s
    /\ sep_dist_floc 0 ConcClay coag DiamFractal DiamClay DiamClay = Ok s.
Proof.
  destruct (precipitate_defined_values coag Hcoag)
    as (pd & pw & pm & (Hpd & Hpw & Hpm) & Ed & Ew & Em).
  pose proof PI_RGT_0 as Hpi.
  assert (Hd3 : 0 < DiamClay ^ 3) by (apply pow_lt; assumption).
  assert (Hphi : frac_vol_val 0 ConcClay pd pw pm = ConcClay / DENS_CLAY).
  { unfold frac_vol_val. rewrite conc_precipitate_val_0.
    unfold Rdiv. ring. }
  assert (Hq : 0 < PI / (6 * (ConcClay / DENS_CLAY))).
  { unfold DENS_CLAY. apply Rdiv_lt_0_compat; [assumption |].
    apply Rmult_lt_0_compat; [lra | apply Rdiv_lt_0_compat; lra]. }
  exists (DiamClay * Rpower (PI / (6 * (ConcClay / DENS_CLAY))) (1 / 3)).
  split.
  - unfold sep_dist_clay. rewrite py_div_ok by lra. cbn [bind].
    replace (DENS_CLAY / ConcClay * (PI * DiamClay ^ 3 / 6))
      with (PI / (6 * (ConcClay / DENS_CLAY)) * DiamClay ^ 3)
      by (unfold DENS_CLAY; field; lra).
    rewrite py_pow_pos by (apply Rmult_lt_0_compat; assumption).
    f_equal.
    rewrite <- Rpower_mult_distr by assumption.
    rewrite Rpower_cube_third by assumption. ring.
  - unfold sep_dist_floc.
    rewrite (frac_vol_floc_initial_ok coag pd pw pm) by assumption.
    cbn [bind]. rewrite Hphi.
    rewrite py_div_ok
      by (unfold DENS_CLAY; apply Rmult_integral_contrapositive_currified;
          [lra | apply Rgt_not_eq, Rdiv_lt_0_compat; lra]).
    cbn [bind]. rewrite py_pow_pos by assumption. cbn [bind].
    rewrite py_div_ok by lra. cbn [bind].
    replace (DiamClay / DiamClay) with 1 by (field; lra).
    rewrite py_pow_pos by lra. cbn [bind].
    rewrite Rpower_1_l. f_equal. ring.
Qed.

Lemma sep_dist_floc_without_coagulant_witness :
  exists s,
    sep_dist_clay (/ 100) DIAM_CLAY = Ok s
    /\ sep_dist_floc 0 (/ 100) PACl DIAM_FRACTAL DIAM_CLAY DIAM_CLAY = Ok s.
Proof.
  apply (sep_dist_floc_without_coagulant (/ 100) PACl DIAM_FRACTAL DIAM_CLAY);
    try apply PACl_precipitate_defined; unfold DIAM_CLAY; lra.
Defined.

(** ** Floc density and settling *)

Lemma dens_floc_ok (pc : physchem) (ConcAl ConcClay DiamFractal DiamInit
    DiamTarget : R) (coag : Chemical) (Temp rho0 : R) :
  dens_floc_init ConcAl ConcClay coag = Ok rho0 ->
  0 < DiamInit -> 0 < DiamTarget ->
  dens_floc pc ConcAl ConcClay DiamFractal DiamInit DiamTarget coag Temp
  = Ok ((rho0 - density_water pc Temp)
        * Rpower (DiamInit / DiamTarget) (3 - DiamFractal)
        + density_water pc Temp).
Proof.
  intros Hrho Hd0 Hdt. unfold dens_floc. cbv zeta.
  rewrite Hrho. cbn [bind]. rewrite py_div_ok by lra. cbn [bind].
  rewrite py_pow_pos by (apply Rdiv_lt_0_compat; assumption).
  reflexivity.
Qed.

(** X6. When the initial floc is denser than water and the fractal dimension
    is below 3, [dens_floc] is the initial floc density at the initial size,
    decreases strictly as the floc grows, and stays above the density of
    water. *)
Theorem dens_floc_decreases_towards_water (pc : physchem)
    (ConcAl ConcClay DiamFractal DiamInit d1 d2 : R) (coag : Chemical)
    (Temp rho0 : R)
    (Hrho : dens_floc_init ConcAl ConcClay coag = Ok rho0)
    (Hgt : density_water pc Temp < rho0)
    (Hfd : DiamFractal < 3)
    (Hd0 : 0 < DiamInit) (Hd1 : 0 < d1) (Hd12 : d1 < d2) :
  dens_floc pc ConcAl ConcClay DiamFractal DiamInit DiamInit coag Temp
  = Ok rho0
  /\ exists r1 r2,
       dens_floc pc ConcAl ConcClay DiamFractal DiamInit d1 coag Temp = Ok r1
       /\ dens_floc pc ConcAl ConcClay DiamFractal DiamInit d2 coag Temp
          = Ok r2
       /\ density_water pc Temp < r2 < r1.
Proof.
  set (W := density_water pc Temp) in *.
  rewrite !(dens_floc_ok pc ConcAl ConcClay DiamFractal DiamInit _ coag Temp
              rho0 Hrho) by lra.
  fold W. split.
  - f_equal. replace (DiamInit / DiamInit) with 1 by (field; lra).
    rewrite Rpower_1_l. ring.
  - eexists. eexists. split; [reflexivity | split; [reflexivity |]].
    assert (Hp2 : 0 < Rpower (DiamInit / d2) (3 - DiamFractal))
      by apply Rpower_pos.
    assert (Hlt : Rpower (DiamInit / d2) (3 - DiamFractal)
                  < Rpower (DiamInit / d1) (3 - DiamFractal)).
    { apply Rlt_Rpower_l; [lra |]. split.
      - apply Rdiv_lt_0_compat; lra.
      - unfold Rdiv. apply Rmult_lt_compat_l; [assumption |].
        apply Rinv_lt_contravar; [apply Rmult_lt_0_compat; lra | assumption]. }
    split; nra.
Qed.

Lemma dens_floc_decreases_towards_water_witness :
  dens_floc pc_room (/ 1000) (/ 100) DIAM_FRACTAL DIAM_CLAY DIAM_CLAY PACl 293
  = Ok ((conc_precipitate_val (/ 1000) 1.039 13 + / 100)
        / frac_vol_val (/ 1000) (/ 100) 1138 1.039 13)
  /\ exists r1 r2,
       dens_floc pc_room (/ 1000) (/ 100) DIAM_FRACTAL DIAM_CLAY (/ 10000)
                 PACl 293 = Ok r1
       /\ dens_floc pc_room (/ 1000) (/ 100) DIAM_FRACTAL DIAM_CLAY (/ 1000)
                    PACl 293 = Ok r2
       /\ density_water pc_room 293 < r2 < r1.
Proof.
  apply (dens_floc_decreases_towards_water pc_room (/ 1000) (/ 100)
           DIAM_FRACTAL DIAM_CLAY (/ 10000) (/ 1000) PACl 293 _
           PACl_dens_floc_init).
  - cbn [pc_room density_water].
    unfold frac_vol_val, conc_precipitate_val, MOLEC_WEIGHT_ALUMINUM, DENS_CLAY.
    lra.
  - unfold DIAM_FRACTAL. lra.
  - unfold DIAM_CLAY. lra.
  - lra.
  - lra.
Defined.

(** X7. As a floc grows its excess density falls exactly as its volume
    fraction rises: the product of [dens_floc] minus the water density and
    [frac_vol_floc] is the same at every size. *)
Theorem excess_mass_conserved (pc : physchem)
    (ConcAl ConcClay DiamFractal DiamInit DiamTarget : R) (coag : Chemical)
    (Temp rho0 phi0 : R)
    (Hrho : dens_floc_init ConcAl ConcClay coag = Ok rho0)
    (Hphi : frac_vol_floc_initial ConcAl ConcClay coag = Ok phi0)
    (Hd0 : 0 < DiamInit) (Hdt : 0 < DiamTarget) :
  exists rho phi,
    dens_floc pc ConcAl ConcClay DiamFractal DiamInit DiamTarget coag Temp
    = Ok rho
    /\ frac_vol_floc ConcAl ConcClay coag DiamFractal DiamInit DiamTarget
       = Ok phi
    /\ (rho - density_water pc Temp) * phi
       = (rho0 - density_water pc Temp) * phi0.
Proof.
  rewrite (dens_floc_ok pc ConcAl ConcClay DiamFractal DiamInit DiamTarget
             coag Temp rho0 Hrho) by assumption.
  unfold frac_vol_floc. rewrite Hphi. cbn [bind].
  rewrite py_div_ok by lra. cbn [bind].
  rewrite py_pow_pos by (apply Rdiv_lt_0_compat; assumption). cbn [bind].
  eexists. eexists. split; [reflexivity | split; [reflexivity |]].
  set (e := 3 - DiamFractal).
  assert (H1 : Rpower (DiamInit / DiamTarget) e
               * Rpower (DiamTarget / DiamInit) e = 1).
  { rewrite Rpower_mult_distr by (apply Rdiv_lt_0_compat; assumption).
    replace (DiamInit / DiamTarget * (DiamTarget / DiamInit)) with 1
      by (field; lra).
    apply Rpower_1_l. }
  set (a := Rpower (DiamInit / DiamTarget) e) in *.
  set (b := Rpower (DiamTarget / DiamInit) e) in *.
  replace ((rho0 - density_water pc Temp) * a + density_water pc Temp
           - density_water pc Temp)
    with ((rho0 - density_water pc Temp) * a) by ring.
  replace ((rho0 - density_water pc Temp) * a * (phi0 * b))
    with ((rho0 - density_water pc Temp) * phi0 * (a * b)) by ring.
  rewrite H1. ring.
Qed.

Lemma PACl_frac_vol_floc_initial :
  frac_vol_floc_initial (/ 1000) (/ 100) PACl
  = Ok (frac_vol_val (/ 1000) (/ 100) 1138 1.039 13).
Proof. apply frac_vol_floc_initial_ok; try reflexivity; lra. Qed.

Lemma excess_mass_conserved_witness :
  exists rho phi,
    dens_floc pc_room (/ 1000) (/ 100) DIAM_FRACTAL DIAM_CLAY (/ 1000) PACl 293
    = Ok rho
    /\ frac_vol_floc (/ 1000) (/ 100) PACl DIAM_FRACTAL DIAM_CLAY (/ 1000)
       = Ok phi
    /\ (rho - density_water pc_room 293) * phi
       = ((conc_precipitate_val (/ 1000) 1.039 13 + / 100)
          / frac_vol_val (/ 1000) (/ 100) 1138 1.039 13
          - density_water pc_room 293)
         * frac_vol_val (/ 1000) (/ 100) 1138 1.039 13.
Proof.
  apply (excess_mass_conserved pc_room (/ 1000) (/ 100) DIAM_FRACTAL
           DIAM_CLAY (/ 1000) PACl 293 _ _
           PACl_dens_floc_init PACl_frac_vol_floc_initial);
    unfold DIAM_CLAY; lra.
Defined.

(** X8. [vel_term_floc] is Stokes' law at the target size: gravity times the
    squared target diameter over [18 * PHI_FLOC] times the viscosity, times
    the relative excess of [dens_floc] over the density of water. *)
Theorem vel_term_floc_is_stokes (pc : physchem) (ConcAl ConcClay : R)
    (coag : Chemical) (DiamFractal DiamInit DiamTarget Temp rho0 : R)
    (Hnu : 0 < viscosity_kinematic pc Temp)
    (Hw : 0 < density_water pc Temp)
    (Hrho : dens_floc_init ConcAl ConcClay coag = Ok rho0)
    (Hd0 : 0 < DiamInit) (Hdt : 0 < DiamTarget) :
  exists v rho,
    vel_term_floc pc ConcAl ConcClay coag DiamFractal DiamInit DiamTarget Temp
    = Ok v
    /\ dens_floc pc ConcAl ConcClay DiamFractal DiamInit DiamTarget coag Temp
       = Ok rho
    /\ v = gravity pc * DiamTarget ^ 2
           / (18 * PHI_FLOC * viscosity_kinematic pc Temp)
           * ((rho - density_water pc Temp) / density_water pc Temp).
Proof.
  rewrite (dens_floc_ok pc ConcAl ConcClay DiamFractal DiamInit DiamTarget
             coag Temp rho0 Hrho) by assumption.
  set (W := density_water pc Temp) in *.
  set (nu := viscosity_kinematic pc Temp) in *.
  assert (Ht : 0 < DiamTarget / DiamInit)
    by (apply Rdiv_lt_0_compat; assumption).
  unfold vel_term_floc. cbv zeta. fold W nu.
  rewrite py_div_ok by (unfold PHI_FLOC; lra). cbn [bind].
  rewrite Hrho. cbn [bind].
  rewrite py_div_ok by lra. cbn [bind].
  rewrite py_div_ok by lra. cbn [bind].
  rewrite py_pow_pos by assumption. cbn [bind].
  eexists. eexists. split; [reflexivity | split; [reflexivity |]].
  replace (DiamInit / DiamTarget) with (/ (DiamTarget / DiamInit))
    by (field; lra).
  rewrite Rpower_inv_base by assumption.
  replace (DiamFractal - 1) with (INR 2 + - (3 - DiamFractal))
    by (simpl; ring).
  rewrite Rpower_plus, Rpower_pow, Rpower_Ropp by assumption.
  pose proof (Rpower_pos (DiamTarget / DiamInit) (3 - DiamFractal)) as Hp.
  unfold PHI_FLOC. field. repeat split; lra.
Qed.

Lemma vel_term_floc_is_stokes_witness :
  exists v rho,
    vel_term_floc pc_room (/ 1000) (/ 100) PACl DIAM_FRACTAL DIAM_CLAY
                  (/ 1000) 293 = Ok v
    /\ dens_floc pc_room (/ 1000) (/ 100) DIAM_FRACTAL DIAM_CLAY (/ 1000)
                 PACl 293 = Ok rho
    /\ v = gravity pc_room * (/ 1000) ^ 2
           / (18 * PHI_FLOC * viscosity_kinematic pc_room 293)
           * ((rho - density_water pc_room 293) / density_water pc_room 293).
Proof.
  apply (vel_term_floc_is_stokes pc_room (/ 1000) (/ 100) PACl DIAM_FRACTAL
           DIAM_CLAY (/ 1000) 293 _ ltac:(cbn; lra) ltac:(cbn; lra)
           PACl_dens_floc_init);
    unfold DIAM_CLAY; lra.
Defined.

(** ** Kolmogorov and viscous length scales *)

Lemma eta_kolmogorov_ok (pc : physchem) (EnergyDis Temp : R) :
  0 < viscosity_kinematic pc Temp -> 0 < EnergyDis ->
  eta_kolmogorov pc EnergyDis Temp
  = Ok (Rpower (viscosity_kinematic pc Temp ^ 3 / EnergyDis) (1 / 4)).
Proof.
  intros Hnu He. unfold eta_kolmogorov.
  rewrite py_div_ok by lra. cbn [bind].
  apply py_pow_pos. apply Rdiv_lt_0_compat; [apply pow_lt |]; assumption.
Qed.

(** The floc size whose separation distance is the length [l]. *)
Lemma sep_dist_floc_at_scale (ConcAl ConcClay : R) (coag : Chemical)
    (DiamFractal DiamInit phi0 l : R) :
  frac_vol_floc_initial ConcAl ConcClay coag = Ok phi0 ->
  0 < phi0 -> 0 < DiamInit -> DiamFractal <> 0 -> 0 < l ->
  let d := DiamInit * Rpower (l / DiamInit * Rpower (6 * phi0 / PI) (1 / 3))
                             (3 / DiamFractal) in
  0 < d
  /\ sep_dist_floc ConcAl ConcClay coag DiamFractal DiamInit d = Ok l.
Proof.
  intros Hphi Hpos Hd0 Hfd Hl d.
  pose proof PI_RGT_0 as Hpi.
  assert (Hc : 0 < 6 * phi0 / PI) by (apply Rdiv_lt_0_compat; lra).
  set (B := l / DiamInit * Rpower (6 * phi0 / PI) (1 / 3)) in *.
  assert (HB : 0 < B).
  { apply Rmult_lt_0_compat; [apply Rdiv_lt_0_compat; lra | apply Rpower_pos]. }
  assert (Hd : 0 < d)
    by (apply Rmult_lt_0_compat; [assumption | apply Rpower_pos]).
  split; [exact Hd |].
  unfold sep_dist_floc. rewrite Hphi. cbn [bind].
  rewrite py_div_ok by lra. cbn [bind].
  rewrite py_pow_pos by (apply Rdiv_lt_0_compat; lra). cbn [bind].
  rewrite py_div_ok by lra. cbn [bind].
  replace (d / DiamInit) with (Rpower B (3 / DiamFractal))
    by (unfold d; field; lra).
  rewrite py_pow_pos by apply Rpower_pos. cbn [bind]. f_equal.
  rewrite Rpower_mult.
  replace (3 / DiamFractal * (DiamFractal / 3)) with 1 by (field; lra).
  rewrite Rpower_1 by assumption. unfold B.
  replace (PI / (6 * phi0)) with (/ (6 * phi0 / PI)) by (field; lra).
  rewrite Rpower_inv_base by assumption.
  pose proof (Rpower_pos (6 * phi0 / PI) (1 / 3)) as Hp.
  field. lra.
Qed.

(** X9. [diam_kolmogorov] returns the floc size at which [sep_dist_floc] is
    the Kolmogorov length [eta_kolmogorov], for positive viscosity, energy
    dissipation rate, initial volume fraction and initial diameter and a
    fractal dimension other than zero. *)
Theorem diam_kolmogorov_separation (pc : physchem) (ConcAl ConcClay : R)
    (coag : Chemical) (DiamInit DiamFractal EnergyDis Temp phi0 : R)
    (Hnu : 0 < viscosity_kinematic pc Temp) (He : 0 < EnergyDis)
    (Hphi : frac_vol_floc_initial ConcAl ConcClay coag = Ok phi0)
    (Hpos : 0 < phi0) (Hd0 : 0 < DiamInit) (Hfd : DiamFractal <> 0) :
  exists eta d,
    eta_kolmogorov pc EnergyDis Temp = Ok eta
    /\ diam_kolmogorov pc ConcAl ConcClay coag DiamInit DiamFractal EnergyDis
                       Temp = Ok d
    /\ 0 < d
    /\ sep_dist_floc ConcAl ConcClay coag DiamFractal DiamInit d = Ok eta.
Proof.
  pose proof PI_RGT_0 as Hpi.
  set (eta := Rpower (viscosity_kinematic pc Temp ^ 3 / EnergyDis) (1 / 4)).
  assert (Heta : 0 < eta) by apply Rpower_pos.
  destruct (sep_dist_floc_at_scale ConcAl ConcClay coag DiamFractal DiamInit
              phi0 eta Hphi Hpos Hd0 Hfd Heta) as [Hd Hsep].
  eexists. eexists. split; [apply eta_kolmogorov_ok; assumption |].
  split; [| split; [exact Hd | exact Hsep]].
  unfold diam_kolmogorov. rewrite eta_kolmogorov_ok by assumption.
  cbn [bind]. fold eta. rewrite py_div_ok by lra. cbn [bind].
  rewrite Hphi. cbn [bind].
  rewrite py_pow_pos by (apply Rdiv_lt_0_compat; lra). cbn [bind].
  rewrite py_div_ok by assumption. cbn [bind].
  rewrite py_pow_pos; [reflexivity |].
  apply Rmult_lt_0_compat; [apply Rdiv_lt_0_compat; lra | apply Rpower_pos].
Qed.

Lemma PACl_frac_vol_val_pos : 0 < frac_vol_val (/ 1000) (/ 100) 1138 1.039 13.
Proof. apply frac_vol_val_pos; lra. Qed.

Lemma diam_kolmogorov_separation_witness :
  exists eta d,
    eta_kolmogorov pc_room (/ 100) 293 = Ok eta
    /\ diam_kolmogorov pc_room (/ 1000) (/ 100) PACl DIAM_CLAY DIAM_FRACTAL
                       (/ 100) 293 = Ok d
    /\ 0 < d
    /\ sep_dist_floc (/ 1000) (/ 100) PACl DIAM_FRACTAL DIAM_CLAY d = Ok eta.
Proof.
  apply (diam_kolmogorov_separation pc_room (/ 1000) (/ 100) PACl DIAM_CLAY
           DIAM_FRACTAL (/ 100) 293 _ ltac:(cbn; lra) ltac:(lra)
           PACl_frac_vol_floc_initial PACl_frac_vol_val_pos);
    unfold DIAM_CLAY, DIAM_FRACTAL; lra.
Defined.

(** X10. [lambda_vel] is [RATIO_KOLMOGOROV] (fifty) Kolmogorov lengths, and
    [diam_vel] returns the floc size at which [sep_dist_floc] is that inner
    viscous length. *)
Theorem diam_vel_separation (pc : physchem) (ConcAl ConcClay : R)
    (coag : Chemical) (DiamInit DiamFractal EnergyDis Temp phi0 : R)
    (Hnu : 0 < viscosity_kinematic pc Temp) (He : 0 < EnergyDis)
    (Hphi : frac_vol_floc_initial ConcAl ConcClay coag = Ok phi0)
    (Hpos : 0 < phi0) (Hd0 : 0 < DiamInit) (Hfd : DiamFractal <> 0) :
  exists eta d,
    eta_kolmogorov pc EnergyDis Temp = Ok eta
    /\ lambda_vel pc EnergyDis Temp = Ok (50 * eta)
    /\ diam_vel pc ConcAl ConcClay coag DiamInit DiamFractal EnergyDis Temp
       = Ok d
    /\ 0 < d
    /\ sep_dist_floc ConcAl ConcClay coag DiamFractal DiamInit d
       = Ok (50 * eta).
Proof.
  pose proof PI_RGT_0 as Hpi.
  set (eta := Rpower (viscosity_kinematic pc Temp ^ 3 / EnergyDis) (1 / 4)).
  assert (Heta : 0 < eta) by apply Rpower_pos.
  assert (Hlam : 0 < 50 * eta) by lra.
  destruct (sep_dist_floc_at_scale ConcAl ConcClay coag DiamFractal DiamInit
              phi0 (50 * eta) Hphi Hpos Hd0 Hfd Hlam) as [Hd Hsep].
  assert (El : lambda_vel pc EnergyDis Temp = Ok (50 * eta)).
  { unfold lambda_vel. rewrite eta_kolmogorov_ok by assumption. reflexivity. }
  eexists. eexists. split; [apply eta_kolmogorov_ok; assumption |].
  split; [exact El |].
  split; [| split; [exact Hd | exact Hsep]].
  unfold diam_vel. rewrite El. cbn [bind].
  rewrite py_div_ok by lra. cbn [bind].
  rewrite Hphi. cbn [bind].
  rewrite py_pow_pos by (apply Rdiv_lt_0_compat; lra). cbn [bind].
  rewrite py_div_ok by assumption. cbn [bind].
  rewrite py_pow_pos; [reflexivity |].
  apply Rmult_lt_0_compat; [apply Rdiv_lt_0_compat; lra | apply Rpower_pos].
Qed.

Lemma diam_vel_separation_witness :
  exists eta d,
    eta_kolmogorov pc_room (/ 100) 293 = Ok eta
    /\ lambda_vel pc_room (/ 100) 293 = Ok (50 * eta)
    /\ diam_vel pc_room (/ 1000) (/ 100) PACl DIAM_CLAY DIAM_FRACTAL
                (/ 100) 293 = Ok d
    /\ 0 < d
    /\ sep_dist_floc (/ 1000) (/ 100) PACl DIAM_FRACTAL DIAM_CLAY d
       = Ok (50 * eta).
Proof.
  apply (diam_vel_separation pc_room (/ 1000) (/ 100) PACl DIAM_CLAY
           DIAM_FRACTAL (/ 100) 293 _ ltac:(cbn; lra) ltac:(lra)
           PACl_frac_vol_floc_initial PACl_frac_vol_val_pos);
    unfold DIAM_CLAY, DIAM_FRACTAL; lra.
Defined.

(** X11. [diam_floc_max] and [ener_dis_diam_floc] undo each other on
    positive arguments. *)
Theorem diam_floc_max_ener_dis_inverse (epsMax Diam : R)
    (Heps : 0 < epsMax) (HD : 0 < Diam) :
  (d <- diam_floc_max epsMax ;; ener_dis_diam_floc d) = Ok epsMax
  /\ (e <- ener_dis_diam_floc Diam ;; diam_floc_max e) = Ok Diam.
Proof.
  split.
  - unfold diam_floc_max. rewrite py_pow_pos by assumption. cbn [bind].
    pose proof (Rpower_pos epsMax (1 / 3)) as Hp.
    rewrite py_div_ok by lra. cbn [bind].
    unfold ener_dis_diam_floc.
    assert (Hq : 0 < 1 / Rpower epsMax (1 / 3))
      by (apply Rdiv_lt_0_compat; lra).
    rewrite py_div_ok by nra. cbn [bind]. f_equal.
    replace (9.5 * / 10 ^ 5 / (9.5 * / 10 ^ 5 * (1 / Rpower epsMax (1 / 3))))
      with (Rpower epsMax (1 / 3)) by (field; lra).
    apply Rpower_third_cube. assumption.
  - unfold ener_dis_diam_floc. rewrite py_div_ok by lra. cbn [bind].
    assert (Hq : 0 < 9.5 * / 10 ^ 5 / Diam)
      by (apply Rdiv_lt_0_compat; lra).
    unfold diam_floc_max.
    rewrite py_pow_pos by (apply pow_lt; assumption). cbn [bind].
    rewrite Rpower_cube_third by assumption.
    rewrite py_div_ok by lra. cbn [bind]. f_equal. field. lra.
Qed.

Lemma diam_floc_max_ener_dis_inverse_witness :
  (d <- diam_floc_max (/ 100) ;; ener_dis_diam_floc d) = Ok (/ 100)
  /\ (e <- ener_dis_diam_floc (/ 1000) ;; diam_floc_max e) = Ok (/ 1000).
Proof. apply (diam_floc_max_ener_dis_inverse (/ 100) (/ 1000)); lra. Defined.

(** ** Velocity gradient and residence time in tubing *)

Lemma np_pow_pos (x y : R) : 0 < x -> np_pow x y = Ok (Rpower x y).
Proof.
  intros Hx. unfold np_pow. destruct (Rlt_dec 0 x); [reflexivity | contradiction].
Qed.

Lemma g_straight_ok (PlantFlow IDTube : R) :
  0 < IDTube ->
  g_straight PlantFlow IDTube = Ok (64 * PlantFlow / (3 * PI * IDTube ^ 3)).
Proof.
  intros HID. unfold g_straight. apply py_div_ok.
  pose proof PI_RGT_0 as Hpi.
  assert (H3 : 0 < IDTube ^ 3) by (apply pow_lt; assumption).
  apply Rgt_not_eq. apply Rmult_lt_0_compat; lra.
Qed.

Lemma dean_number_ok (pc : physchem) (PlantFlow IDTube RadiusCoil Temp : R) :
  0 < IDTube -> 0 < RadiusCoil -> 0 < viscosity_kinematic pc Temp ->
  dean_number pc PlantFlow IDTube RadiusCoil Temp
  = Ok (4 * PlantFlow / (PI * IDTube * viscosity_kinematic pc Temp)
        * Rpower (IDTube / (2 * RadiusCoil)) (1 / 2)).
Proof.
  intros HID HR Hnu. unfold dean_number, reynolds_rapid_mix.
  pose proof PI_RGT_0 as Hpi.
  assert (Hden : 0 < PI * IDTube * viscosity_kinematic pc Temp)
    by (apply Rmult_lt_0_compat; [apply Rmult_lt_0_compat |]; lra).
  rewrite py_div_ok by lra. cbn [bind].
  rewrite py_div_ok by lra. cbn [bind].
  rewrite py_pow_pos by (apply Rdiv_lt_0_compat; lra). reflexivity.
Qed.

(** The curvature factor of [g_coil] is at least 1. *)
Lemma coil_factor_ge_1 (l : R) : 1 <= Rpower (1 + 0.033 * l ^ 4) (1 / 2).
Proof.
  assert (H4 : 0 <= l ^ 4).
  { replace (l ^ 4) with ((l ^ 2) ^ 2) by ring. apply pow2_ge_0. }
  destruct (Req_dec_T (l ^ 4) 0) as [E | N].
  - rewrite E, Rmult_0_r, Rplus_0_r, Rpower_1_l. lra.
  - left. apply Rpower_gt_1; lra.
Qed.

Lemma g_coil_ok (pc : physchem) (FlowPlant IDTube RadiusCoil Temp : R) :
  0 < FlowPlant -> 0 < IDTube -> 0 < RadiusCoil ->
  0 < viscosity_kinematic pc Temp ->
  exists l,
    g_coil pc FlowPlant IDTube RadiusCoil Temp
    = Ok (64 * FlowPlant / (3 * PI * IDTube ^ 3)
          * Rpower (1 + 0.033 * l ^ 4) (1 / 2)).
Proof.
  intros HQ HID HR Hnu. pose proof PI_RGT_0 as Hpi.
  unfold g_coil. rewrite g_straight_ok by assumption. cbn [bind].
  rewrite dean_number_ok by assumption. cbn [bind].
  set (de := 4 * FlowPlant / _ * _).
  assert (Hde : 0 < de).
  { unfold de. apply Rmult_lt_0_compat; [| apply Rpower_pos].
    apply Rdiv_lt_0_compat; [lra |].
    apply Rmult_lt_0_compat; [apply Rmult_lt_0_compat |]; lra. }
  rewrite np_log10_pos by assumption. cbn [bind].
  exists (ln de / ln 10).
  pose proof (coil_factor_ge_1 (ln de / ln 10)) as Hf.
  assert (Hb : 0 < 1 + 0.033 * (ln de / ln 10) ^ 4).
  { assert (H4 : 0 <= (ln de / ln 10) ^ 4).
    { replace ((ln de / ln 10) ^ 4) with (((ln de / ln 10) ^ 2) ^ 2) by ring.
      apply pow2_ge_0. }
    lra. }
  rewrite np_pow_pos by assumption. reflexivity.
Qed.

(** X12. In a straight tube the product of the velocity gradient
    [g_straight] and the residence time [time_res_tube] is
    [16 * LengthTube / (3 * IDTube)]: it does not depend on the flow. *)
Theorem g_straight_time_res_flow_independent (PlantFlow IDTube LengthTube : R)
    (HQ : PlantFlow <> 0) (HID : 0 < IDTube) :
  exists g t,
    g_straight PlantFlow IDTube = Ok g
    /\ time_res_tube IDTube LengthTube PlantFlow = Ok t
    /\ g * t = 16 * LengthTube / (3 * IDTube).
Proof.
  pose proof PI_RGT_0 as Hpi.
  eexists. eexists. split; [apply g_straight_ok; assumption |].
  split; [unfold time_res_tube; apply py_div_ok; assumption |].
  field. repeat split; lra.
Qed.

Lemma g_straight_time_res_flow_independent_witness :
  exists g t,
    g_straight (/ 1000) (/ 100) = Ok g
    /\ time_res_tube (/ 100) 5 (/ 1000) = Ok t
    /\ g * t = 16 * 5 / (3 * / 100).
Proof.
  apply (g_straight_time_res_flow_independent (/ 1000) (/ 100) 5); lra.
Defined.

(** X13. For positive flow, tube diameter, coil radius and viscosity, the
    velocity gradient of the coiled tube is at least that of the straight
    tube: the curvature factor of [g_coil] is never below 1. *)
Theorem g_coil_at_least_g_straight (pc : physchem)
    (FlowPlant IDTube RadiusCoil Temp : R)
    (HQ : 0 < FlowPlant) (HID : 0 < IDTube) (HR : 0 < RadiusCoil)
    (Hnu : 0 < viscosity_kinematic pc Temp) :
  exists gs gc,
    g_straight FlowPlant IDTube = Ok gs
    /\ g_coil pc FlowPlant IDTube RadiusCoil Temp = Ok gc
    /\ 0 < gs <= gc.
Proof.
  pose proof PI_RGT_0 as Hpi.
  destruct (g_coil_ok pc FlowPlant IDTube RadiusCoil Temp HQ HID HR Hnu)
    as (l & El).
  eexists. eexists. split; [apply g_straight_ok; assumption |].
  split; [exact El |].
  pose proof (coil_factor_ge_1 l) as Hf.
  assert (Hgs : 0 < 64 * FlowPlant / (3 * PI * IDTube ^ 3)).
  { apply Rdiv_lt_0_compat; [lra |].
    apply Rmult_lt_0_compat; [lra | apply pow_lt; assumption]. }
  split; [exact Hgs | nra].
Qed.

Lemma g_coil_at_least_g_straight_witness :
  exists gs gc,
    g_straight (/ 1000) (/ 100) = Ok gs
    /\ g_coil pc_room (/ 1000) (/ 100) (/ 10) 293 = Ok gc
    /\ 0 < gs <= gc.
Proof.
  apply (g_coil_at_least_g_straight pc_room (/ 1000) (/ 100) (/ 10) 293);
    cbn; lra.
Defined.

(** X14. For positive flow, tube diameter, coil radius and viscosity and a
    tube of non-negative length, [g_time_res] is at least the straight-tube
    value [16 * LengthTube / (3 * IDTube)]. *)
Theorem g_time_res_lower_bound (pc : physchem)
    (FlowPlant IDTube RadiusCoil LengthTube Temp : R)
    (HQ : 0 < FlowPlant) (HID : 0 < IDTube) (HR : 0 < RadiusCoil)
    (HL : 0 <= LengthTube) (Hnu : 0 < viscosity_kinematic pc Temp) :
  exists gt,
    g_time_res pc FlowPlant IDTube RadiusCoil LengthTube Temp = Ok gt
    /\ 16 * LengthTube / (3 * IDTube) <= gt.
Proof.
  pose proof PI_RGT_0 as Hpi.
  destruct (g_coil_ok pc FlowPlant IDTube RadiusCoil Temp HQ HID HR Hnu)
    as (l & El).
  unfold g_time_res. rewrite El. cbn [bind].
  unfold time_res_tube. rewrite py_div_ok by lra. cbn [bind].
  eexists. split; [reflexivity |].
  pose proof (coil_factor_ge_1 l) as Hf.
  set (f := Rpower (1 + 0.033 * l ^ 4) (1 / 2)) in *.
  replace (64 * FlowPlant / (3 * PI * IDTube ^ 3) * f
           * (LengthTube * PI * (IDTube ^ 2 / 4) / FlowPlant))
    with (16 * LengthTube / (3 * IDTube) * f) by (field; repeat split; lra).
  assert (Hs : 0 <= 16 * LengthTube / (3 * IDTube)).
  { apply Rmult_le_pos; [lra |]. left. apply Rinv_0_lt_compat. lra. }
  nra.
Qed.

Lemma g_time_res_lower_bound_witness :
  exists gt,
    g_time_res pc_room (/ 1000) (/ 100) (/ 10) 5 293 = Ok gt
    /\ 16 * 5 / (3 * / 100) <= gt.
Proof.
  apply (g_time_res_lower_bound pc_room (/ 1000) (/ 100) (/ 10) 5 293);
    cbn; lra.
Defined.

(** X15. At zero flow [g_straight] returns 0 but [g_coil] returns no real
    number: the Dean number is 0 and its logarithm is infinite. *)
Theorem g_coil_zero_flow (pc : physchem) (IDTube RadiusCoil Temp : R)
    (HID : 0 < IDTube) (HR : 0 < RadiusCoil)
    (Hnu : 0 < viscosity_kinematic pc Temp) :
  g_straight 0 IDTube = Ok 0
  /\ dean_number pc 0 IDTube RadiusCoil Temp = Ok 0
  /\ g_coil pc 0 IDTube RadiusCoil Temp = NonReal.
Proof.
  assert (Eg : g_straight 0 IDTube = Ok 0).
  { rewrite g_straight_ok by assumption. f_equal. unfold Rdiv. ring. }
  assert (Ed : dean_number pc 0 IDTube RadiusCoil Temp = Ok 0).
  { rewrite dean_number_ok by assumption. f_equal. unfold Rdiv. ring. }
  split; [exact Eg | split; [exact Ed |]].
  unfold g_coil. rewrite Eg. cbn [bind]. rewrite Ed. cbn [bind].
  rewrite np_log10_nonpos by lra. reflexivity.
Qed.

Lemma g_coil_zero_flow_witness :
  g_straight 0 (/ 100) = Ok 0
  /\ dean_number pc_room 0 (/ 100) (/ 10) 293 = Ok 0
  /\ g_coil pc_room 0 (/ 100) (/ 10) 293 = NonReal.
Proof. apply (g_coil_zero_flow pc_room (/ 100) (/ 10) 293); cbn; lra. Defined.

(** ** Coverage and collision efficiency *)

Lemma gamma_humic_acid_to_coag_range (ConcAl ConcNatOrgMat : R)
    (NatOrgMat coag : Chemical) :
  0 < ConcAl -> 0 <= ConcNatOrgMat ->
  precipitate_defined coag ->
  positive (Density coag) -> positive (Diameter coag) ->
  positive (Density NatOrgMat) -> positive (Diameter NatOrgMat) ->
  exists h,
    gamma_humic_acid_to_coag ConcAl ConcNatOrgMat NatOrgMat coag = Ok h
    /\ 0 <= h <= 1.
Proof.
  intros HAl HNom Hcoag (cd & Ecd & Hcd) (cdia & Ecdia & Hcdia)
         (nd & End & Hnd) (ndia & Endia & Hndia).
  destruct (precipitate_defined_values coag Hcoag)
    as (pd & pw & pm & (Hpd & Hpw & Hpm) & Ed & Ew & Em).
  pose proof (conc_precipitate_val_pos ConcAl pw pm HAl Hpw Hpm) as Hcp.
  unfold gamma_humic_acid_to_coag.
  rewrite (conc_precipitate_ok coag pw pm) by assumption. cbn [bind].
  rewrite py_div_ok by lra. cbn [bind].
  rewrite Ecd, End. cbn [num bind].
  rewrite py_div_ok by lra. cbn [bind].
  rewrite Ecdia, Endia. cbn [num bind].
  rewrite py_div_ok by lra. cbn [bind].
  eexists. split; [reflexivity |].
  set (q1 := ConcNatOrgMat / conc_precipitate_val ConcAl pw pm).
  set (q2 := cd / nd). set (q3 := cdia / (4 * ndia)).
  assert (H1 : 0 <= q1).
  { unfold q1, Rdiv. apply Rmult_le_pos; [assumption |].
    left. apply Rinv_0_lt_compat. assumption. }
  assert (H2 : 0 < q2) by (apply Rdiv_lt_0_compat; assumption).
  assert (H3 : 0 < q3) by (apply Rdiv_lt_0_compat; lra).
  assert (H123 : 0 <= q1 * q2 * q3).
  { apply Rmult_le_pos; [apply Rmult_le_pos |]; lra. }
  split.
  - apply Rmin_glb; lra.
  - apply Rmin_r.
Qed.

Lemma PACl_density_positive : positive (Density PACl).
Proof. exists 1138. split; [reflexivity | lra]. Qed.

Lemma HumicAcid_density_positive : positive (Density HumicAcid).
Proof. exists 1780. split; [reflexivity | lra]. Qed.

Lemma HumicAcid_diameter_positive : positive (Diameter HumicAcid).
Proof. exists (72 * / 10 ^ 9). split; [reflexivity | lra]. Qed.

(** X16. For a positive aluminium dose, a non-negative concentration of
    organic matter, a coagulant with a defined positive precipitate, and
    positive densities and diameters of both species,
    [gamma_humic_acid_to_coag] returns a value in [[0, 1]]: the clamp at 1
    holds and the value is never negative. *)
Theorem gamma_humic_acid_to_coag_in_unit_interval (ConcAl ConcNatOrgMat : R)
    (NatOrgMat coag : Chemical)
    (HAl : 0 < ConcAl) (HNom : 0 <= ConcNatOrgMat)
    (Hcoag : precipitate_defined coag)
    (Hcd : positive (Density coag)) (Hcdia : positive (Diameter coag))
    (Hnd : positive (Density NatOrgMat))
    (Hndia : positive (Diameter NatOrgMat)) :
  exists h,
    gamma_humic_acid_to_coag ConcAl ConcNatOrgMat NatOrgMat coag = Ok h
    /\ 0 <= h <= 1.
Proof.
  apply gamma_humic_acid_to_coag_range; assumption.
Qed.

Lemma gamma_humic_acid_to_coag_in_unit_interval_witness :
  exists h,
    gamma_humic_acid_to_coag (/ 1000) (/ 100) HumicAcid PACl = Ok h
    /\ 0 <= h <= 1.
Proof.
  apply (gamma_humic_acid_to_coag_in_unit_interval (/ 1000) (/ 100)
           HumicAcid PACl ltac:(lra) ltac:(lra) PACl_precipitate_defined
           PACl_density_positive PACl_diameter_positive
           HumicAcid_density_positive HumicAcid_diameter_positive).
Defined.

(** X17. Whenever [gamma_coag] and [gamma_humic_acid_to_coag] return, the
    three sub-coefficients add up to [1 - (1 - t) ^ 2], where [t] is the
    value of [_pacl_term]: [alpha] depends on the inputs through [_pacl_term]
    only. *)
Theorem alpha_from_pacl_term
    (DiamTube DiamClay DensityClay ConcClay ConcAl ConcNatOrgMat : R)
    (NatOrgMat coag : Chemical) (RatioHeightDiameter g h : R)
    (Hgamma : gamma_coag ConcClay ConcAl coag DiamTube DiamClay DensityClay
                         RatioHeightDiameter = Ok g)
    (Hhumic : gamma_humic_acid_to_coag ConcAl ConcNatOrgMat NatOrgMat coag
              = Ok h) :
  exists t,
    _pacl_term DiamTube DiamClay DensityClay ConcClay ConcAl ConcNatOrgMat
               NatOrgMat coag RatioHeightDiameter = Ok t
    /\ alpha DiamTube DiamClay DensityClay ConcClay ConcAl ConcNatOrgMat
             NatOrgMat coag RatioHeightDiameter = Ok (1 - (1 - t) ^ 2).
Proof.
  exists (g * (1 - h)).
  rewrite (pacl_term_ok _ _ _ _ _ _ _ _ _ _ _ Hgamma Hhumic).
  rewrite (alpha_ok _ _ _ _ _ _ _ _ _ _ _ Hgamma Hhumic).
  split; [reflexivity | f_equal; ring].
Qed.

Lemma alpha_from_pacl_term_witness :
  exists t,
    _pacl_term (/ 100) DIAM_CLAY DENS_CLAY (/ 100) (/ 100000) 0 HumicAcid PACl
               RATIO_HEIGHT_DIAM = Ok t
    /\ alpha (/ 100) DIAM_CLAY DENS_CLAY (/ 100) (/ 100000) 0 HumicAcid PACl
             RATIO_HEIGHT_DIAM = Ok (1 - (1 - t) ^ 2).
Proof.
  apply (alpha_from_pacl_term (/ 100) DIAM_CLAY DENS_CLAY (/ 100) (/ 100000)
           0 HumicAcid PACl RATIO_HEIGHT_DIAM _ 0 PACl_low_dose_gamma_coag
           (PACl_no_organic_matter (/ 100000) ltac:(lra))).
Defined.

Lemma alpha_range
    (DiamTube DiamClay DensityClay ConcClay ConcAl ConcNatOrgMat : R)
    (NatOrgMat coag : Chemical) (RatioHeightDiameter : R) :
  0 < DiamTube -> 0 < DiamClay -> 0 < DensityClay -> 0 < ConcClay ->
  0 < ConcAl -> 0 <= ConcNatOrgMat -> 0 < RatioHeightDiameter ->
  precipitate_defined coag ->
  positive (Density coag) -> positive (Diameter coag) ->
  positive (Density NatOrgMat) -> positive (Diameter NatOrgMat) ->
  exists t a,
    _pacl_term DiamTube DiamClay DensityClay ConcClay ConcAl ConcNatOrgMat
               NatOrgMat coag RatioHeightDiameter = Ok t
    /\ alpha DiamTube DiamClay DensityClay ConcClay ConcAl ConcNatOrgMat
             NatOrgMat coag RatioHeightDiameter = Ok a
    /\ 0 <= t <= 1
    /\ 0 <= a <= 1.
Proof.
  intros HTube HDiamClay HDens HClay HAl HNom Hr Hcoag Hcd Hcdia Hnd Hndia.
  destruct (gamma_humic_acid_to_coag_range ConcAl ConcNatOrgMat NatOrgMat
              coag HAl HNom Hcoag Hcd Hcdia Hnd Hndia) as (h & Eh & Hh0 & Hh1).
  destruct (precipitate_defined_values coag Hcoag)
    as (pd & pw & pm & (Hpd & Hpw & Hpm) & Ed & Ew & Em).
  destruct Hcdia as (d & Ediam & Hd).
  destruct (gamma_coag_in_range coag d pd pw pm ConcClay DiamTube DiamClay
              DensityClay RatioHeightDiameter Hd Hpd Hpw Hpm Ediam Ed Ew Em
              HClay HDiamClay HTube HDens Hr ConcAl HAl)
    as (g & Eg & [Hg0 Hg1] & _).
  exists (g * (1 - h)), (1 - (1 - g * (1 - h)) ^ 2).
  rewrite (pacl_term_ok _ _ _ _ _ _ _ _ _ _ _ Eg Eh).
  rewrite (alpha_ok _ _ _ _ _ _ _ _ _ _ _ Eg Eh).
  split; [reflexivity |]. split; [f_equal; ring |].
  assert (Ht : 0 <= g * (1 - h) <= 1) by nra.
  split; [exact Ht | nra].
Qed.

(** X18. For strictly positive tube diameter, clay diameter, clay density,
    clay concentration, aluminium dose and aspect ratio, a non-negative
    concentration of organic matter, a coagulant with a defined positive
    precipitate and positive densities and diameters of both species,
    [_pacl_term] and [alpha] return values in the closed interval
    [[0, 1]]. *)
Theorem alpha_in_unit_interval
    (DiamTube DiamClay DensityClay ConcClay ConcAl ConcNatOrgMat : R)
    (NatOrgMat coag : Chemical) (RatioHeightDiameter : R)
    (HTube : 0 < DiamTube) (HDiamClay : 0 < DiamClay)
    (HDens : 0 < DensityClay) (HClay : 0 < ConcClay) (HAl : 0 < ConcAl)
    (HNom : 0 <= ConcNatOrgMat) (Hr : 0 < RatioHeightDiameter)
    (Hcoag : precipitate_defined coag)
    (Hcd : positive (Density coag)) (Hcdia : positive (Diameter coag))
    (Hnd : positive (Density NatOrgMat))
    (Hndia : positive (Diameter NatOrgMat)) :
  exists t a,
    _pacl_term DiamTube DiamClay DensityClay ConcClay ConcAl ConcNatOrgMat
               NatOrgMat coag RatioHeightDiameter = Ok t
    /\ alpha DiamTube DiamClay DensityClay ConcClay ConcAl ConcNatOrgMat
             NatOrgMat coag RatioHeightDiameter = Ok a
    /\ 0 <= t <= 1
    /\ 0 <= a <= 1.
Proof. apply alpha_range; assumption. Qed.

Lemma alpha_in_unit_interval_witness :
  exists t a,
    _pacl_term (/ 100) DIAM_CLAY DENS_CLAY (/ 100) (/ 1000) (/ 100) HumicAcid
               PACl RATIO_HEIGHT_DIAM = Ok t
    /\ alpha (/ 100) DIAM_CLAY DENS_CLAY (/ 100) (/ 1000) (/ 100) HumicAcid
             PACl RATIO_HEIGHT_DIAM = Ok a
    /\ 0 <= t <= 1
    /\ 0 <= a <= 1.
Proof.
  apply (alpha_in_unit_interval (/ 100) DIAM_CLAY DENS_CLAY (/ 100) (/ 1000)
           (/ 100) HumicAcid PACl RATIO_HEIGHT_DIAM);
    try apply PACl_precipitate_defined;
    try apply PACl_density_positive; try apply PACl_diameter_positive;
    try apply HumicAcid_density_positive;
    try apply HumicAcid_diameter_positive;
    unfold DIAM_CLAY, DENS_CLAY, RATIO_HEIGHT_DIAM; lra.
Defined.

(** X19. At a zero aluminium dose [gamma_coag] returns a coverage of 0, but
    [gamma_humic_acid_to_coag], and with it [_pacl_term] and [alpha], raise
    [ZeroDivisionError]: the organic-matter ratio divides by the precipitate
    concentration.  At a zero clay concentration [gamma_coag] itself raises
    [ZeroDivisionError]. *)
Theorem zero_concentration_behaviour
    (DiamTube DiamClay DensityClay ConcClay ConcAl ConcNatOrgMat : R)
    (NatOrgMat coag : Chemical) (RatioHeightDiameter : R)
    (HTube : 0 < DiamTube) (HDiamClay : 0 < DiamClay)
    (HDens : 0 < DensityClay) (HClay : 0 < ConcClay)
    (Hr : 0 < RatioHeightDiameter)
    (Hcoag : precipitate_defined coag) (Hcdia : positive (Diameter coag)) :
  gamma_coag ConcClay 0 coag DiamTube DiamClay DensityClay RatioHeightDiameter
  = Ok 0
  /\ gamma_humic_acid_to_coag 0 ConcNatOrgMat NatOrgMat coag
     = Raise ZeroDivisionError
  /\ _pacl_term DiamTube DiamClay DensityClay ConcClay 0 ConcNatOrgMat
                NatOrgMat coag RatioHeightDiameter = Raise ZeroDivisionError
  /\ alpha DiamTube DiamClay DensityClay ConcClay 0 ConcNatOrgMat NatOrgMat
           coag RatioHeightDiameter = Raise ZeroDivisionError
  /\ gamma_coag 0 ConcAl coag DiamTube DiamClay DensityClay
                RatioHeightDiameter = Raise ZeroDivisionError.
Proof.
  destruct (precipitate_defined_values coag Hcoag)
    as (pd & pw & pm & (Hpd & Hpw & Hpm) & Ed & Ew & Em).
  destruct Hcdia as (d & Ediam & Hd).
  assert (Eg : gamma_coag ConcClay 0 coag DiamTube DiamClay DensityClay
                          RatioHeightDiameter = Ok 0).
  { rewrite (gamma_coag_ok coag d pd pw pm) by assumption. f_equal.
    unfold gamma_coag_exponent.
    replace (frac_vol_val 0 0 pd pw pm) with 0
      by (unfold frac_vol_val; rewrite conc_precipitate_val_0;
          unfold Rdiv; ring).
    unfold Rdiv. rewrite Ropp_0, !Rmult_0_l, exp_0.
    rewrite np_one_minus_unsaturated by lra. ring. }
  assert (Eh : gamma_humic_acid_to_coag 0 ConcNatOrgMat NatOrgMat coag
               = Raise ZeroDivisionError).
  { unfold gamma_humic_acid_to_coag.
    rewrite (conc_precipitate_ok coag pw pm) by assumption. cbn [bind].
    rewrite py_div_zero by apply conc_precipitate_val_0. reflexivity. }
  assert (Et : _pacl_term DiamTube DiamClay DensityClay ConcClay 0
                          ConcNatOrgMat NatOrgMat coag RatioHeightDiameter
               = Raise ZeroDivisionError).
  { unfold _pacl_term. rewrite Eg. cbn [bind]. rewrite Eh. reflexivity. }
  split; [exact Eg | split; [exact Eh | split; [exact Et | split]]].
  - unfold alpha, alpha_pacl_nat_org_mat. rewrite Et. reflexivity.
  - unfold gamma_coag.
    rewrite !(frac_vol_floc_initial_ok coag pd pw pm) by assumption.
    cbn [bind]. rewrite Ediam. cbn [num bind].
    rewrite py_div_zero; [reflexivity |].
    unfold frac_vol_val. rewrite conc_precipitate_val_0.
    unfold Rdiv. ring.
Qed.

Lemma zero_concentration_behaviour_witness :
  gamma_coag (/ 100) 0 PACl (/ 100) DIAM_CLAY DENS_CLAY RATIO_HEIGHT_DIAM
  = Ok 0
  /\ gamma_humic_acid_to_coag 0 (/ 100) HumicAcid PACl
     = Raise ZeroDivisionError
  /\ _pacl_term (/ 100) DIAM_CLAY DENS_CLAY (/ 100) 0 (/ 100) HumicAcid PACl
                RATIO_HEIGHT_DIAM = Raise ZeroDivisionError
  /\ alpha (/ 100) DIAM_CLAY DENS_CLAY (/ 100) 0 (/ 100) HumicAcid PACl
           RATIO_HEIGHT_DIAM = Raise ZeroDivisionError
  /\ gamma_coag 0 (/ 1000) PACl (/ 100) DIAM_CLAY DENS_CLAY
                RATIO_HEIGHT_DIAM = Raise ZeroDivisionError.
Proof.
  apply (zero_concentration_behaviour (/ 100) DIAM_CLAY DENS_CLAY (/ 100)
           (/ 1000) (/ 100) HumicAcid PACl RATIO_HEIGHT_DIAM);
    try apply PACl_precipitate_defined; try apply PACl_diameter_positive;
    unfold DIAM_CLAY, DENS_CLAY, RATIO_HEIGHT_DIAM; lra.
Defined.

(** X20. For positive arguments [ratio_area_clay_total] lies strictly
    between 0 and 1, and it grows with the tube diameter: a wider tube takes
    a smaller share of the coagulant. *)
Theorem ratio_area_clay_total_bounds (ConcClay DiamClay D1 D2 DensityClay
    RatioHeightDiameter : R)
    (HClay : 0 < ConcClay) (HDiamClay : 0 < DiamClay)
    (HD1 : 0 < D1) (HD12 : D1 < D2)
    (HDens : 0 < DensityClay) (Hr : 0 < RatioHeightDiameter) :
  exists a1 a2,
    ratio_area_clay_total ConcClay DiamClay D1 DensityClay
                          RatioHeightDiameter = Ok a1
    /\ ratio_area_clay_total ConcClay DiamClay D2 DensityClay
                             RatioHeightDiameter = Ok a2
    /\ 0 < a1 < a2 /\ a2 < 1.
Proof.
  assert (HD2 : 0 < D2) by lra.
  pose proof (ratio_area_clay_total_val_bounds ConcClay DiamClay D1
                DensityClay RatioHeightDiameter HClay HDiamClay HD1 HDens Hr)
    as [H1lo H1hi].
  pose proof (ratio_area_clay_total_val_bounds ConcClay DiamClay D2
                DensityClay RatioHeightDiameter HClay HDiamClay HD2 HDens Hr)
    as [H2lo H2hi].
  eexists. eexists.
  split; [apply ratio_area_clay_total_ok; assumption |].
  split; [apply ratio_area_clay_total_ok; assumption |].
  split; [split; [exact H1lo |] | exact H2hi].
  unfold ratio_area_clay_total_val.
  pose proof (ratio_clay_sphere_val_pos RatioHeightDiameter Hr) as Hs.
  pose proof (wall_term_pos ConcClay DiamClay D1 DensityClay
                RatioHeightDiameter HClay HDiamClay HD1 HDens Hr) as Hx1.
  pose proof (wall_term_pos ConcClay DiamClay D2 DensityClay
                RatioHeightDiameter HClay HDiamClay HD2 HDens Hr) as Hx2.
  set (k := ratio_clay_sphere_val RatioHeightDiameter * (ConcClay / DensityClay)).
  assert (Hk : 0 < k).
  { apply Rmult_lt_0_compat; [assumption | apply Rdiv_lt_0_compat; assumption]. }
  replace (3 * D1 * ratio_clay_sphere_val RatioHeightDiameter
           * (ConcClay / DensityClay)) with (3 * D1 * k) in *
    by (unfold k; ring).
  replace (3 * D2 * ratio_clay_sphere_val RatioHeightDiameter
           * (ConcClay / DensityClay)) with (3 * D2 * k) in *
    by (unfold k; ring).
  assert (Hlt : 2 * DiamClay / (3 * D2 * k) < 2 * DiamClay / (3 * D1 * k)).
  { unfold Rdiv. apply Rmult_lt_compat_l; [lra |].
    apply Rinv_lt_contravar.
    - apply Rmult_lt_0_compat; apply Rmult_lt_0_compat; lra.
    - apply Rmult_lt_compat_r; lra. }
  unfold Rdiv at 1 3. rewrite !Rmult_1_l.
  apply Rinv_lt_contravar; [| lra].
  apply Rmult_lt_0_compat; lra.
Qed.

Lemma ratio_area_clay_total_bounds_witness :
  exists a1 a2,
    ratio_area_clay_total (/ 100) DIAM_CLAY (/ 100) DENS_CLAY
                          RATIO_HEIGHT_DIAM = Ok a1
    /\ ratio_area_clay_total (/ 100) DIAM_CLAY (/ 10) DENS_CLAY
                             RATIO_HEIGHT_DIAM = Ok a2
    /\ 0 < a1 < a2 /\ a2 < 1.
Proof.
  apply (ratio_area_clay_total_bounds (/ 100) DIAM_CLAY (/ 100) (/ 10)
           DENS_CLAY RATIO_HEIGHT_DIAM);
    unfold DIAM_CLAY, DENS_CLAY, RATIO_HEIGHT_DIAM; lra.
Defined.

(** ** Collision times *)

Lemma Rpower_half_sqrt (x : R) : 0 < x -> Rpower x (1 / 2) = sqrt x.
Proof.
  intros Hx. replace (1 / 2) with (/ 2) by lra. apply Rpower_sqrt. assumption.
Qed.

Lemma time_col_laminar_ok (pc : physchem) (ConcAl ConcClay : R)
    (coag : Chemical) (DiamFractal DiamInit DiamTarget EnergyDis Temp
    DiamTube RatioHeightDiameter DensityClay phi0 g : R) :
  frac_vol_floc_initial ConcAl ConcClay coag = Ok phi0 -> 0 < phi0 ->
  gamma_coag ConcClay ConcAl coag DiamTube DiamInit DensityClay
             RatioHeightDiameter = Ok g -> g <> 0 ->
  0 < viscosity_kinematic pc Temp -> 0 < EnergyDis ->
  0 < DiamInit -> 0 < DiamTarget ->
  time_col_laminar pc ConcAl ConcClay coag DiamFractal DiamInit DiamTarget
                   EnergyDis Temp DiamTube RatioHeightDiameter DensityClay
  = Ok (1 / 6 * Rpower (6 / PI) (1 / 3) * Rpower phi0 (- 2 / 3)
        * Rpower (viscosity_kinematic pc Temp / EnergyDis) (1 / 2)
        * Rpower (DiamTarget / DiamInit) (2 * DiamFractal / 3 - 2) / g).
Proof.
  intros Hphi Hpos Hg Hg0 Hnu He Hd0 Hdt. pose proof PI_RGT_0 as Hpi.
  unfold time_col_laminar.
  rewrite py_pow_pos by (apply Rdiv_lt_0_compat; lra). cbn [bind].
  rewrite Hphi. cbn [bind]. rewrite py_pow_pos by assumption. cbn [bind].
  rewrite py_div_ok by lra. cbn [bind].
  rewrite py_pow_pos by (apply Rdiv_lt_0_compat; assumption). cbn [bind].
  rewrite py_div_ok by lra. cbn [bind].
  rewrite py_pow_pos by (apply Rdiv_lt_0_compat; assumption). cbn [bind].
  rewrite Hg. cbn [bind]. unfold np_div.
  destruct (Req_dec_T g 0); [contradiction | reflexivity].
Qed.

(** X21. With everything else fixed, the laminar collision time falls with
    the square root of the energy dissipation rate: multiplying the rate by
    [c > 0] divides [time_col_laminar] by [sqrt c]. *)
Theorem time_col_laminar_energy_scaling (pc : physchem) (ConcAl ConcClay : R)
    (coag : Chemical) (DiamFractal DiamInit DiamTarget EnergyDis Temp
    DiamTube RatioHeightDiameter DensityClay phi0 g c : R)
    (Hphi : frac_vol_floc_initial ConcAl ConcClay coag = Ok phi0)
    (Hpos : 0 < phi0)
    (Hg : gamma_coag ConcClay ConcAl coag DiamTube DiamInit DensityClay
                     RatioHeightDiameter = Ok g)
    (Hg0 : g <> 0)
    (Hnu : 0 < viscosity_kinematic pc Temp) (He : 0 < EnergyDis)
    (Hd0 : 0 < DiamInit) (Hdt : 0 < DiamTarget) (Hc : 0 < c) :
  exists t1 t2,
    time_col_laminar pc ConcAl ConcClay coag DiamFractal DiamInit DiamTarget
                     EnergyDis Temp DiamTube RatioHeightDiameter DensityClay
    = Ok t1
    /\ time_col_laminar pc ConcAl ConcClay coag DiamFractal DiamInit
                        DiamTarget (c * EnergyDis) Temp DiamTube
                        RatioHeightDiameter DensityClay
       = Ok t2
    /\ t1 = t2 * sqrt c.
Proof.
  assert (Hce : 0 < c * EnergyDis) by (apply Rmult_lt_0_compat; assumption).
  eexists. eexists.
  split; [apply (time_col_laminar_ok pc ConcAl ConcClay coag DiamFractal
                   DiamInit DiamTarget EnergyDis Temp DiamTube
                   RatioHeightDiameter DensityClay phi0 g); assumption |].
  split; [apply (time_col_laminar_ok pc ConcAl ConcClay coag DiamFractal
                   DiamInit DiamTarget (c * EnergyDis) Temp DiamTube
                   RatioHeightDiameter DensityClay phi0 g); assumption |].
  set (nu := viscosity_kinematic pc Temp) in *.
  replace (nu / EnergyDis) with (nu / (c * EnergyDis) * c) by (field; lra).
  rewrite <- Rpower_mult_distr
    by (assumption || apply Rdiv_lt_0_compat; assumption).
  rewrite (Rpower_half_sqrt c) by assumption.
  field. assumption.
Qed.

Lemma PACl_typical_dose_exponent :
  - 30 < gamma_coag_exponent (/ 100) (/ 1000) (nm_to_m 90) 1138 1.039 13
                             (/ 100) DIAM_CLAY DENS_CLAY RATIO_HEIGHT_DIAM.
Proof.
  unfold gamma_coag_exponent.
  pose proof PI_gt_3 as Hpi.
  pose proof ratio_clay_sphere_val_default as Hs.
  assert (Hrac : 0 < ratio_area_clay_total_val (/ 100) DIAM_CLAY (/ 100)
                       DENS_CLAY RATIO_HEIGHT_DIAM < 1).
  { apply ratio_area_clay_total_val_bounds;
      unfold DIAM_CLAY, DENS_CLAY, RATIO_HEIGHT_DIAM; lra. }
  set (rac := ratio_area_clay_total_val _ _ _ _ _) in *.
  set (rcs := ratio_clay_sphere_val RATIO_HEIGHT_DIAM) in *.
  set (X := frac_vol_val (/ 1000) 0 1138 1.039 13 * DIAM_CLAY
            / (frac_vol_val 0 (/ 100) 1138 1.039 13 * nm_to_m 90)).
  assert (HX : 0 < X < 54).
  { unfold X, frac_vol_val, conc_precipitate_val, MOLEC_WEIGHT_ALUMINUM,
      DENS_CLAY, DIAM_CLAY, nm_to_m. lra. }
  assert (Hinvpi : 0 < 1 / PI < / 3).
  { split.
    - apply Rdiv_lt_0_compat; lra.
    - unfold Rdiv. rewrite Rmult_1_l. apply Rinv_lt_contravar; lra. }
  assert (Hb : 0 < rac / rcs < 5 / 3).
  { split.
    - apply Rdiv_lt_0_compat; lra.
    - apply Rmult_lt_reg_r with rcs; [lra |].
      unfold Rdiv. rewrite Rmult_assoc, Rinv_l by lra. nra. }
  replace (- frac_vol_val (/ 1000) 0 1138 1.039 13 * DIAM_CLAY
           / (frac_vol_val 0 (/ 100) 1138 1.039 13 * nm_to_m 90))
    with (- X) by (unfold X, Rdiv; ring).
  set (P := 1 / PI) in *. set (B := rac / rcs) in *.
  assert (HPB : 0 < P * B < 5 / 9) by nra.
  nra.
Qed.

Lemma PACl_gamma_coag_at_clay_size :
  gamma_coag (/ 100) (/ 1000) PACl (/ 100) DIAM_CLAY DENS_CLAY
             RATIO_HEIGHT_DIAM
  = Ok (1 - exp (gamma_coag_exponent (/ 100) (/ 1000) (nm_to_m 90) 1138
                   1.039 13 (/ 100) DIAM_CLAY DENS_CLAY RATIO_HEIGHT_DIAM)).
Proof.
  apply (gamma_coag_ok_unsaturated PACl (nm_to_m 90) 1138 1.039 13);
    try reflexivity;
    try (unfold nm_to_m, DIAM_CLAY, DENS_CLAY, RATIO_HEIGHT_DIAM; lra).
  apply exp_not_absorbed, PACl_typical_dose_exponent.
Qed.

Lemma PACl_gamma_coag_nonzero :
  1 - exp (gamma_coag_exponent (/ 100) (/ 1000) (nm_to_m 90) 1138 1.039 13
             (/ 100) DIAM_CLAY DENS_CLAY RATIO_HEIGHT_DIAM) <> 0.
Proof.
  assert (H : gamma_coag_exponent (/ 100) (/ 1000) (nm_to_m 90) 1138 1.039 13
                (/ 100) DIAM_CLAY DENS_CLAY RATIO_HEIGHT_DIAM < 0).
  { apply expo_neg;
      unfold nm_to_m, DIAM_CLAY, DENS_CLAY, RATIO_HEIGHT_DIAM; lra. }
  apply exp_increasing in H. rewrite exp_0 in H. lra.
Qed.

Lemma time_col_laminar_energy_scaling_witness :
  exists t1 t2,
    time_col_laminar pc_room (/ 1000) (/ 100) PACl DIAM_FRACTAL DIAM_CLAY
                     (/ 1000) (/ 100) 293 (/ 100) RATIO_HEIGHT_DIAM DENS_CLAY
    = Ok t1
    /\ time_col_laminar pc_room (/ 1000) (/ 100) PACl DIAM_FRACTAL DIAM_CLAY
                        (/ 1000) (4 * / 100) 293 (/ 100) RATIO_HEIGHT_DIAM
                        DENS_CLAY
       = Ok t2
    /\ t1 = t2 * sqrt 4.
Proof.
  apply (time_col_laminar_energy_scaling pc_room (/ 1000) (/ 100) PACl
           DIAM_FRACTAL DIAM_CLAY (/ 1000) (/ 100) 293 (/ 100)
           RATIO_HEIGHT_DIAM DENS_CLAY _ _ 4
           PACl_frac_vol_floc_initial PACl_frac_vol_val_pos
           PACl_gamma_coag_at_clay_size PACl_gamma_coag_nonzero);
    cbn [pc_room viscosity_kinematic]; unfold DIAM_CLAY; lra.
Defined.

Lemma time_col_turbulent_ok (ConcAl ConcClay : R) (coag : Chemical)
    (DiamFractal DiamInit DiamTarget EnergyDis phi0 : R) :
  frac_vol_floc_initial ConcAl ConcClay coag = Ok phi0 -> 0 < phi0 ->
  0 < EnergyDis -> 0 < DiamInit -> 0 < DiamTarget ->
  time_col_turbulent ConcAl ConcClay coag DiamFractal DiamInit DiamTarget
                     EnergyDis
  = Ok (1 / 6 * Rpower (6 / PI) (1 / 9) * Rpower EnergyDis (- 1 / 3)
        * Rpower DiamTarget (2 / 3) * Rpower phi0 (- 8 / 9)
        * Rpower (DiamTarget / DiamInit) (8 * (DiamFractal - 3) / 9)).
Proof.
  intros Hphi Hpos He Hd0 Hdt. pose proof PI_RGT_0 as Hpi.
  unfold time_col_turbulent.
  rewrite py_pow_pos by (apply Rdiv_lt_0_compat; lra). cbn [bind].
  rewrite py_pow_pos by assumption. cbn [bind].
  rewrite py_pow_pos by assumption. cbn [bind].
  rewrite Hphi. cbn [bind]. rewrite py_pow_pos by assumption. cbn [bind].
  rewrite py_div_ok by lra. cbn [bind].
  rewrite py_pow_pos by (apply Rdiv_lt_0_compat; assumption). reflexivity.
Qed.

(** X22. With everything else fixed, the turbulent collision time falls with
    the cube root of the energy dissipation rate: multiplying the rate by
    [c > 0] divides [time_col_turbulent] by [c ** (1/3)]. *)
Theorem time_col_turbulent_energy_scaling (ConcAl ConcClay : R)
    (coag : Chemical)
    (DiamFractal DiamInit DiamTarget EnergyDis phi0 c : R)
    (Hphi : frac_vol_floc_initial ConcAl ConcClay coag = Ok phi0)
    (Hpos : 0 < phi0) (He : 0 < EnergyDis)
    (Hd0 : 0 < DiamInit) (Hdt : 0 < DiamTarget) (Hc : 0 < c) :
  exists t1 t2,
    time_col_turbulent ConcAl ConcClay coag DiamFractal DiamInit DiamTarget
                       EnergyDis = Ok t1
    /\ time_col_turbulent ConcAl ConcClay coag DiamFractal DiamInit
                          DiamTarget (c * EnergyDis) = Ok t2
    /\ 0 < t2
    /\ t1 = t2 * Rpower c (1 / 3).
Proof.
  assert (Hce : 0 < c * EnergyDis) by (apply Rmult_lt_0_compat; assumption).
  pose proof PI_RGT_0 as Hpi.
  eexists. eexists.
  split; [apply (time_col_turbulent_ok ConcAl ConcClay coag DiamFractal
                   DiamInit DiamTarget EnergyDis phi0); assumption |].
  split; [apply (time_col_turbulent_ok ConcAl ConcClay coag DiamFractal
                   DiamInit DiamTarget (c * EnergyDis) phi0); assumption |].
  split.
  - pose proof (Rpower_pos (6 / PI) (1 / 9)) as H1.
    pose proof (Rpower_pos (c * EnergyDis) (- 1 / 3)) as H2.
    pose proof (Rpower_pos DiamTarget (2 / 3)) as H3.
    pose proof (Rpower_pos phi0 (- 8 / 9)) as H4.
    pose proof (Rpower_pos (DiamTarget / DiamInit)
                  (8 * (DiamFractal - 3) / 9)) as H5.
    apply Rmult_lt_0_compat; [| exact H5].
    apply Rmult_lt_0_compat; [| exact H4].
    apply Rmult_lt_0_compat; [| exact H3].
    apply Rmult_lt_0_compat; [| exact H2].
    apply Rmult_lt_0_compat; [lra | exact H1].
  - rewrite <- (Rpower_mult_distr c EnergyDis) by assumption.
    replace (Rpower c (1 / 3)) with (/ Rpower c (- 1 / 3)).
    + pose proof (Rpower_pos c (- 1 / 3)) as Hp. field. lra.
    + rewrite <- Rpower_Ropp. f_equal. lra.
Qed.

Lemma time_col_turbulent_energy_scaling_witness :
  exists t1 t2,
    time_col_turbulent (/ 1000) (/ 100) PACl DIAM_FRACTAL DIAM_CLAY (/ 1000)
                       (/ 100) = Ok t1
    /\ time_col_turbulent (/ 1000) (/ 100) PACl DIAM_FRACTAL DIAM_CLAY
                          (/ 1000) (8 * / 100) = Ok t2
    /\ 0 < t2
    /\ t1 = t2 * Rpower 8 (1 / 3).
Proof.
  apply (time_col_turbulent_energy_scaling (/ 1000) (/ 100) PACl DIAM_FRACTAL
           DIAM_CLAY (/ 1000) (/ 100) _ 8
           PACl_frac_vol_floc_initial PACl_frac_vol_val_pos);
    unfold DIAM_CLAY; lra.
Defined.

(** X23. At a zero energy dissipation rate [time_col_turbulent] raises
    [ZeroDivisionError] before it reads the coagulant, whatever the other
    arguments: zero is raised to the power [-1/3]. *)
Theorem time_col_turbulent_zero_energy (ConcAl ConcClay : R)
    (coag : Chemical) (DiamFractal DiamInit DiamTarget : R) :
  time_col_turbulent ConcAl ConcClay coag DiamFractal DiamInit DiamTarget 0
  = Raise ZeroDivisionError.
Proof.
  unfold time_col_turbulent. pose proof PI_RGT_0 as Hpi.
  rewrite py_pow_pos by (apply Rdiv_lt_0_compat; lra). cbn [bind].
  unfold py_pow at 1.
  destruct (Rlt_dec 0 0) as [H | _]; [lra |].
  destruct (Req_dec_T 0 0) as [_ | N]; [| contradiction N; reflexivity].
  destruct (Rlt_dec (- 1 / 3) 0) as [_ | N]; [reflexivity | lra].
Qed.

(** ** Flocculation performance *)

Lemma ln_ge_0 (x : R) : 1 <= x -> 0 <= ln x.
Proof.
  intros [H | <-].
  - left. rewrite <- ln_1. apply ln_increasing; lra.
  - rewrite ln_1. lra.
Qed.

Lemma ln_10_pos : 0 < ln 10.
Proof. rewrite <- ln_1. apply ln_increasing; lra. Qed.

(** X24. For valid positive inputs, a non-negative energy dissipation rate,
    residence time and fitting parameter, [pc_viscous] returns a
    non-negative number: the argument of its logarithm is at least 1. *)
Theorem pc_viscous_nonnegative (pc : physchem)
    (EnergyDis Temp Time DiamInit DiamTube DiamClay DensityClay ConcClay
     ConcAl ConcNatOrgMat : R) (NatOrgMat coag : Chemical)
    (FittingParam RatioHeightDiameter : R)
    (He : 0 <= EnergyDis) (Hnu : 0 < viscosity_kinematic pc Temp)
    (HTime : 0 <= Time) (HFit : 0 <= FittingParam) (Hd0 : 0 < DiamInit)
    (HTube : 0 < DiamTube) (HDiamClay : 0 < DiamClay)
    (HDens : 0 < DensityClay) (HClay : 0 < ConcClay) (HAl : 0 < ConcAl)
    (HNom : 0 <= ConcNatOrgMat) (Hr : 0 < RatioHeightDiameter)
    (Hcoag : precipitate_defined coag)
    (Hcd : positive (Density coag)) (Hcdia : positive (Diameter coag))
    (Hnd : positive (Density NatOrgMat))
    (Hndia : positive (Diameter NatOrgMat)) :
  exists v,
    pc_viscous pc EnergyDis Temp Time DiamInit DiamTube DiamClay DensityClay
               ConcClay ConcAl ConcNatOrgMat NatOrgMat coag FittingParam
               RatioHeightDiameter = Ok v
    /\ 0 <= v.
Proof.
  pose proof PI_RGT_0 as Hpi.
  destruct (alpha_range DiamTube DiamClay DensityClay ConcClay ConcAl
              ConcNatOrgMat NatOrgMat coag RatioHeightDiameter HTube HDiamClay
              HDens HClay HAl HNom Hr Hcoag Hcd Hcdia Hnd Hndia)
    as (t & a & _ & Ea & _ & Ha0 & _).
  unfold pc_viscous.
  rewrite py_div_ok by lra. cbn [bind].
  assert (Hq : 0 <= EnergyDis / viscosity_kinematic pc Temp).
  { unfold Rdiv. apply Rmult_le_pos; [assumption |].
    left. apply Rinv_0_lt_compat. assumption. }
  unfold np_sqrt.
  destruct (Rle_dec 0 (EnergyDis / viscosity_kinematic pc Temp)) as [_ | N];
    [| contradiction].
  cbn [bind]. rewrite Ea. cbn [bind].
  unfold sep_dist_clay. rewrite py_div_ok by lra. cbn [bind].
  assert (Hb : 0 < DENS_CLAY / ConcClay * (PI * DiamInit ^ 3 / 6)).
  { assert (H3 : 0 < DiamInit ^ 3) by (apply pow_lt; assumption).
    assert (Hv : 0 < PI * DiamInit ^ 3)
      by (apply Rmult_lt_0_compat; assumption).
    unfold DENS_CLAY. apply Rmult_lt_0_compat; apply Rdiv_lt_0_compat; lra. }
  rewrite py_pow_pos by exact Hb. cbn [bind].
  pose proof (Rpower_pos (DENS_CLAY / ConcClay * (PI * DiamInit ^ 3 / 6))
                (1 / 3)) as Hs.
  rewrite py_div_ok by lra. cbn [bind].
  set (s := sqrt (EnergyDis / viscosity_kinematic pc Temp)).
  set (r := DiamInit / Rpower _ _).
  assert (Hsq : 0 <= s) by apply sqrt_pos.
  assert (Hr2 : 0 <= r ^ 2) by apply pow2_ge_0.
  assert (Harg : 1 <= 2 / 3 * PI * FittingParam * Time * s * a * r ^ 2 + 1).
  { assert (H1 : 0 <= 2 / 3 * PI * FittingParam) by
      (apply Rmult_le_pos; [lra | assumption]).
    assert (H2 : 0 <= 2 / 3 * PI * FittingParam * Time)
      by (apply Rmult_le_pos; assumption).
    assert (H3 : 0 <= 2 / 3 * PI * FittingParam * Time * s)
      by (apply Rmult_le_pos; assumption).
    assert (H4 : 0 <= 2 / 3 * PI * FittingParam * Time * s * a)
      by (apply Rmult_le_pos; assumption).
    assert (H5 : 0 <= 2 / 3 * PI * FittingParam * Time * s * a * r ^ 2)
      by (apply Rmult_le_pos; assumption).
    lra. }
  rewrite np_log10_pos by lra. cbn [bind].
  eexists. split; [reflexivity |].
  pose proof (ln_ge_0 _ Harg) as Hln. pose proof ln_10_pos as H10.
  apply Rmult_le_pos; [lra |].
  unfold Rdiv. apply Rmult_le_pos; [assumption |].
  left. apply Rinv_0_lt_compat. assumption.
Qed.

Lemma pc_viscous_nonnegative_witness :
  exists v,
    pc_viscous pc_room (/ 100) 293 100 DIAM_CLAY (/ 100) DIAM_CLAY DENS_CLAY
               (/ 100) (/ 1000) (/ 100) HumicAcid PACl (/ 10)
               RATIO_HEIGHT_DIAM = Ok v
    /\ 0 <= v.
Proof.
  apply (pc_viscous_nonnegative pc_room (/ 100) 293 100 DIAM_CLAY (/ 100)
           DIAM_CLAY DENS_CLAY (/ 100) (/ 1000) (/ 100) HumicAcid PACl
           (/ 10) RATIO_HEIGHT_DIAM);
    try apply PACl_precipitate_defined;
    try apply PACl_density_positive; try apply PACl_diameter_positive;
    try apply HumicAcid_density_positive;
    try apply HumicAcid_diameter_positive;
    cbn [pc_room viscosity_kinematic];
    unfold DIAM_CLAY, DENS_CLAY, RATIO_HEIGHT_DIAM; lra.
Defined.

(** ** The Chemical class *)

(** X25. An inf or nan from numpy does not stop the evaluation of the rest
    of an expression.  At zero flow, where [g_coil] is nan, [g_time_res]
    goes on to [time_res_tube] and raises [ZeroDivisionError]; at a negative
    energy dissipation rate, where the square root is nan, [pc_viscous] goes
    on to [alpha] and raises the [AttributeError] of a coagulant whose
    precipitate was never defined. *)
Theorem nonfinite_value_does_not_mask_exception (pc : physchem)
    (IDTube RadiusCoil LengthTube EnergyDis Temp Time DiamInit DiamTube
     DiamClay DensityClay ConcClay ConcAl ConcNatOrgMat : R)
    (NatOrgMat coag : Chemical) (FittingParam RatioHeightDiameter : R)
    (HID : 0 < IDTube) (HR : 0 < RadiusCoil)
    (Hnu : 0 < viscosity_kinematic pc Temp)
    (He : EnergyDis < 0)
    (Hcoag : PrecipMolecWeight coag = None) :
  g_coil pc 0 IDTube RadiusCoil Temp = NonReal
  /\ g_time_res pc 0 IDTube RadiusCoil LengthTube Temp
     = Raise ZeroDivisionError
  /\ pc_viscous pc EnergyDis Temp Time DiamInit DiamTube DiamClay DensityClay
                ConcClay ConcAl ConcNatOrgMat NatOrgMat coag FittingParam
                RatioHeightDiameter
     = Raise AttributeError.
Proof.
  assert (Eg : g_coil pc 0 IDTube RadiusCoil Temp = NonReal).
  { unfold g_coil. rewrite g_straight_ok by assumption. cbn [bind].
    rewrite dean_number_ok by assumption. cbn [bind].
    rewrite np_log10_nonpos; [reflexivity |].
    unfold Rdiv. rewrite Rmult_0_r, !Rmult_0_l. lra. }
  split; [exact Eg | split].
  - unfold g_time_res. rewrite Eg. unfold after_nonreal, time_res_tube.
    rewrite py_div_zero by reflexivity. reflexivity.
  - unfold pc_viscous. rewrite py_div_ok by lra. cbn [bind].
    assert (Hq : EnergyDis / viscosity_kinematic pc Temp < 0).
    { assert (Hi : 0 < / viscosity_kinematic pc Temp)
        by (apply Rinv_0_lt_compat; assumption).
      unfold Rdiv. nra. }
    unfold np_sqrt.
    destruct (Rle_dec 0 (EnergyDis / viscosity_kinematic pc Temp)) as [P | _];
      [lra |].
    unfold after_nonreal, alpha, alpha_pacl_nat_org_mat, _pacl_term,
      gamma_coag, frac_vol_floc_initial, conc_precipitate.
    rewrite Hcoag. reflexivity.
Qed.

Lemma nonfinite_value_does_not_mask_exception_witness :
  g_coil pc_room 0 (/ 100) (/ 10) 293 = NonReal
  /\ g_time_res pc_room 0 (/ 100) (/ 10) 5 293 = Raise ZeroDivisionError
  /\ pc_viscous pc_room (- (1)) 293 100 DIAM_CLAY (/ 100) DIAM_CLAY DENS_CLAY
                (/ 100) (/ 1000) 0 HumicAcid Alum_constructed (/ 10)
                RATIO_HEIGHT_DIAM
     = Raise AttributeError.
Proof.
  apply (nonfinite_value_does_not_mask_exception pc_room (/ 100) (/ 10) 5
           (- (1)) 293 100 DIAM_CLAY (/ 100) DIAM_CLAY DENS_CLAY (/ 100)
           (/ 1000) 0 HumicAcid Alum_constructed (/ 10) RATIO_HEIGHT_DIAM);
    try reflexivity; cbn; lra.
Defined.

(** X26. After [define_Precip] with positive numbers, on a Chemical in any
    state, the precipitate-dependent functions use the precipitate's
    molecular weight, aluminium content and density, not those of the
    species, whose own attributes are unchanged. *)
Theorem define_Precip_then_compute (self : Chemical)
    (diameter : pyval) (pd pw pm ConcAluminum : R)
    (Hpd : 0 < pd) (Hpw : 0 < pw) (Hpm : 0 < pm) :
  let coag := define_Precip self diameter (VNum pd) (VNum pw) (VNum pm) in
  name coag = name self /\ Diameter coag = Diameter self
  /\ Density coag = Density self /\ MolecWeight coag = MolecWeight self
  /\ AluminumMPM coag = AluminumMPM self /\ PrecipName coag = PrecipName self
  /\ precipitate_defined coag
  /\ conc_precipitate ConcAluminum coag
     = Ok (ConcAluminum / MOLEC_WEIGHT_ALUMINUM * (pw / pm))
  /\ dens_alum_nanocluster coag = Ok (pd * MOLEC_WEIGHT_ALUMINUM * pm / pw).
Proof.
  intros coag.
  repeat match goal with |- _ /\ _ => split end; try reflexivity.
  - unfold precipitate_defined, defined_positive, positive. cbn.
    repeat split; eexists; (split; [reflexivity |]); eexists;
      (split; [reflexivity | assumption]).
  - apply (conc_precipitate_ok coag pw pm); try assumption; reflexivity.
  - apply (dens_alum_nanocluster_ok coag pd pw pm); try assumption;
      reflexivity.
Qed.

Lemma define_Precip_then_compute_witness :
  let coag := define_Precip Alum_constructed (VNum (nm_to_m 70)) (VNum 2420)
                            (VNum 0.078) (VNum 1) in
  name coag = name Alum_constructed
  /\ Diameter coag = Diameter Alum_constructed
  /\ Density coag = Density Alum_constructed
  /\ MolecWeight coag = MolecWeight Alum_constructed
  /\ AluminumMPM coag = AluminumMPM Alum_constructed
  /\ PrecipName coag = PrecipName Alum_constructed
  /\ precipitate_defined coag
  /\ conc_precipitate (/ 1000) coag
     = Ok (/ 1000 / MOLEC_WEIGHT_ALUMINUM * (0.078 / 1))
  /\ dens_alum_nanocluster coag = Ok (2420 * MOLEC_WEIGHT_ALUMINUM * 1 / 0.078).
Proof.
  apply (define_Precip_then_compute Alum_constructed (VNum (nm_to_m 70))
           2420 0.078 1 (/ 1000)); lra.
Defined.

(** X27. A self-precipitating species constructed without a molecular
    weight, as the registry's humic acid is, cannot serve as the coagulant:
    the precipitate-dependent functions raise [TypeError] on its [None]. *)
Theorem no_molecular_weight_raises_TypeError (nm : string)
    (diameter : pyval) (density : R) (alumMPM : pyval)
    (ConcAluminum ConcClay : R) :
  let coag := Chemical_init nm diameter (VNum density) VNone nm alumMPM in
  dens_alum_nanocluster coag = Raise TypeError
  /\ conc_precipitate ConcAluminum coag = Raise TypeError
  /\ conc_floc ConcAluminum ConcClay coag = Raise TypeError
  /\ frac_vol_floc_initial ConcAluminum ConcClay coag = Raise TypeError
  /\ dens_floc_init ConcAluminum ConcClay coag = Raise TypeError
  /\ HumicAcid = Chemical_init "Humic Acid" (VNum (72 * / 10 ^ 9))
                               (VNum 1780) VNone "Humic Acid" VNone.
Proof.
  intros coag.
  destruct (Chemical_init_self nm diameter (VNum density) VNone alumMPM)
    as (_ & _ & Ed & Ew & Em).
  fold coag in Ed, Ew, Em.
  assert (Hd : Density coag = VNum density).
  { unfold coag, Chemical_init. destruct (String.eqb nm nm); reflexivity. }
  assert (Hw : MolecWeight coag = VNone).
  { unfold coag, Chemical_init. destruct (String.eqb nm nm); reflexivity. }
  rewrite Hd in Ed. rewrite Hw in Ew.
  assert (Hcp : forall c, conc_precipitate c coag = Raise TypeError).
  { intros c. unfold conc_precipitate. rewrite Ew, Em. reflexivity. }
  assert (Hda : dens_alum_nanocluster coag = Raise TypeError).
  { unfold dens_alum_nanocluster. rewrite Ed, Em, Ew. cbn [attr num bind].
    destruct (AluminumMPM coag); reflexivity. }
  unfold dens_floc_init, frac_vol_floc_initial, conc_floc.
  rewrite Hda, !Hcp. repeat split; reflexivity.
Qed.

(** ** Density of the coagulant solution *)

(** X28. With the registry's PACl, [dens_pacl_solution] never raises: it is
    the density of water at a zero aluminium concentration and grows strictly
    with the concentration. *)
Theorem dens_pacl_solution_increasing (pc : physchem) (c1 c2 temp : R)
    (Hc : c1 < c2) :
  dens_pacl_solution pc 0 temp = Ok (density_water pc temp)
  /\ exists r1 r2,
       dens_pacl_solution pc c1 temp = Ok r1
       /\ dens_pacl_solution pc c2 temp = Ok r2
       /\ r1 < r2.
Proof.
  assert (E : forall c,
             dens_pacl_solution pc c temp
             = Ok (0.492 * c * 1.039 / (13 * MOLEC_WEIGHT_ALUMINUM)
                   + density_water pc temp)).
  { intros c. unfold dens_pacl_solution. cbn [PACl Chemical_init].
    cbn. rewrite py_div_ok by (unfold MOLEC_WEIGHT_ALUMINUM; lra).
    reflexivity. }
  rewrite !E. split.
  - f_equal. unfold Rdiv. ring.
  - eexists. eexists. split; [reflexivity | split; [reflexivity |]].
    unfold MOLEC_WEIGHT_ALUMINUM. lra.
Qed.

Lemma dens_pacl_solution_increasing_witness :
  dens_pacl_solution pc_room 0 293 = Ok (density_water pc_room 293)
  /\ exists r1 r2,
       dens_pacl_solution pc_room (/ 1000) 293 = Ok r1
       /\ dens_pacl_solution pc_room (/ 100) 293 = Ok r2
       /\ r1 < r2.
Proof.
  apply (dens_pacl_solution_increasing pc_room (/ 1000) (/ 100) 293). lra.
Defined.

(** ** Number of collisions *)

(** X29. For a positive fractal dimension and initial diameter,
    [num_coll_reqd] is 0 when the target is the initial diameter and positive
    when the target is larger. *)
Theorem num_coll_reqd_sign (DiamFractal DiamInit DiamTarget : R)
    (Hfd : 0 < DiamFractal) (Hd0 : 0 < DiamInit) (Hdt : DiamInit < DiamTarget) :
  num_coll_reqd DiamFractal DiamInit DiamInit = Ok 0
  /\ exists k,
       num_coll_reqd DiamFractal DiamInit DiamTarget = Ok k /\ 0 < k.
Proof.
  rewrite !num_coll_reqd_ok by lra. split.
  - f_equal. replace (DiamInit / DiamInit) with 1 by (field; lra).
    rewrite ln_1. unfold Rdiv. ring.
  - eexists. split; [reflexivity |].
    assert (Ht : 1 < DiamTarget / DiamInit).
    { apply Rmult_lt_reg_r with DiamInit; [assumption |].
      unfold Rdiv. rewrite Rmult_assoc, Rinv_l by lra. lra. }
    assert (Hl : 0 < ln (DiamTarget / DiamInit))
      by (rewrite <- ln_1; apply ln_increasing; lra).
    assert (H2 : 0 < ln 2) by (rewrite <- ln_1; apply ln_increasing; lra).
    apply Rmult_lt_0_compat; [assumption |].
    apply Rdiv_lt_0_compat; assumption.
Qed.

Lemma num_coll_reqd_sign_witness :
  num_coll_reqd DIAM_FRACTAL (/ 10 ^ 6) (/ 10 ^ 6) = Ok 0
  /\ exists k,
       num_coll_reqd DIAM_FRACTAL (/ 10 ^ 6) (8 * / 10 ^ 6) = Ok k /\ 0 < k.
Proof.
  apply (num_coll_reqd_sign DIAM_FRACTAL (/ 10 ^ 6) (8 * / 10 ^ 6));
    unfold DIAM_FRACTAL; lra.
Defined.

(** X30. Outside their domain the two fractal functions fail in Python's
    own ways: [diam_fractal] raises [ZeroDivisionError] for a fractal
    dimension of 0 and [num_coll_reqd] raises it for an initial diameter of
    0, whatever the other arguments; for a non-positive target over a
    positive initial diameter [num_coll_reqd] raises nothing and returns no
    real number. *)
Theorem fractal_functions_outside_domain (DiamFractal DiamInit DiamTarget : R)
    (Hd0 : 0 < DiamInit) (Hdt : DiamTarget <= 0) :
  (forall d0 n, diam_fractal 0 d0 n = Raise ZeroDivisionError)
  /\ (forall fd dt, num_coll_reqd fd 0 dt = Raise ZeroDivisionError)
  /\ num_coll_reqd DiamFractal DiamInit DiamTarget = NonReal.
Proof.
  split; [| split].
  - intros d0 n. unfold diam_fractal.
    rewrite py_div_zero by reflexivity. reflexivity.
  - intros fd dt. unfold num_coll_reqd.
    rewrite py_div_zero by reflexivity. reflexivity.
  - unfold num_coll_reqd. rewrite py_div_ok by lra. cbn [bind].
    unfold np_log2.
    destruct (Rlt_dec 0 (DiamTarget / DiamInit)) as [H | _]; [| reflexivity].
    exfalso.
    assert (Hi : 0 < / DiamInit) by (apply Rinv_0_lt_compat; assumption).
    unfold Rdiv in H. nra.
Qed.

Lemma fractal_functions_outside_domain_witness :
  (forall d0 n, diam_fractal 0 d0 n = Raise ZeroDivisionError)
  /\ (forall fd dt, num_coll_reqd fd 0 dt = Raise ZeroDivisionError)
  /\ num_coll_reqd DIAM_FRACTAL (/ 10 ^ 6) 0 = NonReal.
Proof.
  apply (fractal_functions_outside_domain DIAM_FRACTAL (/ 10 ^ 6) 0); lra.
Defined.
